(** * Persona backend: a shallow embedding of the request pipeline

    The repository is a set of JavaScript (ES module) files: an HTTP handler
    ([api/generate-personas-v2.js]), a research collector
    ([lib/researchAgent.js]), a persona generator ([lib/personaAgent.js]),
    a two-stage enrichment pipeline ([lib/personaEnrichmentAgent.js] and
    [enrichPersonas] of the generator file), a spreadsheet adapter
    ([lib/sheetsService.js]) and a second-opinion validator
    ([lib/validationAgent.js]).

    JavaScript values are embedded as the inductive type [JSValue]; objects
    are association lists in insertion order (the order is observable
    through [Object.keys]).  Code that can throw returns a [Result]; a
    [try]/[catch] is [try_catch].  What the language runtime and the remote
    services provide (JSON decoding, number formatting, the model replies,
    the HTTP replies, the clock) is a parameter of the definitions: the
    class [Runtime] for the engine, and oracles for the services. *)

From Stdlib Require Import String Ascii List Bool Arith ZArith QArith Lia.
Import ListNotations.

#[local] Open Scope string_scope.
#[local] Open Scope list_scope.
#[local] Open Scope nat_scope.

(** ** Text: the string operations the sources apply

    A string is a sequence of code units; the model takes the code units
    0..255, which the type [ascii] enumerates. *)

Module Text.

Definition code (c : ascii) : nat := nat_of_ascii c.

(** White space of [String.prototype.trim] and of the regexp class [\s],
    within the code units 0..255. *)
Definition is_space (c : ascii) : bool :=
  let n := code c in
  (n =? 9) || (n =? 10) || (n =? 11) || (n =? 12) || (n =? 13)
  || (n =? 32) || (n =? 160).

Fixpoint trimStart (s : string) : string :=
  match s with
  | EmptyString => EmptyString
  | String c r => if is_space c then trimStart r else s
  end.

Fixpoint trimEnd (s : string) : string :=
  match s with
  | EmptyString => EmptyString
  | String c r =>
      match trimEnd r with
      | EmptyString => if is_space c then EmptyString else String c EmptyString
      | r' => String c r'
      end
  end.

Definition trim (s : string) : string := trimEnd (trimStart s).

Definition lower_char (c : ascii) : ascii :=
  let n := code c in
  if ((65 <=? n) && (n <=? 90))
     || ((192 <=? n) && (n <=? 222) && negb (n =? 215))
  then ascii_of_nat (n + 32) else c.

Fixpoint toLowerCase (s : string) : string :=
  match s with
  | EmptyString => EmptyString
  | String c r => String (lower_char c) (toLowerCase r)
  end.

Definition is_empty (s : string) : bool :=
  match s with EmptyString => true | _ => false end.

(** [s.startsWith(p)] and [s.includes(p)]. *)
Fixpoint startsWith (p s : string) : bool :=
  match p, s with
  | EmptyString, _ => true
  | String a p', String b s' => Ascii.eqb a b && startsWith p' s'
  | String _ _, EmptyString => false
  end.

Fixpoint includes (p s : string) : bool :=
  startsWith p s
  || match s with
     | EmptyString => false
     | String _ r => includes p r
     end.

Fixpoint drop (n : nat) (s : string) : string :=
  match n, s with
  | O, _ => s
  | S n', String _ r => drop n' r
  | S _, EmptyString => EmptyString
  end.

(** The longest prefix of [s] that ends with the character [c]. *)
Fixpoint upto_last (c : ascii) (s : string) : option string :=
  match s with
  | EmptyString => None
  | String a r =>
      match upto_last c r with
      | Some p => Some (String a p)
      | None => if Ascii.eqb a c then Some (String a EmptyString) else None
      end
  end.

(** [s.match(/O[\s\S]*C/)] for single characters [O] and [C]: the match
    starts at the first [O] and, the star being greedy, ends at the last
    [C] behind it; there is no match when no [C] follows the first [O]
    (then none follows a later [O] either). *)
Fixpoint match_delimited (o c : ascii) (s : string) : option string :=
  match s with
  | EmptyString => None
  | String a r =>
      if Ascii.eqb a o then option_map (String a) (upto_last c r)
      else match_delimited o c r
  end.

(** [/\{[\s\S]*\}/] and [/\[[\s\S]*\]/]. *)
Definition match_object (s : string) : option string :=
  match_delimited "{"%char "}"%char s.
Definition match_array (s : string) : option string :=
  match_delimited "["%char "]"%char s.

(** [s.split(/[,;]/)]. *)
Fixpoint split_on (sep : ascii -> bool) (s : string) : list string :=
  match s with
  | EmptyString => [EmptyString]
  | String a r =>
      if sep a then EmptyString :: split_on sep r
      else match split_on sep r with
           | h :: t => String a h :: t
           | [] => [String a EmptyString]
           end
  end.

(** [s.split('T')[0]]. *)
Fixpoint upto_date (s : string) : string :=
  match s with
  | EmptyString => EmptyString
  | String a r => if Ascii.eqb a "T"%char then EmptyString
                  else String a (upto_date r)
  end.

Definition is_list_separator (c : ascii) : bool :=
  Ascii.eqb c ","%char || Ascii.eqb c ";"%char.

(** [s.replace(/\s+/g, '_')]: every maximal run of white space becomes
    one underscore. *)
Fixpoint replace_spaces (in_run : bool) (s : string) : string :=
  match s with
  | EmptyString => EmptyString
  | String a r =>
      if is_space a
      then if in_run then replace_spaces true r
           else String "_"%char (replace_spaces true r)
      else String a (replace_spaces false r)
  end.

Fixpoint join (sep : string) (l : list string) : string :=
  match l with
  | [] => EmptyString
  | [x] => x
  | x :: r => x ++ sep ++ join sep r
  end.

(** Decimal numerals. *)
Definition digit_char (d : nat) : ascii := ascii_of_nat (48 + d).

Definition digit_value (c : ascii) : option Z :=
  let n := code c in
  if (48 <=? n) && (n <=? 57) then Some (Z.of_nat (n - 48)) else None.

Definition hex_value (c : ascii) : option Z :=
  let n := code c in
  if (48 <=? n) && (n <=? 57) then Some (Z.of_nat (n - 48))
  else if (65 <=? n) && (n <=? 70) then Some (Z.of_nat (n - 55))
  else if (97 <=? n) && (n <=? 102) then Some (Z.of_nat (n - 87))
  else None.

(** Reads the longest prefix of digits in the given radix; the result is
    the value read so far, the number of digits, and the rest. *)
Fixpoint read_digits (value_of : ascii -> option Z) (radix : Z)
         (acc : Z) (count : nat) (s : string) : Z * nat * string :=
  match s with
  | EmptyString => (acc, count, s)
  | String a r =>
      match value_of a with
      | Some d => read_digits value_of radix (radix * acc + d)%Z (S count) r
      | None => (acc, count, s)
      end
  end.

(** The decimal numeral of a natural number, built from the least
    significant digit; [fuel] bounds the number of digits. *)
Fixpoint print_digits (fuel : nat) (n : Z) (acc : string) : string :=
  match fuel with
  | O => acc
  | S fuel' =>
      let acc' := String (digit_char (Z.to_nat (n mod 10))) acc in
      if (n / 10 =? 0)%Z then acc' else print_digits fuel' (n / 10)%Z acc'
  end.

Definition decimal_of_Z (z : Z) : string :=
  let body n := print_digits (S (Z.to_nat (Z.log2 n))) n EmptyString in
  if (z <? 0)%Z then String "-"%char (body (- z)%Z) else body z.

Definition decimal_of_nat (n : nat) : string := decimal_of_Z (Z.of_nat n).

Definition all_digits (s : string) : bool :=
  negb (is_empty s)
  && match read_digits digit_value 10 0 0 s with
     | (_, _, EmptyString) => true
     | _ => false
     end.

End Text.

(** ** JavaScript values *)

Module JS.

(** Numbers.  A finite number is modelled by the rational that the
    double denotes; comparisons, [Math.min] and [Math.max] are exact on
    doubles, and sums, products and quotients are rounded to the
    nearest double ([double_of_Q]). *)
Inductive Num : Type :=
| NaN
| PInf
| NInf
| Fin (q : Q).

Definition num_of_Z (z : Z) : Num := Fin (inject_Z z).
Definition num_of_nat (n : nat) : Num := num_of_Z (Z.of_nat n).

(** The Number value of an integer: the integer itself below [2^53]
    in magnitude, and from there on the nearest double (a 53-bit
    significand, ties to the even one), infinite from [2^1024 - 2^970]
    on. *)
Definition double_of_Z (z : Z) : Num :=
  let a := Z.abs z in
  if (a <? 2 ^ 53)%Z then num_of_Z z
  else
    let e := (Z.log2 a - 52)%Z in
    let q := Z.shiftr a e in
    let r := (a - Z.shiftl q e)%Z in
    let half := Z.shiftl 1 (e - 1) in
    let q' := if (half <? r)%Z || ((r =? half)%Z && Z.odd q)
              then (q + 1)%Z else q in
    let m := Z.shiftl q' e in
    if (2 ^ 1024 <=? m)%Z then (if (z <? 0)%Z then NInf else PInf)
    else num_of_Z (if (z <? 0)%Z then - m else m).

Definition Qltb (a b : Q) : bool := negb (Qle_bool b a).

(** The Number value of a rational: the nearest double (a 53-bit
    significand, ties to the even one; below [2^-1022] the spacing
    stays [2^-1074]), infinite from [2^1024 - 2^970] on. *)
Definition double_of_Q (q : Q) : Num :=
  let q := Qred q in
  let n := Z.abs (Qnum q) in
  let d := Zpos (Qden q) in
  if (n =? 0)%Z then Fin 0
  else
    let l := (Z.log2 n - Z.log2 d)%Z in
    let l := if (n * 2 ^ Z.max 0 (- l) <? d * 2 ^ Z.max 0 l)%Z
             then (l - 1)%Z else l in
    let e := Z.max (l - 52) (-1074) in
    let N := (n * 2 ^ Z.max 0 (- e))%Z in
    let D := (d * 2 ^ Z.max 0 e)%Z in
    let m := (N / D)%Z in
    let r := (N mod D)%Z in
    let m' := if (D <? 2 * r)%Z || ((2 * r =? D)%Z && Z.odd m)
              then (m + 1)%Z else m in
    let negative := (Qnum q <? 0)%Z in
    if (2 ^ 1024 <=? m' * 2 ^ Z.max 0 e)%Z
    then (if negative then NInf else PInf)
    else
      let s := if negative then (- m')%Z else m' in
      Fin (Qred (inject_Z (s * 2 ^ Z.max 0 e) / inject_Z (2 ^ Z.max 0 (- e)))).

(** [a < b] on numbers; false as soon as one side is [NaN]. *)
Definition num_ltb (a b : Num) : bool :=
  match a, b with
  | NaN, _ | _, NaN => false
  | Fin x, Fin y => Qltb x y
  | NInf, NInf => false
  | NInf, _ => true
  | _, NInf => false
  | PInf, _ => false
  | Fin _, PInf => true
  end.

Definition num_eqb (a b : Num) : bool :=
  match a, b with
  | Fin x, Fin y => Qeq_bool x y
  | PInf, PInf | NInf, NInf => true
  | _, _ => false
  end.

Definition num_leb (a b : Num) : bool := num_ltb a b || num_eqb a b.

Definition num_is_nan (a : Num) : bool :=
  match a with NaN => true | _ => false end.

(** [Math.max(a, b)] and [Math.min(a, b)] on numbers. *)
Definition num_max (a b : Num) : Num :=
  match a, b with
  | NaN, _ | _, NaN => NaN
  | _, _ => if num_ltb a b then b else a
  end.

Definition num_min (a b : Num) : Num :=
  match a, b with
  | NaN, _ | _, NaN => NaN
  | _, _ => if num_ltb b a then b else a
  end.

Definition num_add (a b : Num) : Num :=
  match a, b with
  | NaN, _ | _, NaN => NaN
  | PInf, NInf | NInf, PInf => NaN
  | PInf, _ | _, PInf => PInf
  | NInf, _ | _, NInf => NInf
  | Fin x, Fin y => double_of_Q (x + y)
  end.

Definition num_mul (a b : Num) : Num :=
  match a, b with
  | Fin x, Fin y => double_of_Q (x * y)
  | NaN, _ | _, NaN => NaN
  | _, _ =>
      let sign n := if num_ltb n (Fin 0) then (-1)%Z
                    else if num_ltb (Fin 0) n then 1%Z else 0%Z in
      match (sign a * sign b)%Z with
      | Z0 => NaN
      | Zpos _ => PInf
      | Zneg _ => NInf
      end
  end.

Definition num_div (a b : Num) : Num :=
  match a, b with
  | NaN, _ | _, NaN => NaN
  | Fin x, Fin y =>
      if Qeq_bool y 0
      then if Qltb 0 x then PInf else if Qltb x 0 then NInf else NaN
      else double_of_Q (x / y)
  | Fin _, _ => Fin 0
  | _, Fin y => if Qltb y 0 then num_mul a (Fin (-1)) else a
  | _, _ => NaN
  end.

#[local] Set Warnings "-register-all".

(** Values.  An array carries, besides its elements, the named
    properties that an assignment [a.key = v] adds to it. *)
Inductive JSValue : Type :=
| JUndefined
| JNull
| JBool (b : bool)
| JNum (n : Num)
| JStr (s : string)
| JArr (elements : list JSValue) (named : list (string * JSValue))
| JObj (properties : list (string * JSValue)).

Definition Obj : Type := list (string * JSValue).

Definition JArray (xs : list JSValue) : JSValue := JArr xs [].
Definition JInt (z : Z) : JSValue := JNum (num_of_Z z).
Definition JNat (n : nat) : JSValue := JNum (num_of_nat n).
Definition JStrings (l : list string) : JSValue := JArray (map JStr l).

(** Results of code that may throw; the payload of [Throw] is the
    [message] of the error. *)
Inductive Result (A : Type) : Type :=
| Ok (a : A)
| Throw (message : string).
Arguments Ok {A} a.
Arguments Throw {A} message.

Definition bind {A B} (c : Result A) (k : A -> Result B) : Result B :=
  match c with
  | Ok a => k a
  | Throw m => Throw m
  end.

(** [try { body } catch (error) { handler(error.message) }]. *)
Definition try_catch {A} (body : Result A) (handler : string -> Result A)
  : Result A :=
  match body with
  | Ok a => Ok a
  | Throw m => handler m
  end.

Fixpoint mapM {A B} (f : A -> Result B) (l : list A) : Result (list B) :=
  match l with
  | [] => Ok []
  | x :: r =>
      bind (f x) (fun y => bind (mapM f r) (fun ys => Ok (y :: ys)))
  end.

(** *** Objects *)

(** The value of the own property [k]; when a list names a key twice the
    later entry counts, as in an object literal and in [JSON.parse]. *)
Fixpoint lookup (k : string) (o : Obj) : option JSValue :=
  match o with
  | [] => None
  | (k', v) :: r =>
      match lookup k r with
      | Some x => Some x
      | None => if String.eqb k k' then Some v else None
      end
  end.

Definition has_key (k : string) (o : Obj) : bool :=
  match lookup k o with Some _ => true | None => false end.

(** [o[k] = v]: an existing key keeps its place, a new one goes last. *)
Definition set (k : string) (v : JSValue) (o : Obj) : Obj :=
  if has_key k o
  then map (fun kv => if String.eqb k (fst kv) then (k, v) else kv) o
  else o ++ [(k, v)].

(** [o.k] on an object. *)
Definition field (o : Obj) (k : string) : JSValue :=
  match lookup k o with
  | Some v => v
  | None => JUndefined
  end.

Definition keys (o : Obj) : list string :=
  fold_left (fun acc kv => if existsb (String.eqb (fst kv)) acc
                           then acc else acc ++ [fst kv]) o [].

(** The key of an array index: a canonical decimal numeral. *)
Definition index_of_key (k : string) : option nat :=
  if Text.all_digits k
  then match Text.read_digits Text.digit_value 10 0 0 k with
       | (z, _, _) =>
           if String.eqb (Text.decimal_of_Z z) k
           then Some (Z.to_nat z) else None
       end
  else None.

Fixpoint chars (s : string) : list JSValue :=
  match s with
  | EmptyString => []
  | String c r => JStr (String c EmptyString) :: chars r
  end.

Fixpoint indexed_from (i : nat) (xs : list JSValue) : Obj :=
  match xs with
  | [] => []
  | x :: r => (Text.decimal_of_nat i, x) :: indexed_from (S i) r
  end.

(** The own enumerable properties that a spread [{...v}] copies. *)
Definition own_props (v : JSValue) : Obj :=
  match v with
  | JObj o => o
  | JArr xs named => indexed_from 0 xs ++ named
  | JStr s => indexed_from 0 (chars s)
  | _ => []
  end.

Definition assign_all (target props : Obj) : Obj :=
  fold_left (fun acc kv => set (fst kv) (snd kv) acc) props target.

(** [{...target, ...v}]. *)
Definition spread (target : Obj) (v : JSValue) : Obj :=
  assign_all target (own_props v).

(** [v[k]] (or [v.k]) for the property names the sources read: data
    properties, array and string indices and [length].  Reading a
    property of [undefined] or [null] throws a TypeError. *)
Definition get_prop (v : JSValue) (k : string) : Result JSValue :=
  match v with
  | JUndefined =>
      Throw ("Cannot read properties of undefined (reading '" ++ k ++ "')")
  | JNull =>
      Throw ("Cannot read properties of null (reading '" ++ k ++ "')")
  | JObj o => Ok (field o k)
  | JArr xs named =>
      if String.eqb k "length" then Ok (JNat (List.length xs))
      else match index_of_key k with
           | Some i => Ok (nth i xs JUndefined)
           | None => Ok (field named k)
           end
  | JStr s =>
      if String.eqb k "length" then Ok (JNat (String.length s))
      else match index_of_key k with
           | Some i => Ok (nth i (chars s) JUndefined)
           | None => Ok JUndefined
           end
  | JBool _ | JNum _ => Ok JUndefined
  end.

(** [v.k = x] in strict mode (every file is an ES module), for a name
    [k] that is neither an index nor [length]: objects and arrays take
    the property, a primitive throws a TypeError. *)
Definition assign_prop (v : JSValue) (k : string) (x : JSValue)
  : Result JSValue :=
  match v with
  | JObj o => Ok (JObj (set k x o))
  | JArr xs named => Ok (JArr xs (set k x named))
  | JUndefined | JNull =>
      Throw ("Cannot set properties of " ++
             (match v with JNull => "null" | _ => "undefined" end) ++
             " (setting '" ++ k ++ "')")
  | _ => Throw ("Cannot create property '" ++ k ++ "' on a primitive value")
  end.

(** [v.k] where the source has just tested [v] to be truthy, so that the
    read cannot throw. *)
Definition read (v : JSValue) (k : string) : JSValue :=
  match get_prop v k with
  | Ok x => x
  | Throw _ => JUndefined
  end.

(** [v?.k]. *)
Definition read_opt (v : JSValue) (k : string) : JSValue :=
  match v with
  | JUndefined | JNull => JUndefined
  | _ => read v k
  end.

Definition isArray (v : JSValue) : bool :=
  match v with JArr _ _ => true | _ => false end.

(** [!!v]. *)
Definition truthy (v : JSValue) : bool :=
  match v with
  | JUndefined | JNull => false
  | JBool b => b
  | JNum NaN => false
  | JNum (Fin q) => negb (Qeq_bool q 0)
  | JNum _ => true
  | JStr s => negb (Text.is_empty s)
  | JArr _ _ | JObj _ => true
  end.

(** [a || b]. *)
Definition or_else (a b : JSValue) : JSValue := if truthy a then a else b.

(** *** Identifier resolution

    A scope lists the names a function body can see: its parameters
    and locals, the declarations and imports of its module, and the
    globals of the host.  Reading a name that no scope declares throws
    a ReferenceError.  A binding is either a value the model follows, or
    a declared name (a function, an import, a local) it does not. *)
Inductive Binding : Type :=
| Value (v : JSValue)
| Declared.

Definition Scope : Type := list (string * Binding).

Fixpoint resolve (scope : Scope) (name : string) : Result Binding :=
  match scope with
  | [] => Throw (name ++ " is not defined")
  | (n, b) :: r => if String.eqb name n then Ok b else resolve r name
  end.

Definition declared (names : list string) : Scope :=
  map (fun n => (n, Declared)) names.

(** The globals of the host that the sources name. *)
Definition host_globals : Scope :=
  declared ["console"; "process"; "JSON"; "Math"; "Object"; "Array";
             "Error"; "Promise"; "Date"; "URL"; "Buffer"; "Boolean";
             "String"; "Set"; "setTimeout"; "fetch"; "parseInt";
             "parseFloat"; "isNaN"; "decodeURIComponent"].

(** A binding read as a value; a declared name stands for an object
    without data properties. *)
Definition binding_value (b : Binding) : JSValue :=
  match b with
  | Value v => v
  | Declared => JObj []
  end.

(** *** What the engine provides *)

Class Runtime : Type := {
  (** [JSON.parse]; a SyntaxError carries the engine's message. *)
  JSON_parse : string -> Result JSValue;
  (** [JSON.stringify] of a value that has a JSON text. *)
  JSON_stringify : JSValue -> string;
  (** [Number.prototype.toString]. *)
  NumberToString : Num -> string;
  (** [Number(s)] for a string. *)
  StringToNumber : string -> Num;
  (** [new URL(s)]: the [hostname] and the [pathname], or a TypeError. *)
  URL_parse : string -> Result (string * string)
}.

Section Coercions.
Context {rt : Runtime}.

(** [String(v)], as in a template literal. *)
Fixpoint to_text (v : JSValue) : string :=
  match v with
  | JUndefined => "undefined"
  | JNull => "null"
  | JBool true => "true"
  | JBool false => "false"
  | JNum n => NumberToString n
  | JStr s => s
  | JArr xs _ =>
      Text.join ","
        (map (fun x => match x with
                       | JUndefined | JNull => EmptyString
                       | _ => to_text x
                       end) xs)
  | JObj _ => "[object Object]"
  end.

(** [v.join(sep)]; only arrays have the method. *)
Definition array_join (sep : string) (v : JSValue) : Result string :=
  match v with
  | JArr xs _ =>
      Ok (Text.join sep
            (map (fun x => match x with
                           | JUndefined | JNull => EmptyString
                           | _ => to_text x
                           end) xs))
  | JUndefined | JNull => Throw "Cannot read properties of undefined (reading 'join')"
  | _ => Throw "join is not a function"
  end.

(** [Number(v)]. *)
Definition to_number (v : JSValue) : Num :=
  match v with
  | JUndefined => NaN
  | JNull => Fin 0
  | JBool true => Fin 1
  | JBool false => Fin 0
  | JNum n => n
  | JStr s => StringToNumber s
  | JArr _ _ | JObj _ => StringToNumber (to_text v)
  end.

(** [a > b] and [a < b] against a number. *)
Definition gt_num (a : JSValue) (b : Num) : bool := num_ltb b (to_number a).
Definition lt_num (a : JSValue) (b : Num) : bool := num_ltb (to_number a) b.

(** [isNaN(v)]. *)
Definition isNaN (v : JSValue) : bool := num_is_nan (to_number v).

(** [a + b]: concatenation as soon as one operand is, or converts to,
    a string. *)
Definition plus (a b : JSValue) : JSValue :=
  let stringy v := match v with
                   | JStr _ | JArr _ _ | JObj _ => true
                   | _ => false
                   end in
  if stringy a || stringy b then JStr (to_text a ++ to_text b)
  else JNum (num_add (to_number a) (to_number b)).

(** [parseInt(v)] without a radix: the Number value of the integer
    that the digits denote. *)
Definition parseInt (v : JSValue) : Num :=
  let s := Text.trimStart (to_text v) in
  let '(negative, s1) :=
    match s with
    | String c r =>
        if Ascii.eqb c "-" then (true, r)
        else if Ascii.eqb c "+" then (false, r)
        else (false, s)
    | EmptyString => (false, s)
    end in
  let '(value, count, _) :=
    if Text.startsWith "0x" s1 || Text.startsWith "0X" s1
    then Text.read_digits Text.hex_value 16 0 0 (Text.drop 2 s1)
    else Text.read_digits Text.digit_value 10 0 0 s1 in
  match count with
  | O => NaN
  | S _ => double_of_Z (if negative then - value else value)
  end.

End Coercions.

End JS.

Notation "x <- c ;; k" := (JS.bind c (fun x => k))
  (at level 61, c at next level, right associativity).

(** ** The remote services *)

Module Services.
Import JS.

(** One call of [messages.create] (or [chat.completions.create]): the
    text of the first content block, or the error the call throws. *)
Inductive ApiReply : Type :=
| ApiText (text : string)
| ApiError (message : string).

(** One [axios.post] to the research API.  [HttpContent] carries
    [response.data.choices[0]?.message?.content]; an absent content
    behaves as the empty one.  The other constructors are the errors:
    one with [error.response], one with [error.request] only, and
    any other. *)
Inductive HttpReply : Type :=
| HttpContent (content : string)
| HttpStatus (status : nat) (error : JSValue)
| HttpNoResponse
| HttpOther (message : string).

(** [process.env]. *)
Record Env : Type := {
  ANTHROPIC_API_KEY : option string;
  PERPLEXITY_API_KEY : option string;
  OPENAI_API_KEY : option string
}.

Definition configured (key : option string) : bool :=
  match key with
  | Some s => negb (Text.is_empty s)
  | None => false
  end.

Definition call (reply : ApiReply) : Result string :=
  match reply with
  | ApiText text => Ok text
  | ApiError message => Throw message
  end.

End Services.

(** ** lib/personaEnrichmentAgent.js *)

Module PersonaEnrichmentAgent.
Import JS Services.

Section Agent.
Context {rt : Runtime}.
(** The reply to the call made for the persona at index [i], and the
    reading of the clock there. *)
Variable anthropic : nat -> ApiReply.
Variable clock : nat -> string.

Definition fallback_enrichment : Obj :=
  [("enrichedFields",
     JObj [("social_media_profiles",
             JObj [("facebook", JObj [("active", JBool true);
                                      ("frequency", JStr "weekly")])]);
           ("communication_style",
             JObj [("preferred_channels", JStrings ["email"]);
                   ("formality_level", JStr "professional")])]);
   ("confidence", JNum (Fin (3 # 10)));
   ("fieldsEnriched", JStrings ["basic_fallback"]);
   ("insights", JStrings ["Enrichment failed, using basic fallback data"])].

Definition parseEnrichmentResponse (responseText : string) : Result Obj :=
  try_catch
    (match Text.match_object responseText with
     | None => Throw "No JSON found in AI response"
     | Some jsonMatch =>
         parsedData <- JSON_parse jsonMatch ;;
         enrichedFields <- get_prop parsedData "enrichedFields" ;;
         confidence <- get_prop parsedData "confidence" ;;
         if negb (truthy enrichedFields) || negb (truthy confidence)
         then Throw "Invalid enrichment response structure"
         else
           fieldsEnriched <- get_prop parsedData "fieldsEnriched" ;;
           insights <- get_prop parsedData "insights" ;;
           Ok [("enrichedFields", enrichedFields);
               ("confidence",
                 JNum (num_min (num_max (to_number confidence) (Fin 0))
                               (Fin 1)));
               ("fieldsEnriched", or_else fieldsEnriched (JArray []));
               ("insights", or_else insights (JArray []))]
     end)
    (fun _ => Ok fallback_enrichment).

(** The prompt is a template literal over the persona and the context;
    building it cannot throw, and the reply of the model is not a
    function of it that the program knows, so the call is the oracle
    [anthropic i]. *)
Definition enrichSinglePersona (i : nat) (persona : Obj) : Result Obj :=
  try_catch
    (text <- call (anthropic i) ;;
     enrichmentData <- parseEnrichmentResponse text ;;
     Ok (set "enrichment"
           (JObj [("status", JStr "enriched");
                  ("sources", JStrings ["ai_research"; "social_analysis";
                                        "professional_lookup"]);
                  ("confidence_score", field enrichmentData "confidence");
                  ("enriched_fields", field enrichmentData "fieldsEnriched");
                  ("enriched_at", JStr (clock i));
                  ("research_insights", field enrichmentData "insights")])
           (spread (spread [] (JObj persona))
                   (field enrichmentData "enrichedFields"))))
    (fun message => Throw ("AI enrichment failed: " ++ message)).

Definition failed_persona (i : nat) (persona : Obj) (message : string)
  : Obj :=
  set "enrichment"
    (JObj [("status", JStr "failed");
           ("error", JStr message);
           ("enriched_at", JStr (clock i))])
    (spread [] (JObj persona)).

(** The [try]/[catch] in the body of the loop: what is pushed for
    the persona at index [i]. *)
Definition enrich_step (i : nat) (persona : Obj) : Obj :=
  match enrichSinglePersona i persona with
  | Ok enrichedPersona => enrichedPersona
  | Throw message => failed_persona i persona message
  end.

(** The [for] loop of [enrichPersonas]: [i] is the index of the head
    of [personas], [enrichedPersonas] the array pushed to so far. *)
Fixpoint enrich_loop (personas : list Obj) (i : nat)
         (enrichedPersonas : list Obj) : list Obj :=
  match personas with
  | [] => enrichedPersonas
  | persona :: rest =>
      enrich_loop rest (S i) (enrichedPersonas ++ [enrich_step i persona])
  end.

Definition enrichPersonas (personas : list Obj) : list Obj :=
  enrich_loop personas 0 [].

End Agent.

End PersonaEnrichmentAgent.

(** ** lib/personaAgent.js *)

Module PersonaAgent.
Import JS Services.

Section Generator.
Context {rt : Runtime}.

Definition source_item (content source type : string) : JSValue :=
  JObj [("content", JStr content);
        ("metadata", JObj [("source", JStr source); ("type", JStr type)])].

(** [context[k].push(x)]. *)
Definition push (k : string) (x : JSValue) (context : Obj) : Obj :=
  match field context k with
  | JArr xs named => set k (JArr (xs ++ [x]) named) context
  | _ => context
  end.

Definition array_length (v : JSValue) : nat :=
  match v with
  | JArr xs _ => List.length xs
  | _ => 0
  end.

(** [if (data.k) context[target].push({content: JSON.stringify(..)})];
    with [summarised] the content is [data.k.summary || data.k]. *)
Definition collect (data : JSValue) (k target source type : string)
           (summarised : bool) (context : Obj) : Obj :=
  let v := read data k in
  if truthy v
  then push target
         (source_item
            (JSON_stringify
               (if summarised then or_else (read v "summary") v else v))
            source type)
         context
  else context.

Definition buildSourceContext (uploadedData researchData : JSValue) : Obj :=
  let context :=
    [("demographic_data", JArray []);
     ("case_data", JArray []);
     ("social_insights", JArray []);
     ("consumer_behavior", JArray []);
     ("client_data", JArray []);
     ("total_sources", JInt 0)] in
  let context :=
    if truthy uploadedData
    then collect uploadedData "client_data" "client_data"
           "client_file" "client" true
           (collect uploadedData "targetsmart_data" "demographic_data"
              "targetsmart_file" "demographic" true
              (collect uploadedData "mri_data" "demographic_data"
                 "mri_file" "demographic" true context))
    else context in
  let context :=
    if truthy researchData
    then collect researchData "consumer_behavior" "consumer_behavior"
           "perplexity_research" "behavior" false
           (collect researchData "social_insights" "social_insights"
              "perplexity_research" "social" false
              (collect researchData "demographics" "demographic_data"
                 "perplexity_research" "demographic" false context))
    else context in
  set "total_sources"
    (JNat (fold_left (fun sum kv => sum + array_length (snd kv))
                     (filter (fun kv => isArray (snd kv)) context) 0))
    context.

(** [sourceContext[k] && sourceContext[k].length > 0]. *)
Definition populated (sourceContext : Obj) (k : string) : bool :=
  let v := field sourceContext k in
  truthy v && gt_num (read v "length") (Fin 0).

Definition validateDataSufficiency (sourceContext : Obj) : Obj :=
  let validation :=
    [("sufficient", JBool false);
     ("missing", JArray []);
     ("available", JArray []);
     ("confidence", JInt 0)] in
  let categories :=
    ["demographic_data"; "social_insights"; "consumer_behavior"] in
  let '(availableCount, validation) :=
    fold_left
      (fun state category =>
         let '(count, validation) := state in
         if populated sourceContext category
         then (S count, push "available" (JStr category) validation)
         else (count, push "missing" (JStr category) validation))
      categories (0, validation) in
  set "sufficient" (JBool (1 <=? availableCount))
    (set "confidence"
       (JNum (num_mul (num_div (num_of_nat availableCount)
                               (num_of_nat (List.length categories)))
                      (Fin 100)))
       validation).

Definition parsePersonaResponse (responseText : string)
  : Result (list JSValue) :=
  try_catch
    (let cleanText := Text.trim responseText in
     match Text.match_array cleanText with
     | None => Throw "No JSON array found in Claude response"
     | Some jsonMatch =>
         personas <- JSON_parse jsonMatch ;;
         match personas with
         | JArr elements _ => Ok elements
         | _ => Throw "Response is not an array of personas"
         end
     end)
    (fun message => Throw ("Persona parsing failed: " ++ message)).

Definition data_categories (sourceContext : Obj) : list string :=
  filter (fun key =>
            let v := field sourceContext key in
            truthy v && isArray v && gt_num (read v "length") (Fin 0))
         (keys sourceContext).

(** One step of the [map] of [addSourceCitations]: the object literal
    reads [persona.data_sources], then the assignment stores it. *)
Definition cite (sourceContext : Obj) (persona : JSValue)
  : Result JSValue :=
  data_sources <- get_prop persona "data_sources" ;;
  assign_prop persona "source_citations"
    (JObj [("primary_sources", or_else data_sources (JArray []));
           ("data_categories", JStrings (data_categories sourceContext));
           ("confidence_factors",
             JObj [("source_diversity",
                     if truthy data_sources
                     then read data_sources "length" else JInt 0);
                   ("data_points", field sourceContext "total_sources");
                   ("citation_coverage",
                     JStr (if truthy data_sources
                           then "cited" else "limited"))])]).

Definition addSourceCitations (personas : list JSValue)
           (sourceContext : Obj) : Result (list JSValue) :=
  mapM (cite sourceContext) personas.

Definition requiredFields : list string :=
  ["name"; "age"; "bio"; "motivations"; "barriers"; "communication_style"].

(** [!v || (Array.isArray(v) && v.length === 0)]. *)
Definition missing_value (v : JSValue) : bool :=
  negb (truthy v)
  || match v with
     | JArr xs _ => Nat.eqb (List.length xs) 0
     | _ => false
     end.

(** The [requiredFields.forEach] of one persona: the state is
    [validation.complete] and [validation.missing_fields]. *)
Fixpoint check_required (persona : JSValue) (fields : list string)
         (complete : bool) (missing_fields : list string)
  : Result (bool * list string) :=
  match fields with
  | [] => Ok (complete, missing_fields)
  | f :: rest =>
      v <- get_prop persona f ;;
      if missing_value v
      then check_required persona rest false (missing_fields ++ [f])
      else check_required persona rest complete missing_fields
  end.

(** The quality score of one persona, given [validation.complete]. *)
Definition quality_score (persona : JSValue) (complete : bool)
  : Result Z :=
  source_citations <- get_prop persona "source_citations" ;;
  cited <- (if truthy source_citations
            then primary_sources <- get_prop source_citations
                                             "primary_sources" ;;
                 len <- get_prop primary_sources "length" ;;
                 Ok (gt_num len (Fin 0))
            else Ok false) ;;
  let qualityScore := (if cited then 30 else 0)%Z in
  confidence_score <- get_prop persona "confidence_score" ;;
  let qualityScore :=
    (if truthy confidence_score && gt_num confidence_score (Fin 70)
     then qualityScore + 25 else qualityScore)%Z in
  let qualityScore :=
    (if complete then qualityScore + 25 else qualityScore)%Z in
  bio <- get_prop persona "bio" ;;
  long_bio <- (if truthy bio
               then len <- get_prop bio "length" ;;
                    Ok (gt_num len (Fin 100))
               else Ok false) ;;
  Ok (if long_bio then qualityScore + 20 else qualityScore)%Z.

(** The body of [personas.forEach]: the persona to push, if any. *)
Definition validate_one (persona : JSValue) : Result (option JSValue) :=
  checked <- check_required persona requiredFields true [] ;;
  let '(complete, missing_fields) := checked in
  qualityScore <- quality_score persona complete ;;
  if complete && (50 <=? qualityScore)%Z
  then validated <- assign_prop persona "validation"
                      (JObj [("complete", JBool complete);
                             ("missing_fields", JStrings missing_fields);
                             ("quality_score", JInt qualityScore)]) ;;
       Ok (Some validated)
  else Ok None.

Fixpoint validate_loop (personas : list JSValue) (validated : list JSValue)
  : Result (list JSValue) :=
  match personas with
  | [] => Ok validated
  | persona :: rest =>
      kept <- validate_one persona ;;
      validate_loop rest
        (match kept with
         | Some p => validated ++ [p]
         | None => validated
         end)
  end.

Definition validatePersonas (personas : list JSValue)
  : Result (list JSValue) :=
  validate_loop personas [].

(** [[...new Set(l)]]. *)
Fixpoint unique (l : list string) (seen : list string) : list string :=
  match l with
  | [] => seen
  | x :: r => unique r (if existsb (String.eqb x) seen
                        then seen else seen ++ [x])
  end.

Definition item_source (item : JSValue) : string :=
  to_text (read (read item "metadata") "source").

Definition extractSourceSummary (sourceContext : Obj) : JSValue :=
  let total_documents := field sourceContext "total_sources" in
  let categories :=
    fold_left
      (fun categories kv =>
         match snd kv with
         | JArr (x :: xs) _ =>
             set (fst kv)
               (JObj [("document_count", JNat (List.length (x :: xs)));
                      ("sources",
                        JStrings (unique (map item_source (x :: xs)) []))])
               categories
         | _ => categories
         end)
      (map (fun k => (k, field sourceContext k)) (keys sourceContext))
      [] in
  let quality_indicators :=
    (if negb (lt_num total_documents (Fin 3)) && negb (isNaN total_documents)
     then ["Sufficient data volume"] else [])
    ++ (if 2 <=? List.length (keys categories)
        then ["Diverse data sources"] else []) in
  JObj [("total_documents", total_documents);
        ("categories", JObj categories);
        ("quality_indicators", JStrings quality_indicators)].

(** [generatePersonas]: [reply] is the one call of the model, [now]
    the clock at the return.  The prompt is text handed to the model
    ([personaCount] only occurs there). *)
Definition generatePersonas (env : Env) (reply : ApiReply) (now : string)
           (campaignData : Obj) (uploadedData researchData : JSValue)
           (personaCount : Num) : Result Obj :=
  if negb (configured (ANTHROPIC_API_KEY env))
  then Throw "Anthropic API key not configured"
  else
    try_catch
      (let sourceContext := buildSourceContext uploadedData researchData in
       let validation := validateDataSufficiency sourceContext in
       if negb (truthy (field validation "sufficient"))
       then missing <- array_join ", " (field validation "missing") ;;
            Throw ("Insufficient data for persona generation: " ++ missing)
       else
         text <- call reply ;;
         personas <- parsePersonaResponse text ;;
         citedPersonas <- addSourceCitations personas sourceContext ;;
         validatedPersonas <- validatePersonas citedPersonas ;;
         Ok [("personas", JArray validatedPersonas);
             ("sources_used", extractSourceSummary sourceContext);
             ("validation", JObj validation);
             ("generation_timestamp", JStr now)])
      (fun message => Throw message).

End Generator.

Section LegalEnrichment.
Context {rt : Runtime}.
Variable anthropic : nat -> ApiReply.
Variable clock : nat -> string.

Definition fallback_enrichment : Obj :=
  [("additions",
     JObj [("legal_motivations", JStrings ["seeking legal resolution"]);
           ("legal_barriers",
             JStrings ["cost concerns"; "complexity fears"])]);
   ("insights",
     JStrings ["Enrichment parsing failed, using fallback data"]);
   ("legal_profile", JObj [("likely_legal_experience", JStr "limited")]);
   ("confidence_delta", JInt 0)].

Definition parseEnrichmentResponse (responseText : string) : Result Obj :=
  try_catch
    (match Text.match_object responseText with
     | None => Throw "No JSON found in enrichment response"
     | Some jsonMatch =>
         parsed <- JSON_parse jsonMatch ;;
         additions <- get_prop parsed "additions" ;;
         insights <- get_prop parsed "insights" ;;
         legal_profile <- get_prop parsed "legal_profile" ;;
         confidence_delta <- get_prop parsed "confidence_delta" ;;
         Ok [("additions", or_else additions (JObj []));
             ("insights", or_else insights (JArray []));
             ("legal_profile", or_else legal_profile (JObj []));
             ("confidence_delta", or_else confidence_delta (JInt 0))]
     end)
    (fun _ => Ok fallback_enrichment).

Definition original_source (persona : Obj) : JSValue :=
  or_else (field persona "source") (JStr "julius_sheet").

Definition enrich_one (sourceContext : Obj) (i : nat) (persona : Obj)
  : Obj :=
  match (text <- call (anthropic i) ;;
         enrichmentData <- parseEnrichmentResponse text ;;
         Ok (set "enrichment_metadata"
               (JObj [("enriched_by", JStr "persona_agent");
                      ("enriched_at", JStr (clock i));
                      ("source_data_points",
                        field sourceContext "total_sources");
                      ("confidence_improvement",
                        field enrichmentData "confidence_delta");
                      ("original_source", original_source persona)])
               (set "legal_profile" (field enrichmentData "legal_profile")
                  (set "document_insights" (field enrichmentData "insights")
                     (spread (spread [] (JObj persona))
                             (field enrichmentData "additions"))))))
  with
  | Ok enrichedPersona => enrichedPersona
  | Throw message =>
      set "enrichment_metadata"
        (JObj [("enriched_by", JStr "persona_agent");
               ("enriched_at", JStr (clock i));
               ("enrichment_error", JStr message);
               ("original_source", original_source persona)])
        (spread [] (JObj persona))
  end.

Fixpoint enrich_loop (sourceContext : Obj) (personas : list Obj) (i : nat)
         (enrichedPersonas : list Obj) : list Obj :=
  match personas with
  | [] => enrichedPersonas
  | persona :: rest =>
      enrich_loop sourceContext rest (S i)
        (enrichedPersonas ++ [enrich_one sourceContext i persona])
  end.

Definition calculateAverageConfidence (personas : list Obj) : JSValue :=
  match personas with
  | [] => JInt 0
  | _ =>
      let confidenceScores :=
        filter (fun score => gt_num score (Fin 0))
               (map (fun p => or_else (field p "confidence_score") (JInt 0))
                    personas) in
      match confidenceScores with
      | [] => JInt 0
      | _ =>
          JNum (num_div
                  (to_number (fold_left plus confidenceScores (JInt 0)))
                  (num_of_nat (List.length confidenceScores)))
      end
  end.

Record LegalEnrichment : Type := {
  personas : list Obj;
  sourceDataCount : JSValue;
  confidence : JSValue;
  hasMediaInsights : JSValue
}.

Definition enrichPersonas (env : Env) (existingPersonas : list Obj)
           (campaignData : Obj) (uploadedData researchData : JSValue)
  : Result LegalEnrichment :=
  if negb (configured (ANTHROPIC_API_KEY env))
  then Throw "Anthropic API key not configured"
  else
    try_catch
      (let sourceContext := buildSourceContext uploadedData researchData in
       let enrichedPersonas :=
         enrich_loop sourceContext existingPersonas 0 [] in
       Ok {| personas := enrichedPersonas;
             sourceDataCount := field sourceContext "total_sources";
             confidence := calculateAverageConfidence enrichedPersonas;
             hasMediaInsights :=
               JBool (gt_num
                        (read_opt (field sourceContext "media_insights")
                                  "length")
                        (Fin 0)) |})
      (fun message => Throw message).

End LegalEnrichment.

End PersonaAgent.

(** ** lib/researchAgent.js *)

Module ResearchAgent.
Import JS Services.

Section Research.
Context {rt : Runtime}.
(** The reply to the query of each request type, and the clock. *)
Variable perplexity : string -> HttpReply.
Variable now : string.

Definition raw_text_result (content requestType parseError : string)
  : JSValue :=
  JObj [("_raw_response", JStr content);
        ("_request_type", JStr requestType);
        ("_parse_error", JStr parseError);
        ("error", JStr "Could not parse structured response")].

(** The outer [catch] tells the errors of the HTTP client apart by
    [error.response] and [error.request]; an error thrown by the body
    itself has neither. *)
Definition makePerplexityRequest (requestType : string) : Result JSValue :=
  match perplexity requestType with
  | HttpStatus status error =>
      Throw ("Perplexity API error: " ++ Text.decimal_of_nat status ++ " - "
             ++ to_text (or_else error (JStr "Unknown error")))
  | HttpNoResponse =>
      Throw "Perplexity API request timeout or network error"
  | HttpOther message =>
      Throw ("Research request failed: " ++ message)
  | HttpContent content =>
      try_catch
        (if Text.is_empty content
         then Throw "Empty response from Perplexity API"
         else
           try_catch
             (parsedData <- JSON_parse content ;;
              tagged <- assign_prop parsedData "_raw_response"
                                    (JStr content) ;;
              assign_prop tagged "_request_type" (JStr requestType))
             (fun parseError =>
                Ok (raw_text_result content requestType parseError)))
        (fun message => Throw ("Research request failed: " ++ message))
  end.

Definition researchDemographics : Result JSValue :=
  makePerplexityRequest "demographics".
Definition researchSocialInsights : Result JSValue :=
  makePerplexityRequest "social_insights".
Definition researchLegalTrends : Result JSValue :=
  makePerplexityRequest "legal_trends".
Definition researchConsumerBehavior : Result JSValue :=
  makePerplexityRequest "consumer_behavior".

(** [await Promise.all(promises)]: the results in order, or a
    rejection.  When several promises reject, the one that rejects
    first in time wins; the model takes the first in the array. *)
Fixpoint promise_all {A} (promises : list (Result A)) : Result (list A) :=
  match promises with
  | [] => Ok []
  | p :: rest => x <- p ;; xs <- promise_all rest ;; Ok (x :: xs)
  end.

Definition conductResearch (env : Env)
           (caseType keywords targetDescription : JSValue) : Obj :=
  if negb (configured (PERPLEXITY_API_KEY env))
  then [("error", JStr "Research API not configured")]
  else
    match promise_all [researchDemographics; researchSocialInsights;
                       researchLegalTrends; researchConsumerBehavior] with
    | Ok research =>
        [("demographics", nth 0 research JUndefined);
         ("social_insights", nth 1 research JUndefined);
         ("legal_trends", nth 2 research JUndefined);
         ("consumer_behavior", nth 3 research JUndefined);
         ("research_timestamp", JStr now);
         ("case_type", caseType);
         ("keywords", keywords)]
    | Throw message =>
        [("error", JStr message); ("partial_data", JNull)]
    end.

End Research.

End ResearchAgent.

(** ** lib/validationAgent.js *)

Module ValidationAgent.
Import JS Services.

(** The imports and declarations of the module, and the host. *)
Definition module_scope : Scope :=
  declared ["OpenAI"; "validatePersonas"; "validateSinglePersona";
             "buildValidationPrompt"; "formatSourcesForValidation";
             "parseValidationResponse"]
  ++ host_globals.

Section Validation.
Context {rt : Runtime}.
(** The construction of the client, and the reply to the call made
    for the persona at index [i]. *)
Variable client : Result unit.
Variable openai : nat -> ApiReply.

Definition fallback_validation : Obj :=
  [("approved", JBool true);
   ("confidence", JInt 60);
   ("verified_traits", JArray []);
   ("questionable_traits", JArray []);
   ("errors", JStrings ["Validation parsing failed"])].

(** The body names [jsonMatch], which the function has as neither a
    parameter nor a local. *)
Definition parseValidationResponse (responseText : string) : Result Obj :=
  try_catch
    (binding <- resolve (("responseText", Value (JStr responseText))
                           :: module_scope) "jsonMatch" ;;
     let jsonMatch := binding_value binding in
     if negb (truthy jsonMatch)
     then Throw "No JSON found in validation response"
     else
       first <- get_prop jsonMatch "0" ;;
       validation <- JSON_parse (to_text first) ;;
       approved <- get_prop validation "approved" ;;
       confidence <- get_prop validation "confidence" ;;
       verified_traits <- get_prop validation "verified_traits" ;;
       questionable_traits <- get_prop validation "questionable_traits" ;;
       missing_citations <- get_prop validation "missing_citations" ;;
       Ok [("approved", or_else approved (JBool false));
           ("confidence", or_else confidence (JInt 0));
           ("verified_traits", or_else verified_traits (JArray []));
           ("questionable_traits", or_else questionable_traits (JArray []));
           ("errors", or_else missing_citations (JArray []))])
    (fun _ => Ok fallback_validation).

(** The prompt reads [persona.name] first, inside the [try]; the
    [catch] reads it again for its log line, before it returns. *)
Definition validateSinglePersona (i : nat) (persona : JSValue)
  : Result Obj :=
  try_catch
    (_ <- get_prop persona "name" ;;
     content <- call (openai i) ;;
     validationResult <- parseValidationResponse content ;;
     Ok [("persona", persona);
         ("validation_passed", field validationResult "approved");
         ("confidence", field validationResult "confidence");
         ("verified_traits", field validationResult "verified_traits");
         ("questionable_traits",
           field validationResult "questionable_traits");
         ("errors",
           or_else (field validationResult "errors") (JArray []))])
    (fun message =>
       _ <- get_prop persona "name" ;;
       Ok [("persona", persona);
           ("validation_passed", JBool true);
           ("errors", JStrings [message])]).

(** [for (const persona of batch)] with the index of its head; an
    error of [validateSinglePersona] leaves the loop. *)
Fixpoint validate_batch (batch : list JSValue) (i : nat)
         (validationResults : list Obj) : Result (list Obj) :=
  match batch with
  | [] => Ok validationResults
  | persona :: rest =>
      validation <- validateSinglePersona i persona ;;
      validate_batch rest (S i) (validationResults ++ [validation])
  end.

(** [for (let i = 0; i < personas.length; i += 3)], on the personas
    from index [i] on; [fuel] bounds the number of batches. *)
Fixpoint batch_loop (fuel : nat) (remaining : list JSValue) (i : nat)
         (validationResults : list Obj) : Result (list Obj) :=
  match fuel, remaining with
  | S fuel', _ :: _ =>
      validationResults <-
        validate_batch (firstn 3 remaining) i validationResults ;;
      batch_loop fuel' (skipn 3 remaining) (i + 3) validationResults
  | _, _ => Ok validationResults
  end.

Definition flat_errors (results : list Obj) : list JSValue :=
  flat_map (fun e => match field e "errors" with
                     | JArr xs _ => xs
                     | v => [v]
                     end) results.

Definition validatePersonas (env : Env) (personas : list JSValue) : Obj :=
  if negb (configured (OPENAI_API_KEY env))
  then [("validated", JArray personas);
        ("errors", JStrings ["Validation skipped - no OpenAI key"]);
        ("confidence_score", JInt 75)]
  else
    match (_ <- client ;;
           validationResults <-
             batch_loop (List.length personas) personas 0 [] ;;
           let passedValidation :=
             filter (fun v => truthy (field v "validation_passed"))
                    validationResults in
           let errors :=
             filter (fun v => negb (truthy (field v "validation_passed")))
                    validationResults in
           Ok [("validated",
                 JArray (map (fun v => field v "persona") passedValidation));
               ("validation_details", JArray (map JObj validationResults));
               ("errors", JArray (flat_errors errors));
               ("confidence_score",
                 JNum (num_mul
                         (num_div (num_of_nat (List.length passedValidation))
                                  (num_of_nat (List.length personas)))
                         (Fin 100)))])
    with
    | Ok result => result
    | Throw message =>
        [("validated", JArray personas);
         ("validation_details", JArray []);
         ("errors", JStrings [message]);
         ("confidence_score", JInt 50)]
    end.

End Validation.

End ValidationAgent.

(** ** lib/sheetsService.js *)

Module SheetsService.
Import JS Services.

(** The imports and declarations of the module, and the host.  The
    module declares [initializeGoogleSheetsService]; five of its
    functions call [initializeSheets]. *)
Definition module_scope : Scope :=
  declared ["google"; "storePersonas"; "getPersonaByName"; "getAllPersonas";
             "initializeGoogleSheetsService";
             "fetchPersonasFromExternalSheet"; "extractSheetInfo";
             "validatePersonas"; "validateSinglePersona";
             "parsePersonaFromRow"; "exportEnrichedPersonas";
             "createNewSpreadsheet"; "updateJuliusSheetWithEnrichment";
             "safeJsonParse"]
  ++ host_globals.

(** [[a-zA-Z0-9-_]]. *)
Definition is_id_char (c : ascii) : bool :=
  let n := Text.code c in
  ((97 <=? n) && (n <=? 122)) || ((65 <=? n) && (n <=? 90))
  || ((48 <=? n) && (n <=? 57)) || (n =? 45) || (n =? 95).

Definition is_digit (c : ascii) : bool :=
  let n := Text.code c in (48 <=? n) && (n <=? 57).

Fixpoint take_while (p : ascii -> bool) (s : string) : string :=
  match s with
  | EmptyString => EmptyString
  | String c r => if p c then String c (take_while p r) else EmptyString
  end.

(** The first group of [s.match(/PREFIX([CLASS]+)/)]. *)
Fixpoint capture_after (prefix : string) (class : ascii -> bool)
         (s : string) : option string :=
  let here :=
    if Text.startsWith prefix s
    then match take_while class (Text.drop (String.length prefix) s) with
         | EmptyString => None
         | id => Some id
         end
    else None in
  match here with
  | Some id => Some id
  | None => match s with
            | EmptyString => None
            | String _ r => capture_after prefix class r
            end
  end.

(** [/[#&]gid=([0-9]+)/]. *)
Fixpoint capture_gid (s : string) : option string :=
  match s with
  | EmptyString => None
  | String c r =>
      let here :=
        if (Ascii.eqb c "#" || Ascii.eqb c "&") && Text.startsWith "gid=" r
        then match take_while is_digit (Text.drop 4 r) with
             | EmptyString => None
             | gid => Some gid
             end
        else None in
      match here with
      | Some gid => Some gid
      | None => capture_gid r
      end
  end.

Section Adapter.
Context {rt : Runtime}.
(** The spreadsheet service: building the client, reading the values
    of a spreadsheet (absent when the sheet has none), creating a
    spreadsheet, writing values; and the clock. *)
Variable client : Result unit.
Variable values_get : string -> Result (option (list (list string))).
Variable spreadsheets_create : string -> Result string.
Variable values_update : string -> string -> list (list JSValue)
                         -> Result JSValue.
Variable now : string.
(** What a call of [initializeSheets] would do if the name were
    declared. *)
Variable initializeSheets_call : Result unit.

Definition initializeGoogleSheetsService : Result unit :=
  try_catch client (fun message => Throw message).

Definition extractSheetInfo (url : JSValue)
  : Result (string * option string) :=
  try_catch
    (match url with
     | JStr s =>
         match capture_after "/spreadsheets/d/" is_id_char s with
         | None => Throw "Invalid Google Sheets URL format"
         | Some spreadsheetId => Ok (spreadsheetId, capture_gid s)
         end
     | JUndefined | JNull =>
         Throw "Cannot read properties of undefined (reading 'match')"
     | _ => Throw "url.match is not a function"
     end)
    (fun message =>
       Throw ("Failed to parse Google Sheets URL: " ++ message)).

(** The table [columnMapping]; a header reaches it in lower case.
    (The lookup is on the table's own keys: the headers [constructor]
    and [__proto__], which would reach inherited properties, are
    outside the model.) *)
Definition columnMapping : list (string * string) :=
  [("name", "name"); ("first name", "name"); ("full name", "name");
   ("age", "age"); ("gender", "gender"); ("location", "location");
   ("city", "location"); ("state", "location"); ("income", "income");
   ("household income", "income"); ("education", "education");
   ("occupation", "occupation"); ("job", "occupation");
   ("interests", "interests"); ("hobbies", "interests");
   ("values", "values");
   ("communication style", "communication_style");
   ("communication_style", "communication_style");
   ("bio", "bio"); ("biography", "bio"); ("description", "bio");
   ("motivations", "motivations"); ("barriers", "barriers");
   ("concerns", "barriers"); ("personality", "personality");
   ("traits", "personality")].

Fixpoint mapped (header : string) (table : list (string * string))
  : option string :=
  match table with
  | [] => None
  | (h, p) :: r => if String.eqb header h then Some p else mapped header r
  end.

Definition is_list_property (p : string) : bool :=
  String.eqb p "interests" || String.eqb p "motivations"
  || String.eqb p "barriers".

(** [!value || value.trim() === '']. *)
Definition blank (value : string) : bool :=
  Text.is_empty value || Text.is_empty (Text.trim value).

(** One column of the row. *)
Definition parse_column (header value : string) (persona : Obj) : Obj :=
  if blank value then persona
  else
    match mapped header columnMapping with
    | Some mappedProperty =>
        if String.eqb mappedProperty "age"
        then set mappedProperty
                 (or_else (JNum (parseInt (JStr value))) (JInt 0)) persona
        else if is_list_property mappedProperty
        then set mappedProperty
                 (JStrings
                    (filter (fun item => negb (Text.is_empty item))
                       (map Text.trim
                          (Text.split_on Text.is_list_separator value))))
                 persona
        else set mappedProperty (JStr (Text.trim value)) persona
    | None =>
        set (Text.replace_spaces false header) (JStr (Text.trim value))
            persona
    end.

(** [for (j = 0; j < headers.length && j < row.length; j++)]. *)
Fixpoint parse_columns (headers row : list string) (persona : Obj) : Obj :=
  match headers, row with
  | header :: hs, value :: vs =>
      parse_columns hs vs (parse_column header value persona)
  | _, _ => persona
  end.

(** The result is [None] for [null]. *)
Definition parsePersonaFromRow (row headers : list string) : option Obj :=
  let persona := parse_columns headers row [] in
  if negb (truthy (field persona "name")) then None
  else Some (set "imported_at" (JStr now)
               (set "source" (JStr "julius_sheet") persona)).

Definition fetchPersonasFromExternalSheet (sheetUrl : JSValue)
  : Result (list Obj) :=
  try_catch
    (info <- extractSheetInfo sheetUrl ;;
     let spreadsheetId := fst info in
     _ <- initializeGoogleSheetsService ;;
     rows <- values_get spreadsheetId ;;
     match rows with
     | Some (first :: second :: others) =>
         let headers :=
           map (fun h => Text.trim (Text.toLowerCase h)) first in
         Ok (fold_left
               (fun personas row =>
                  match parsePersonaFromRow row headers with
                  | Some persona =>
                      if truthy (field persona "name")
                      then personas ++ [persona] else personas
                  | None => personas
                  end)
               (second :: others) [])
     | _ =>
         Throw "No persona data found in the sheet or only headers present"
     end)
    (fun message =>
       Throw ("Failed to access Julius personas sheet: " ++ message)).

(** *** The import validator *)

Record SingleValidation : Type := {
  isValid : bool;
  single_warnings : list string;
  single_errors : list string
}.

Definition warn (condition : bool) (text : string) (r : SingleValidation)
  : SingleValidation :=
  if condition
  then {| isValid := isValid r;
          single_warnings := single_warnings r ++ [text];
          single_errors := single_errors r |}
  else r.

(** [!persona.name || persona.name.trim() === '']; only a string has
    the method [trim]. *)
Definition name_missing (name : JSValue) : Result bool :=
  if negb (truthy name) then Ok true
  else match name with
       | JStr s => Ok (Text.is_empty (Text.trim s))
       | _ => Throw "persona.name.trim is not a function"
       end.

Definition validateSinglePersona (persona : Obj) (rowNumber : nat)
  : Result SingleValidation :=
  let result :=
    {| isValid := true; single_warnings := []; single_errors := [] |} in
  missing <- name_missing (field persona "name") ;;
  let result :=
    if missing
    then {| isValid := false;
            single_warnings := single_warnings result;
            single_errors := single_errors result ++ ["Name is required"] |}
    else result in
  let age := field persona "age" in
  let result :=
    match age with
    | JUndefined => warn true "Age not provided" result
    | _ =>
        warn (isNaN age || lt_num age (Fin 0) || gt_num age (Fin 120))
             ("Age " ++ to_text age ++ " seems unusual") result
    end in
  let result :=
    warn (negb (truthy (field persona "location")))
         "Location not provided" result in
  let result :=
    warn (negb (truthy (field persona "occupation")))
         "Occupation not provided" result in
  let result :=
    warn (negb (truthy (field persona "bio"))
          && negb (truthy (field persona "description")))
         "No biography or description provided" result in
  let interests := field persona "interests" in
  let result :=
    warn (negb (truthy interests)
          || match interests with
             | JArr xs _ => Nat.eqb (List.length xs) 0
             | _ => false
             end)
         "No interests provided" result in
  let result :=
    warn (truthy interests && negb (isArray interests))
         "Interests should be a list" result in
  let result :=
    warn (truthy (field persona "motivations")
          && negb (isArray (field persona "motivations")))
         "Motivations should be a list" result in
  let result :=
    warn (truthy (field persona "barriers")
          && negb (isArray (field persona "barriers")))
         "Barriers should be a list" result in
  Ok result.

Record Summary : Type := {
  total_imported : nat;
  valid_personas : nat;
  personas_with_warnings : nat;
  invalid_personas : nat
}.

Record Validation : Type := {
  valid : list Obj;
  warnings : list Obj;
  errors : list Obj;
  summary : Summary
}.

(** The body of the [for] loop, for the persona at index [i]. *)
Definition validate_step (i : nat) (persona : Obj) (validation : Validation)
  : Result Validation :=
  personaValidation <- validateSinglePersona persona (i + 1) ;;
  let s := summary validation in
  if isValid personaValidation
  then
    let has_warnings :=
      negb (Nat.eqb (List.length (single_warnings personaValidation)) 0) in
    Ok {| valid := valid validation ++ [persona];
          warnings :=
            if has_warnings
            then warnings validation ++
                   [[("persona_name", field persona "name");
                     ("row", JNat (i + 1));
                     ("warnings",
                       JStrings (single_warnings personaValidation))]]
            else warnings validation;
          errors := errors validation;
          summary :=
            {| total_imported := total_imported s;
               valid_personas := valid_personas s + 1;
               personas_with_warnings :=
                 if has_warnings then personas_with_warnings s + 1
                 else personas_with_warnings s;
               invalid_personas := invalid_personas s |} |}
  else
    Ok {| valid := valid validation;
          warnings := warnings validation;
          errors :=
            errors validation ++
              [[("persona_name",
                  or_else (field persona "name")
                          (JStr ("Row " ++ Text.decimal_of_nat (i + 1))));
                ("row", JNat (i + 1));
                ("errors", JStrings (single_errors personaValidation))]];
          summary :=
            {| total_imported := total_imported s;
               valid_personas := valid_personas s;
               personas_with_warnings := personas_with_warnings s;
               invalid_personas := invalid_personas s + 1 |} |}.

Fixpoint validate_loop (personas : list Obj) (i : nat)
         (validation : Validation) : Result Validation :=
  match personas with
  | [] => Ok validation
  | persona :: rest =>
      validation' <- validate_step i persona validation ;;
      validate_loop rest (S i) validation'
  end.

Definition validatePersonas (personas : list Obj) : Result Validation :=
  validate_loop personas 0
    {| valid := []; warnings := []; errors := [];
       summary := {| total_imported := List.length personas;
                     valid_personas := 0;
                     personas_with_warnings := 0;
                     invalid_personas := 0 |} |}.

(** *** The export *)

Definition export_headers : list string :=
  ["Name"; "Age"; "Gender"; "Location"; "Occupation"; "Education";
   "Income"; "Original Bio"; "Interests"; "Values"; "Communication Style";
   "Social Media - Facebook"; "Social Media - LinkedIn";
   "Social Media - Other"; "Professional Background";
   "Community Involvement"; "Legal Motivations"; "Legal Barriers";
   "Legal Experience"; "Preferred Legal Communication";
   "Decision Timeline"; "Trust Factors"; "Document Insights";
   "Enrichment Sources"; "Confidence Score"; "Original Source";
   "Enriched Date"; "Campaign Matter"].

Definition or_empty (v : JSValue) : JSValue := or_else v (JStr "").

(** [Array.isArray(v) ? v.join(sep) : otherwise]. *)
Definition joined (sep : string) (v otherwise : JSValue) : JSValue :=
  if isArray v
  then match array_join sep v with
       | Ok text => JStr text
       | Throw _ => otherwise
       end
  else otherwise.

(** [v ? v.join(sep) : '']. *)
Definition join_if_truthy (sep : string) (v : JSValue) : Result JSValue :=
  if truthy v
  then text <- array_join sep v ;; Ok (JStr text)
  else Ok (JStr "").

(** The row of one persona in [enrichedPersonas.forEach]. *)
Definition export_row (campaignData persona : Obj)
  : Result (list JSValue) :=
  let social := field persona "social_media_profiles" in
  let facebook := read_opt social "facebook" in
  let linkedin := read_opt social "linkedin" in
  let enrichment := field persona "enrichment" in
  other_platforms <-
    join_if_truthy ", " (read_opt social "other_platforms") ;;
  sources <- join_if_truthy ", " (read_opt enrichment "sources") ;;
  Ok [or_empty (field persona "name");
      or_empty (field persona "age");
      or_empty (field persona "gender");
      or_empty (field persona "location");
      or_empty (field persona "occupation");
      or_empty (field persona "education");
      or_empty (field persona "income");
      or_empty (field persona "bio");
      joined "; " (field persona "interests")
             (or_empty (field persona "interests"));
      joined "; " (field persona "values")
             (or_empty (field persona "values"));
      or_empty (field persona "communication_style");
      if truthy facebook
      then JStr ("Active: " ++ to_text (read facebook "active")
                 ++ ", Frequency: " ++ to_text (read facebook "frequency"))
      else JStr "";
      if truthy linkedin
      then JStr ("Active: " ++ to_text (read linkedin "active")
                 ++ ", Usage: " ++ to_text (read linkedin "usage"))
      else JStr "";
      other_platforms;
      or_empty (read_opt (field persona "professional_details")
                         "industry_experience");
      joined "; " (field persona "community_involvement") (JStr "");
      joined "; " (field persona "legal_motivations") (JStr "");
      joined "; " (field persona "legal_barriers") (JStr "");
      or_empty (read_opt (field persona "legal_profile")
                         "likely_legal_experience");
      or_empty (field persona "preferred_legal_communication");
      or_empty (field persona "decision_timeline");
      joined "; " (field persona "trust_factors_legal") (JStr "");
      joined "; " (field persona "document_insights") (JStr "");
      sources;
      or_empty (read_opt enrichment "confidence_score");
      or_else (field persona "source") (JStr "julius_sheet");
      or_else (read_opt enrichment "enriched_at")
              (or_empty (read_opt (field persona "enrichment_metadata")
                                  "enriched_at"));
      or_empty (field campaignData "matter")].

Definition createNewSpreadsheet (title : string) : Result string :=
  try_catch (spreadsheets_create title) (fun message => Throw message).

Definition exportEnrichedPersonas (enrichedPersonas : list Obj)
           (campaignData options : Obj) : Result Obj :=
  try_catch
    (binding <- resolve ([("enrichedPersonas",
                             Value (JArray (map JObj enrichedPersonas)));
                           ("campaignData", Value (JObj campaignData));
                           ("options", Value (JObj options))]
                          ++ module_scope)
                        "initializeSheets" ;;
     _ <- match binding with
          | Declared => initializeSheets_call
          | Value _ => Throw "initializeSheets is not a function"
          end ;;
     spreadsheetId <-
       (if truthy (field options "targetSpreadsheetId")
        then Ok (to_text (field options "targetSpreadsheetId"))
        else createNewSpreadsheet
               ("Enriched Personas - "
                ++ to_text (field campaignData "matter") ++ " - "
                ++ Text.upto_date now)) ;;
     data_rows <- mapM (export_row campaignData) enrichedPersonas ;;
     let rows := map JStr export_headers :: data_rows in
     updatedRange <-
       values_update spreadsheetId
         ("Sheet1!A1:AB" ++ Text.decimal_of_nat (List.length rows)) rows ;;
     Ok [("success", JBool true);
         ("spreadsheet_id", JStr spreadsheetId);
         ("sheet_url",
           JStr ("https://docs.google.com/spreadsheets/d/" ++ spreadsheetId));
         ("rows_exported", JNat (List.length rows - 1));
         ("updated_range", updatedRange)])
    (fun message => Throw ("Export failed: " ++ message)).

End Adapter.

End SheetsService.

(** ** api/generate-personas-v2.js *)

Module GeneratePersonasV2.
Import JS Services.

(** A request: the method, and what [parseForm] resolves to (the fields
    of the body) or rejects with. *)
Record Request : Type := {
  method : string;
  form : Result Obj
}.

Record Response : Type := {
  status : nat;
  body : Obj
}.

(** The components the handler invokes, in the order of invocation. *)
Inductive Event : Type :=
| EnrichmentWorkflow
| FetchSheet
| ImportValidation
| DocumentAnalysis
| ConductResearch
| GeneratePersonas
| SocialEnrichment
| LegalEnrichment
| ExportSheet.

(** Everything outside the program that one request meets. *)
Record World : Type := {
  session_id : string;
  env : Env;
  now : string;
  clock : nat -> string;
  perplexity : string -> HttpReply;
  generation_reply : ApiReply;
  document_agent_import : Result unit;
  document_processing : Result JSValue;
  document_analysis : Result JSValue;
  sheets_client : Result unit;
  values_get : string -> Result (option (list (list string)));
  spreadsheets_create : string -> Result string;
  values_update : string -> string -> list (list JSValue) -> Result JSValue;
  initializeSheets_call : Result unit;
  enrichment_agent : Result unit;
  social_reply : nat -> ApiReply;
  legal_reply : nat -> ApiReply
}.

(** The declarations of the module and the locals of [handler]. *)
Definition handler_scope : Scope :=
  declared ["req"; "res"; "sessionId"; "matter"; "keywords";
             "target_description"; "persona_count";
             "julius_personas_sheet_url"; "complaint_file_url";
             "research_file_url"; "fileUrls"; "isEnrichmentMode";
             "uploadedData"; "DocumentAgent"; "fileObjects"; "researchData";
             "conductResearch"; "generatePersonas"; "personaResult";
             "personas";
             "Readable"; "config"; "parseForm"; "handler";
             "handlePersonaEnrichment"]
  ++ host_globals.

Section Handler.
Context {rt : Runtime}.
Variable w : World.

Definition respond (code : nat) (fields : Obj) : Response :=
  {| status := code; body := fields |}.

(** [url ? '...' + url.substring(0, 50) + '...' : '...']: only a string
    has [substring]. *)
Definition log_file_url (url : JSValue) : Result unit :=
  if truthy url
  then match url with
       | JStr _ => Ok tt
       | _ => Throw "substring is not a function"
       end
  else Ok tt.

(** [/^https:\/\/docs\.google\.com\/spreadsheets\/d\/[a-zA-Z0-9-_]+/]. *)
Definition sheetsUrlPattern (s : string) : bool :=
  let prefix := "https://docs.google.com/spreadsheets/d/" in
  Text.startsWith prefix s
  && match Text.drop (String.length prefix) s with
     | String c _ => SheetsService.is_id_char c
     | EmptyString => false
     end.

(** The additional check with [new URL]. *)
Definition check_url (s : string) : Result unit :=
  url <- URL_parse s ;;
  if negb (String.eqb (fst url) "docs.google.com")
  then Throw "URL must be from docs.google.com"
  else if negb (Text.includes "/spreadsheets/d/" (snd url))
  then Throw "URL must be a Google Sheets document"
  else Ok tt.

Definition sheet_error (message : string) : string * string :=
  if Text.includes "permission" message || Text.includes "access" message
     || Text.includes "403" message
  then ("Permission denied accessing Julius sheet",
        "Please ensure the Google Sheet is shared publicly or with our service account. Go to Share > General access > Anyone with the link > Viewer.")
  else if Text.includes "not found" message || Text.includes "404" message
  then ("Julius sheet not found",
        "The Google Sheet URL appears to be invalid or the sheet has been deleted.")
  else if Text.includes "No persona data found" message
  then ("Empty personas sheet",
        "The Julius sheet appears to be empty or contains no valid persona data.")
  else ("Failed to access Julius personas sheet", message).

(** The steps of the enrichment workflow after the import validation;
    an error goes to the [catch] of [handlePersonaEnrichment]. *)
Definition enrich_and_export (matter keywords target_description
                              julius_personas_sheet_url : JSValue)
           (fileUrls : list JSValue)
           (importedPersonas : list Obj)
           (validation : SheetsService.Validation)
  : Result Response * list Event :=
  let campaign := [("matter", matter); ("keywords", keywords);
                   ("target_description", target_description)] in
  let documents :=
    match fileUrls with
    | [] => (Ok (JArray []), [])
    | _ => (_ <- document_agent_import w ;;
            uploadedData <- document_analysis w ;;
            _ <- get_prop uploadedData "length" ;;
            Ok uploadedData,
            [DocumentAnalysis])
    end in
  match fst documents with
  | Throw m => (Throw m, snd documents)
  | Ok uploadedData =>
      let researchData :=
        ResearchAgent.conductResearch (perplexity w) (now w) (env w)
          matter keywords target_description in
      let trace := snd documents ++ [ConductResearch] in
      match enrichment_agent w with
      | Throw m => (Throw m, trace)
      | Ok _ =>
          let socialEnrichedPersonas :=
            PersonaEnrichmentAgent.enrichPersonas
              (social_reply w) (clock w) (SheetsService.valid validation) in
          let trace := trace ++ [SocialEnrichment] in
          match PersonaAgent.enrichPersonas (legal_reply w) (clock w)
                  (env w) socialEnrichedPersonas campaign uploadedData
                  (JObj researchData) with
          | Throw m => (Throw m, trace ++ [LegalEnrichment])
          | Ok legalEnrichmentResult =>
              let finalEnrichedPersonas :=
                PersonaAgent.personas legalEnrichmentResult in
              let trace := trace ++ [LegalEnrichment; ExportSheet] in
              match SheetsService.exportEnrichedPersonas
                      (spreadsheets_create w) (values_update w) (now w)
                      (initializeSheets_call w)
                      finalEnrichedPersonas campaign [] with
              | Throw m => (Throw m, trace)
              | Ok exportResult =>
                  (Ok (respond 200
                         [("success", JBool true);
                          ("sessionId", JStr (session_id w));
                          ("mode", JStr "enrichment");
                          ("personas",
                            JArray (map JObj finalEnrichedPersonas));
                          ("enrichmentSummary",
                            JObj [("imported_count",
                                    JNat (List.length importedPersonas));
                                  ("valid_count",
                                    JNat (SheetsService.valid_personas
                                            (SheetsService.summary validation)));
                                  ("social_enriched_count",
                                    JNat (List.length socialEnrichedPersonas));
                                  ("final_enriched_count",
                                    JNat (List.length finalEnrichedPersonas));
                                  ("validation_warnings",
                                    JNat (List.length
                                            (SheetsService.warnings validation)));
                                  ("validation_errors",
                                    JNat (List.length
                                            (SheetsService.errors validation)));
                                  ("enrichment_steps",
                                    JStrings ["social_research";
                                              "document_analysis";
                                              "legal_insights"])]);
                          ("dataAnalysis",
                            JObj [("documentsProcessed",
                                    read uploadedData "length");
                                  ("researchCategories",
                                    JStrings (keys researchData));
                                  ("source_sheet", julius_personas_sheet_url);
                                  ("legal_confidence",
                                    PersonaAgent.confidence
                                      legalEnrichmentResult);
                                  ("has_media_insights",
                                    PersonaAgent.hasMediaInsights
                                      legalEnrichmentResult)]);
                          ("exportResults",
                            JObj [("exported_sheet_url",
                                    field exportResult "sheet_url");
                                  ("exported_sheet_id",
                                    field exportResult "spreadsheet_id");
                                  ("rows_exported",
                                    field exportResult "rows_exported")]);
                          ("processingTime", JStr (now w))]),
                   trace)
              end
          end
      end
  end.

Definition handlePersonaEnrichment
           (matter keywords target_description julius_personas_sheet_url
            complaint_file_url research_file_url : JSValue)
  : Response * list Event :=
  match SheetsService.fetchPersonasFromExternalSheet
          (sheets_client w) (values_get w) (now w)
          julius_personas_sheet_url with
  | Throw message =>
      (respond 400
         [("error", JStr "SHEET_ACCESS_FAILED");
          ("message", JStr (fst (sheet_error message)));
          ("details", JStr (snd (sheet_error message)));
          ("sessionId", JStr (session_id w));
          ("troubleshooting",
            JObj [("steps",
                    JStrings
                      ["Verify the Google Sheets URL is correct";
                       "Ensure the sheet is shared publicly (Anyone with the link > Viewer)";
                       "Check that the sheet contains persona data with proper headers";
                       "Make sure the sheet is not empty"])])],
       [FetchSheet])
  | Ok importedPersonas =>
      match importedPersonas with
      | [] =>
          (respond 400
             [("error", JStr "EMPTY_PERSONAS_SHEET");
              ("message", JStr "No personas found in the Julius sheet");
              ("details",
                JStr "The sheet appears to be empty or contains no recognizable persona data.");
              ("sessionId", JStr (session_id w));
              ("troubleshooting",
                JObj [("expectedFormat",
                        JStr "The sheet should have headers like: name, age, location, occupation, interests, etc.");
                      ("minRequirements",
                        JStr "At least a name column with persona names is required")])],
           [FetchSheet])
      | _ =>
          let failed (message : string) (trace : list Event) :=
            (respond 500
               [("error", JStr "ENRICHMENT_FAILED");
                ("message", JStr message);
                ("sessionId", JStr (session_id w));
                ("timestamp", JStr (now w))],
             trace) in
          match SheetsService.validatePersonas importedPersonas with
          | Throw message => failed message [FetchSheet; ImportValidation]
          | Ok validation =>
              if Nat.eqb (SheetsService.valid_personas
                            (SheetsService.summary validation)) 0
              then
                (respond 400
                   [("error", JStr "NO_VALID_PERSONAS");
                    ("message",
                      JStr "No valid personas found in the Julius sheet after validation");
                    ("validationDetails",
                      JObj [("total_imported",
                              JNat (SheetsService.total_imported
                                      (SheetsService.summary validation)));
                            ("validation_errors",
                              JArray (map JObj
                                        (firstn 5 (SheetsService.errors
                                                     validation))));
                            ("common_issues",
                              JStrings ["Missing required name field";
                                        "Invalid data formats";
                                        "Empty rows"])]);
                    ("sessionId", JStr (session_id w));
                    ("suggestion",
                      JStr "Please check the persona data format and ensure each persona has at least a name.")],
                 [FetchSheet; ImportValidation])
              else
                let fileUrls :=
                  filter truthy [complaint_file_url; research_file_url] in
                match enrich_and_export matter keywords target_description
                        julius_personas_sheet_url fileUrls
                        importedPersonas validation with
                | (Ok response, trace) =>
                    (response, [FetchSheet; ImportValidation] ++ trace)
                | (Throw message, trace) =>
                    failed message ([FetchSheet; ImportValidation] ++ trace)
                end
          end
      end
  end.

(** STEP 1 of the generation workflow.  With a file URL present the
    block reads [mri_file_url], [targetsmart_file_url] and
    [client_file_url] before it downloads anything; its [catch] only
    logs.  [document_processing] stands for the downloads and
    [DocumentAgent.processFiles]. *)
Definition process_uploads (fileUrls : list JSValue) : JSValue :=
  match fileUrls with
  | [] => JArray []
  | _ =>
      match (_ <- document_agent_import w ;;
             _ <- resolve handler_scope "mri_file_url" ;;
             _ <- resolve handler_scope "targetsmart_file_url" ;;
             _ <- resolve handler_scope "client_file_url" ;;
             document_processing w)
      with
      | Ok uploadedData => uploadedData
      | Throw _ => JArray []
      end
  end.

(** [await component(...)]: the call, with the record of its
    invocation. *)
Definition invoke {A : Type} (component : Event) (result : A)
  : A * list Event :=
  (result, [component]).

(** [parseInt(persona_count) || 5]. *)
Definition requested_count (persona_count : JSValue) : Num :=
  match or_else (JNum (parseInt persona_count)) (JInt 5) with
  | JNum n => n
  | _ => NaN
  end.

(** STEP 2 and STEP 3 of the generation workflow: the research
    collector is awaited, and the generator is called with what it
    returned. *)
Definition generation_workflow
           (matter keywords target_description persona_count : JSValue)
           (fileUrls : list JSValue) : Result Response * list Event :=
  let uploadedData := process_uploads fileUrls in
  let '(researchData, researched) :=
    invoke ConductResearch
      (ResearchAgent.conductResearch (perplexity w) (now w) (env w)
         matter keywords target_description) in
  match get_prop uploadedData "length" with
  | Throw m => (Throw m, researched)
  | Ok filesProcessed =>
      let '(generated, generation) :=
        invoke GeneratePersonas
          (PersonaAgent.generatePersonas (env w) (generation_reply w) (now w)
             [("matter", matter); ("keywords", keywords);
              ("target_description", target_description)]
             uploadedData (JObj researchData)
             (requested_count persona_count)) in
      (personaResult <- generated ;;
       if negb (truthy (field personaResult "success"))
       then Ok (respond 422 personaResult)
       else
         match field personaResult "personas" with
         | JArr _ _ =>
             Ok (respond 200
                   [("success", JBool true);
                    ("sessionId", JStr (session_id w));
                    ("personas", field personaResult "personas");
                    ("dataAnalysis",
                      JObj [("totalDataPoints",
                              field personaResult "sourceDataCount");
                            ("confidence", field personaResult "confidence");
                            ("filesProcessed", filesProcessed);
                            ("researchCategories",
                              JStrings (keys researchData));
                            ("hasMediaInsights",
                              field personaResult "hasMediaInsights")]);
                    ("processingTime", JStr (now w))])
         | JUndefined | JNull =>
             Throw "Cannot read properties of undefined (reading 'length')"
         | _ => Throw "personas.forEach is not a function"
         end,
       researched ++ generation)
  end.

Definition handler (req : Request) : Response * list Event :=
  if String.eqb (method req) "OPTIONS" then (respond 200 [], [])
  else if negb (String.eqb (method req) "POST")
  then (respond 405 [("error", JStr "Method not allowed")], [])
  else
    match form req with
    | Throw message =>
        (respond 400 [("error", JStr "Failed to parse form data");
                      ("details", JStr message)], [])
    | Ok fields =>
        let matter := field fields "matter" in
        let keywords := field fields "keywords" in
        let target_description := field fields "target_description" in
        let persona_count := field fields "persona_count" in
        let julius_personas_sheet_url :=
          field fields "julius_personas_sheet_url" in
        let complaint_file_url := field fields "complaint_file_url" in
        let research_file_url := field fields "research_file_url" in
        let fatal (message : string) (trace : list Event) :=
          (respond 500 [("error", JStr "PROCESSING_FAILED");
                        ("message", JStr message);
                        ("sessionId", JStr (session_id w));
                        ("timestamp", JStr (now w))], trace) in
        match (_ <- log_file_url complaint_file_url ;;
               log_file_url research_file_url) with
        | Throw message => fatal message []
        | Ok _ =>
            let fileUrls :=
              filter truthy [complaint_file_url; research_file_url] in
            if negb (truthy matter) || negb (truthy keywords)
               || negb (truthy target_description)
            then
              (respond 400
                 [("error", JStr "Missing required fields");
                  ("message",
                    JStr "Matter, keywords, and target description are required")],
               [])
            else if truthy julius_personas_sheet_url
                    && negb (sheetsUrlPattern
                               (to_text julius_personas_sheet_url))
            then
              (respond 400
                 [("error", JStr "Invalid Google Sheets URL");
                  ("message",
                    JStr "Please provide a valid Google Sheets URL (https://docs.google.com/spreadsheets/d/...)");
                  ("sessionId", JStr (session_id w))],
               [])
            else
              match (if truthy julius_personas_sheet_url
                     then check_url (to_text julius_personas_sheet_url)
                     else Ok tt) with
              | Throw urlError =>
                  (respond 400
                     [("error", JStr "Invalid Google Sheets URL Format");
                      ("message",
                        JStr ("URL validation failed: " ++ urlError));
                      ("sessionId", JStr (session_id w))],
                   [])
              | Ok _ =>
                  let isEnrichmentMode :=
                    truthy julius_personas_sheet_url in
                  if isEnrichmentMode
                  then
                    let '(response, trace) :=
                      handlePersonaEnrichment matter keywords
                        target_description julius_personas_sheet_url
                        complaint_file_url research_file_url in
                    (response, EnrichmentWorkflow :: trace)
                  else
                    match generation_workflow matter keywords
                            target_description persona_count fileUrls with
                    | (Ok response, trace) => (response, trace)
                    | (Throw message, trace) => fatal message trace
                    end
              end
        end
    end.

End Handler.

End GeneratePersonasV2.

(** ** A runtime to run the model on concrete inputs

    The theorems hold for every [Runtime].  This instance implements the
    part of the engine that the examples exercise: JSON texts without
    exponents and without [\u] escapes, decimal numerals, and URLs of the
    form [scheme://host/path?query#fragment]. *)

Module ReferenceRuntime.
Import JS.

Definition numberToString (n : Num) : string :=
  match n with
  | NaN => "NaN"
  | PInf => "Infinity"
  | NInf => "-Infinity"
  | Fin q =>
      let num := Qnum q in
      let den := Zpos (Qden q) in
      let whole := (Z.abs num / den)%Z in
      let fraction :=
        (fix digits (fuel : nat) (r : Z) : string :=
           match fuel with
           | O => EmptyString
           | S fuel' =>
               if (r =? 0)%Z then EmptyString
               else String (Text.digit_char (Z.to_nat (10 * r / den)))
                           (digits fuel' ((10 * r) mod den)%Z)
           end) 20 (Z.abs num mod den)%Z in
      (if (num <? 0)%Z then "-" else "")
      ++ Text.decimal_of_Z whole
      ++ (if Text.is_empty fraction then "" else "." ++ fraction)
  end.

(** A decimal numeral [digits] or [digits.digits] at the head of [s],
    with the rest. *)
Definition read_decimal (s : string) : option (Q * string) :=
  match Text.read_digits Text.digit_value 10 0 0 s with
  | (_, O, _) => None
  | (whole, S _, String "." r) =>
      match Text.read_digits Text.digit_value 10 0 0 r with
      | (_, O, _) => None
      | (frac, S k, rest) =>
          Some ((inject_Z whole
                 + inject_Z frac / inject_Z (10 ^ Z.of_nat (S k)))%Q, rest)
      end
  | (whole, S _, rest) => Some (inject_Z whole, rest)
  end.

Definition read_signed (s : string) : option (Q * string) :=
  match s with
  | String "-" r =>
      match read_decimal r with
      | Some (q, rest) => Some ((- q)%Q, rest)
      | None => None
      end
  | _ => read_decimal s
  end.

Definition stringToNumber (s : string) : Num :=
  let t := Text.trim s in
  if Text.is_empty t then Fin 0
  else match read_signed (match t with String "+" r => r | _ => t end) with
       | Some (q, EmptyString) => Fin (Qred q)
       | _ => NaN
       end.

Definition is_json_space (c : ascii) : bool :=
  let n := Text.code c in
  (n =? 32) || (n =? 9) || (n =? 10) || (n =? 13).

Fixpoint skip_ws (s : string) : string :=
  match s with
  | String c r => if is_json_space c then skip_ws r else s
  | EmptyString => s
  end.

Definition dquote : ascii := ascii_of_nat 34.
Definition backslash : ascii := ascii_of_nat 92.

(** The character that an escape letter stands for. *)
Definition unescape (e : ascii) : option ascii :=
  if Ascii.eqb e dquote || Ascii.eqb e backslash || Ascii.eqb e "/"
  then Some e
  else if Ascii.eqb e "n" then Some (ascii_of_nat 10)
  else if Ascii.eqb e "t" then Some (ascii_of_nat 9)
  else if Ascii.eqb e "r" then Some (ascii_of_nat 13)
  else if Ascii.eqb e "b" then Some (ascii_of_nat 8)
  else if Ascii.eqb e "f" then Some (ascii_of_nat 12)
  else None.

(** The characters of a string literal after its opening quote. *)
Fixpoint read_string (s : string) : option (string * string) :=
  match s with
  | EmptyString => None
  | String c r =>
      if Ascii.eqb c dquote then Some (EmptyString, r)
      else if Ascii.eqb c backslash
      then match r with
           | String e r' =>
               match unescape e, read_string r' with
               | Some x, Some (t, rest) => Some (String x t, rest)
               | _, _ => None
               end
           | EmptyString => None
           end
      else if Text.code c <? 32 then None
      else match read_string r with
           | Some (t, rest) => Some (String c t, rest)
           | None => None
           end
  end.

Definition starts_with_char (c : ascii) (s : string) : option string :=
  match s with
  | String a r => if Ascii.eqb a c then Some r else None
  | EmptyString => None
  end.

Definition read_literal (t : string) : option (JSValue * string) :=
  if Text.startsWith "null" t then Some (JNull, Text.drop 4 t)
  else if Text.startsWith "true" t then Some (JBool true, Text.drop 4 t)
  else if Text.startsWith "false" t then Some (JBool false, Text.drop 5 t)
  else match read_signed t with
       | Some (q, rest) =>
           match rest with
           | String "e" _ | String "E" _ => None
           | _ => Some (JNum (Fin (Qred q)), rest)
           end
       | None => None
       end.

Fixpoint parse_value (fuel : nat) (s : string) : option (JSValue * string) :=
  match fuel with
  | O => None
  | S fuel' =>
      match skip_ws s with
      | EmptyString => None
      | String c r =>
          if Ascii.eqb c dquote
          then match read_string r with
               | Some (t, rest) => Some (JStr t, rest)
               | None => None
               end
          else if Ascii.eqb c "["
          then match starts_with_char "]" (skip_ws r) with
               | Some rest => Some (JArray [], rest)
               | None =>
                   match parse_elements fuel' r with
                   | Some (xs, rest) => Some (JArray xs, rest)
                   | None => None
                   end
               end
          else if Ascii.eqb c "{"
          then match starts_with_char "}" (skip_ws r) with
               | Some rest => Some (JObj [], rest)
               | None =>
                   match parse_members fuel' r [] with
                   | Some (o, rest) => Some (JObj o, rest)
                   | None => None
                   end
               end
          else read_literal (String c r)
      end
  end
with parse_elements (fuel : nat) (s : string)
     : option (list JSValue * string) :=
  match fuel with
  | O => None
  | S fuel' =>
      match parse_value fuel' s with
      | Some (x, rest) =>
          match skip_ws rest with
          | String "]" rest' => Some ([x], rest')
          | String "," rest' =>
              match parse_elements fuel' rest' with
              | Some (xs, rest'') => Some (x :: xs, rest'')
              | None => None
              end
          | _ => None
          end
      | None => None
      end
  end
with parse_members (fuel : nat) (s : string) (acc : Obj)
     : option (Obj * string) :=
  match fuel with
  | O => None
  | S fuel' =>
      match starts_with_char dquote (skip_ws s) with
      | Some r =>
          match read_string r with
          | Some (k, rest) =>
              match skip_ws rest with
              | String ":" rest' =>
                  match parse_value fuel' rest' with
                  | Some (v, rest'') =>
                      match skip_ws rest'' with
                      | String "}" rest3 => Some (set k v acc, rest3)
                      | String "," rest3 =>
                          parse_members fuel' rest3 (set k v acc)
                      | _ => None
                      end
                  | None => None
                  end
              | _ => None
              end
          | None => None
          end
      | None => None
      end
  end.

Definition json_parse (s : string) : Result JSValue :=
  match parse_value (2 * String.length s + 2) s with
  | Some (v, rest) =>
      if Text.is_empty (skip_ws rest) then Ok v
      else Throw "Unexpected non-whitespace character after JSON"
  | None => Throw "Unexpected token in JSON"
  end.

Fixpoint quote_body (s : string) : string :=
  match s with
  | EmptyString => EmptyString
  | String c r =>
      (if Ascii.eqb c dquote || Ascii.eqb c backslash
       then String backslash (String c EmptyString)
       else if Text.code c =? 10 then String backslash "n"
       else if Text.code c =? 13 then String backslash "r"
       else if Text.code c =? 9 then String backslash "t"
       else String c EmptyString) ++ quote_body r
  end.

Definition quote (s : string) : string :=
  String dquote (quote_body s ++ String dquote EmptyString).

Fixpoint json_stringify (v : JSValue) : string :=
  match v with
  | JUndefined | JNull => "null"
  | JBool true => "true"
  | JBool false => "false"
  | JNum (Fin q) => numberToString (Fin q)
  | JNum _ => "null"
  | JStr s => quote s
  | JArr xs _ => "[" ++ Text.join "," (map json_stringify xs) ++ "]"
  | JObj o =>
      "{" ++ Text.join ","
               (flat_map (fun kv =>
                            match kv with
                            | (_, JUndefined) => []
                            | (k, x) => [(quote k ++ ":" ++ json_stringify x)%string]
                            end) o)
      ++ "}"
  end.

Fixpoint take_until (stop : ascii -> bool) (s : string) : string * string :=
  match s with
  | EmptyString => (EmptyString, EmptyString)
  | String c r =>
      if stop c then (EmptyString, s)
      else let '(a, b) := take_until stop r in (String c a, b)
  end.

Definition url_parse (s : string) : Result (string * string) :=
  let t := Text.trim s in
  let after :=
    if Text.startsWith "https://" t then Some (Text.drop 8 t)
    else if Text.startsWith "http://" t then Some (Text.drop 7 t)
    else None in
  match after with
  | None => Throw "Invalid URL"
  | Some r =>
      let '(authority, rest) :=
        take_until (fun c => Ascii.eqb c "/" || Ascii.eqb c "?"
                             || Ascii.eqb c "#") r in
      let '(host, _) := take_until (fun c => Ascii.eqb c ":") authority in
      if Text.is_empty host then Throw "Invalid URL"
      else
        let '(path, _) :=
          take_until (fun c => Ascii.eqb c "?" || Ascii.eqb c "#") rest in
        Ok (Text.toLowerCase host,
            if Text.is_empty path then "/" else path)
  end.

#[export] Instance runtime : Runtime := {|
  JSON_parse := json_parse;
  JSON_stringify := json_stringify;
  NumberToString := numberToString;
  StringToNumber := stringToNumber;
  URL_parse := url_parse
|}.

End ReferenceRuntime.

(** ** The properties, in the words of the specification *)

Module Spec.
Import JS Services.

Section Words.
Context {rt : Runtime}.

(** *** Response parsing *)

(** The decoded reply has the keys the enrichment parser requires. *)
Definition has_required_keys (parsed : JSValue) : bool :=
  truthy (read parsed "enrichedFields") && truthy (read parsed "confidence").

(** A parse failure of an enrichment reply: no JSON found, a decode
    error, or missing required keys. *)
Inductive EnrichmentParseFailure (text : string) : Prop :=
| NoJsonFound :
    Text.match_object text = None -> EnrichmentParseFailure text
| DecodeError (json message : string) :
    Text.match_object text = Some json ->
    JSON_parse json = Throw message -> EnrichmentParseFailure text
| MissingKeys (json : string) (parsed : JSValue) :
    Text.match_object text = Some json ->
    JSON_parse json = Ok parsed ->
    has_required_keys parsed = false -> EnrichmentParseFailure text.

(** A parse failure of a persona-array reply. *)
Inductive ArrayParseFailure (text : string) : Prop :=
| NoArrayFound :
    Text.match_array (Text.trim text) = None -> ArrayParseFailure text
| ArrayDecodeError (json message : string) :
    Text.match_array (Text.trim text) = Some json ->
    JSON_parse json = Throw message -> ArrayParseFailure text
| NotAnArray (json : string) (parsed : JSValue) :
    Text.match_array (Text.trim text) = Some json ->
    JSON_parse json = Ok parsed ->
    isArray parsed = false -> ArrayParseFailure text.

(** *** Generation-time validation *)

(** A value is non-empty, in the words of the claim: it is there
    (neither absent nor [null]) and it is not the empty text or the
    empty list. *)
Definition non_empty (v : JSValue) : bool :=
  match v with
  | JUndefined | JNull => false
  | JStr EmptyString => false
  | JArr [] _ => false
  | _ => true
  end.

(** A value is filled, as the amended claim has it: it is non-empty
    and, moreover, not [false], [0] or [NaN]. *)
Definition filled (v : JSValue) : bool :=
  match v with
  | JUndefined | JNull => false
  | JBool b => b
  | JNum NaN => false
  | JNum (Fin q) => negb (Qeq_bool q 0)
  | JNum _ => true
  | JStr EmptyString => false
  | JStr _ => true
  | JArr [] _ => false
  | JArr _ _ => true
  | JObj _ => true
  end.

(** Each of name, age, bio, motivations, barriers and
    communication_style has a value that is [there]. *)
Definition all_six (there : JSValue -> bool) (persona : JSValue) : bool :=
  there (read persona "name")
  && there (read persona "age")
  && there (read persona "bio")
  && there (read persona "motivations")
  && there (read persona "barriers")
  && there (read persona "communication_style").

Definition has_required_fields : JSValue -> bool := all_six filled.
Definition has_required_fields_as_stated : JSValue -> bool :=
  all_six non_empty.

Definition citations_present (persona : JSValue) : bool :=
  let source_citations := read persona "source_citations" in
  truthy source_citations
  && gt_num (read (read source_citations "primary_sources") "length")
            (Fin 0).

Definition confident (persona : JSValue) : bool :=
  let confidence_score := read persona "confidence_score" in
  truthy confidence_score && gt_num confidence_score (Fin 70).

Definition long_bio (persona : JSValue) : bool :=
  let bio := read persona "bio" in
  truthy bio && gt_num (read bio "length") (Fin 100).

(** Citation presence +30, confidence > 70 +25, completeness +25, bio
    length > 100 +20. *)
Definition weighted_score (complete : bool) (persona : JSValue) : Z :=
  ((if citations_present persona then 30 else 0)
   + (if confident persona then 25 else 0)
   + (if complete then 25 else 0)
   + (if long_bio persona then 20 else 0))%Z.

Definition score (persona : JSValue) : Z :=
  weighted_score (has_required_fields persona) persona.

(** Kept: all required fields and a score of at least 50. *)
Definition kept (persona : JSValue) : bool :=
  has_required_fields persona && (50 <=? score persona)%Z.

(** Kept, with the required fields read as the claim states them. *)
Definition kept_as_stated (persona : JSValue) : bool :=
  has_required_fields_as_stated persona
  && (50 <=? weighted_score (has_required_fields_as_stated persona)
                            persona)%Z.

(** A kept persona as returned: with its validation record. *)
Definition with_validation (persona : JSValue) : JSValue :=
  match assign_prop persona "validation"
          (JObj [("complete", JBool true);
                 ("missing_fields", JStrings []);
                 ("quality_score", JInt (score persona))]) with
  | Ok validated => validated
  | Throw _ => persona
  end.

(** A persona as [addSourceCitations] leaves it: an object (or an
    array) whose citation record has its primary sources. *)
Definition is_object (v : JSValue) : bool :=
  match v with
  | JObj _ | JArr _ _ => true
  | _ => false
  end.

Definition well_cited (persona : JSValue) : Prop :=
  is_object persona = true
  /\ truthy (read persona "source_citations") = true
  /\ get_prop (read (read persona "source_citations") "primary_sources")
              "length" =
     Ok (read (read (read persona "source_citations") "primary_sources")
              "length").

(** *** The second opinion *)

(** A value whose properties can be read: anything but [undefined] and
    [null]. *)
Definition has_properties (v : JSValue) : bool :=
  match v with
  | JUndefined | JNull => false
  | _ => true
  end.

(** *** Import-time validation *)

(** The name is missing or empty (blank). *)
Definition name_missing_or_empty (persona : Obj) : bool :=
  match field persona "name" with
  | JStr s => Text.is_empty (Text.trim s)
  | _ => true
  end.

(** The name, when there is one, is a text. *)
Definition name_is_text (persona : Obj) : Prop :=
  match field persona "name" with
  | JStr _ => True
  | v => truthy v = false
  end.

Definition age_warning (age : JSValue) : string :=
  "Age " ++ to_text age ++ " seems unusual".

(** *** The columns of a sheet *)

(** The property that a column with the given header fills. *)
Definition column_key (header : string) : string :=
  match SheetsService.mapped header SheetsService.columnMapping with
  | Some mappedProperty => mappedProperty
  | None => Text.replace_spaces false header
  end.

(** *** Research *)

Definition topics : list string :=
  ["demographics"; "social_insights"; "legal_trends"; "consumer_behavior"].

(** A query fails: the request throws, or the reply has no content. *)
Definition query_fails (reply : HttpReply) : Prop :=
  match reply with
  | HttpContent content => content = EmptyString
  | _ => True
  end.

(** *** Requests *)

(** A form field that is absent, empty or a text. *)
Definition text_or_absent (v : JSValue) : Prop :=
  match v with
  | JStr _ => True
  | _ => truthy v = false
  end.

Definition well_formed_sheet_url (url : JSValue) : bool :=
  GeneratePersonasV2.sheetsUrlPattern (to_text url)
  && match GeneratePersonasV2.check_url (to_text url) with
     | Ok _ => true
     | Throw _ => false
     end.

End Words.

End Spec.

(** ** Sample inputs *)

Module Samples.
Import JS Services.

Definition timestamp : string := "2024-05-01T12:00:00.000Z".

(** The JSON text of an object, as the model or the research API would
    send it. *)
Definition json (o : Obj) : string := ReferenceRuntime.json_stringify (JObj o).

Definition structured_reply : string :=
  json [("data_reliability", JStr "high")].

(** A well-formed validation reply that disapproves. *)
Definition disapproval : string :=
  json [("approved", JBool false); ("confidence", JInt 5)].

Definition alice : Obj :=
  [("name", JStr "Alice Moreno"); ("age", JInt 41);
   ("communication_style", JStr "direct")].

Definition bea : Obj :=
  [("name", JStr "Bea Quint"); ("age", JInt 29); ("location", JStr "Tulsa, OK")].

(** A reply in prose followed by a JSON object whose [enrichedFields]
    has the one key [name], with the value [Mallory], and whose
    [confidence] is 0.9. *)
Definition renaming_reply : ApiReply :=
  ApiText ("Here you go: " ++
           json [("enrichedFields", JObj [("name", JStr "Mallory")]);
                 ("confidence", JNum (Fin (9 # 10)))]).

(** The first call is answered by a well-formed enrichment (a JSON
    object with [enrichedFields], [confidence] and [fieldsEnriched]),
    every later call fails. *)
Definition one_reply_then_outage (i : nat) : ApiReply :=
  match i with
  | O => ApiText
           (json [("enrichedFields",
                    JObj [("expanded_interests", JStrings ["chess"])]);
                  ("confidence", JNum (Fin (85 # 100)));
                  ("fieldsEnriched", JStrings ["interests"])])
  | S _ => ApiError "529 overloaded"
  end.

Definition sample_env : Env :=
  {| ANTHROPIC_API_KEY := Some "sk-ant-test";
     PERPLEXITY_API_KEY := Some "pplx-test";
     OPENAI_API_KEY := Some "sk-test" |}.

(** The demographics query times out; the other three are answered. *)
Definition one_timeout (requestType : string) : HttpReply :=
  if String.eqb requestType "demographics" then HttpNoResponse
  else HttpContent structured_reply.

(** The legal-trends query is answered in prose; the other three in
    JSON. *)
Definition one_prose_reply (requestType : string) : HttpReply :=
  if String.eqb requestType "legal_trends"
  then HttpContent "Settlements have risen since 2020."
  else HttpContent structured_reply.

Definition research_found : JSValue :=
  JObj [("demographics", JObj [("age_demographics", JStr "35-54")])].

Definition campaign : Obj :=
  [("matter", JStr "X"); ("keywords", JStr "y");
   ("target_description", JStr "z")].

(** A world in which every service answers. *)
Definition quiet_world : GeneratePersonasV2.World :=
  {| GeneratePersonasV2.session_id := "k3x9qa";
     GeneratePersonasV2.env := sample_env;
     GeneratePersonasV2.now := timestamp;
     GeneratePersonasV2.clock := fun _ => timestamp;
     GeneratePersonasV2.perplexity :=
       fun _ => HttpContent structured_reply;
     GeneratePersonasV2.generation_reply := ApiText "[]";
     GeneratePersonasV2.document_agent_import := Ok tt;
     GeneratePersonasV2.document_processing := Ok (JArray []);
     GeneratePersonasV2.document_analysis := Ok (JArray []);
     GeneratePersonasV2.sheets_client := Ok tt;
     GeneratePersonasV2.values_get :=
       fun _ => Ok (Some [["Name"; "Age"]; ["Alice Moreno"; "41"]]);
     GeneratePersonasV2.spreadsheets_create := fun _ => Ok "sheet-2";
     GeneratePersonasV2.values_update :=
       fun _ range _ => Ok (JStr range);
     GeneratePersonasV2.initializeSheets_call := Ok tt;
     GeneratePersonasV2.enrichment_agent := Ok tt;
     GeneratePersonasV2.social_reply := one_reply_then_outage;
     GeneratePersonasV2.legal_reply := one_reply_then_outage |}.

Definition post (fields : Obj) : GeneratePersonasV2.Request :=
  {| GeneratePersonasV2.method := "POST";
     GeneratePersonasV2.form := Ok fields |}.

(** The scenario of the specification, and two variants with a sheet
    URL: a malformed one and a well-formed one. *)
Definition generation_request : GeneratePersonasV2.Request :=
  post (campaign ++ [("persona_count", JStr "3")]).

Definition malformed_url_request : GeneratePersonasV2.Request :=
  post (campaign ++ [("julius_personas_sheet_url",
                       JStr "my personas sheet")]).

Definition enrichment_request : GeneratePersonasV2.Request :=
  post (campaign ++
        [("julius_personas_sheet_url",
           JStr "https://docs.google.com/spreadsheets/d/1MyEQrGY2NAhvgf6/edit")]).

(** Three parsed personas: a complete one with sources and a long bio,
    one without barriers, and a complete one with nothing else to its
    credit. *)
Definition long_text : string :=
  "Maria has worked double shifts at a distribution center since 2015 and cares for two teenagers, one of whom was diagnosed last spring.".

Definition complete_persona : JSValue :=
  JObj [("name", JStr "Maria Lopez"); ("age", JInt 44);
        ("bio", JStr long_text);
        ("motivations", JStrings ["protect her family"]);
        ("barriers", JStrings ["cost"]);
        ("communication_style", JStr "plain and warm");
        ("data_sources", JStrings ["demographics"]);
        ("confidence_score", JInt 82)].

Definition persona_without_barriers : JSValue :=
  JObj [("name", JStr "Dale Beck"); ("age", JInt 51);
        ("bio", JStr long_text);
        ("motivations", JStrings ["accountability"]);
        ("barriers", JArray []);
        ("communication_style", JStr "terse");
        ("data_sources", JStrings ["demographics"]);
        ("confidence_score", JInt 90)].

Definition thin_persona : JSValue :=
  JObj [("name", JStr "Ana Ruiz"); ("age", JInt 37);
        ("bio", JStr "Nurse.");
        ("motivations", JStrings ["fairness"]);
        ("barriers", JStrings ["time"]);
        ("communication_style", JStr "formal")].

Definition parsed_personas : list JSValue :=
  [complete_persona; persona_without_barriers; thin_persona].

(** A complete persona in her first year of life. *)
Definition infant_persona : JSValue :=
  JObj [("name", JStr "Noor Haddad"); ("age", JInt 0);
        ("bio", JStr long_text);
        ("motivations", JStrings ["safe formula"]);
        ("barriers", JStrings ["cost"]);
        ("communication_style", JStr "through her parents");
        ("data_sources", JStrings ["demographics"]);
        ("confidence_score", JInt 82)].

(** Three imported rows: a persona aged 150, one without a name, and
    one with a blank name. *)
Definition aged_persona : Obj :=
  [("name", JStr "Alice Moreno"); ("age", JInt 150);
   ("location", JStr "Tulsa, OK"); ("occupation", JStr "Nurse");
   ("bio", JStr "Night-shift nurse."); ("interests", JStrings ["chess"])].

Definition nameless_persona : Obj :=
  [("age", JInt 30); ("location", JStr "Reno, NV")].

Definition blank_name_persona : Obj :=
  [("name", JStr EmptyString); ("age", JInt 52)].

End Samples.

(** ** lib/personaEnrichmentAgent.js: the batch with progress reports *)

Module EnrichmentProgress.
Import JS Services.

Section Progress.
Context {rt : Runtime}.
Variable anthropic : nat -> ApiReply.
Variable clock : nat -> string.
(** [contextData], which has no default here, and [progressCallback]:
    absent, or a function of the event, whose call returns or throws. *)
Variable contextData : JSValue.
Variable progressCallback : option (Obj -> Result unit).

(** The array [results] and the events that the callback has been
    called with. *)
Record State : Type := {
  results : list Obj;
  reported : list Obj
}.

Definition event (i total : nat) (persona : Obj) (status : string)
           (error : Obj) : Obj :=
  [("current", JNat (i + 1)); ("total", JNat total);
   ("persona", field persona "name"); ("status", JStr status)] ++ error.

(** [if (progressCallback) progressCallback(event)]. *)
Definition report (e : Obj) (st : State) : State * Result unit :=
  match progressCallback with
  | None => (st, Ok tt)
  | Some callback =>
      ({| results := results st; reported := reported st ++ [e] |},
       callback e)
  end.

Definition push (persona : Obj) (st : State) : State :=
  {| results := results st ++ [persona]; reported := reported st |}.

(** [this.enrichSinglePersona(persona, contextData)]: before its [try],
    [buildEnrichmentPrompt] destructures [contextData], which throws a
    TypeError (with Node's message) for [undefined] and [null]. *)
Definition enrich (i : nat) (persona : Obj) : Result Obj :=
  _ <- match contextData with
       | JUndefined =>
           Throw "Cannot destructure property 'matter' of 'contextData' as it is undefined."
       | JNull =>
           Throw "Cannot destructure property 'matter' of 'contextData' as it is null."
       | _ => Ok tt
       end ;;
  PersonaEnrichmentAgent.enrichSinglePersona anthropic clock i persona.

(** The [try] block of the loop body. *)
Definition attempt (i total : nat) (persona : Obj) (st : State)
  : State * Result unit :=
  let '(st, announced) := report (event i total persona "enriching" []) st in
  match announced with
  | Throw message => (st, Throw message)
  | Ok _ =>
      match enrich i persona with
      | Throw message => (st, Throw message)
      | Ok enriched =>
          report (event i total persona "completed" []) (push enriched st)
      end
  end.

(** The loop body: the [try] and its [catch]; an error of the callback
    in the [catch] leaves the function. *)
Definition progress_step (i total : nat) (persona : Obj) (st : State)
  : State * Result unit :=
  let '(st, outcome) := attempt i total persona st in
  match outcome with
  | Ok _ => (st, Ok tt)
  | Throw message =>
      report (event i total persona "failed" [("error", JStr message)])
             (push (PersonaEnrichmentAgent.failed_persona clock i persona
                      message) st)
  end.

Fixpoint progress_loop (personas : list Obj) (i total : nat) (st : State)
  : State * Result unit :=
  match personas with
  | [] => (st, Ok tt)
  | persona :: rest =>
      let '(st, outcome) := progress_step i total persona st in
      match outcome with
      | Ok _ => progress_loop rest (S i) total st
      | Throw message => (st, Throw message)
      end
  end.

(** The events reported, and the array returned or the error thrown. *)
Definition enrichPersonasWithProgress (personas : list Obj)
  : list Obj * Result (list Obj) :=
  let '(st, outcome) :=
    progress_loop personas 0 (List.length personas)
                  {| results := []; reported := [] |} in
  (reported st,
   match outcome with
   | Ok _ => Ok (results st)
   | Throw message => Throw message
   end).

End Progress.

End EnrichmentProgress.

(** ** lib/sheetsService.js: the store of generated personas *)

Module SheetsStorage.
Import JS Services.

(** [s.split(sep)] for a separator [sep] of the two characters [c1]
    and [c2]. *)
Fixpoint split_pair (c1 c2 : ascii) (s : string) : list string :=
  match s with
  | EmptyString => [EmptyString]
  | String a r =>
      match r with
      | String b r' =>
          if Ascii.eqb a c1 && Ascii.eqb b c2
          then EmptyString :: split_pair c1 c2 r'
          else match split_pair c1 c2 r with
               | h :: t => String a h :: t
               | [] => [String a EmptyString]
               end
      | EmptyString => [String a EmptyString]
      end
  end.

(** [row[i]]. *)
Definition cell (row : list string) (i : nat) : JSValue :=
  match nth_error row i with
  | Some s => JStr s
  | None => JUndefined
  end.

(** [row[i] ? row[i].split('; ') : []]. *)
Definition split_cell (v : JSValue) : JSValue :=
  match v with
  | JStr s => if Text.is_empty s then JArray []
              else JStrings (split_pair ";" " " s)
  | _ => JArray []
  end.

(** A variable of the environment in a template literal. *)
Definition env_text (v : option string) : string :=
  match v with
  | Some s => s
  | None => "undefined"
  end.

(** [String.fromCharCode(n)], for a code unit below 256. *)
Definition fromCharCode (n : nat) : string :=
  String (ascii_of_nat n) EmptyString.

Fixpoint indexed {A} (i : nat) (l : list A) : list (nat * A) :=
  match l with
  | [] => []
  | x :: r => (i, x) :: indexed (S i) r
  end.

Section Storage.
Context {rt : Runtime}.
(** [process.env.GOOGLE_SHEETS_ID]; the calls [values.append],
    [values.get] and [values.batchUpdate] of the sheets API, by
    spreadsheet and range; [parseFloat]; the clock; and what a call of
    [initializeSheets] would do if the name were declared. *)
Variable GOOGLE_SHEETS_ID : option string.
Variable values_append : option string -> string -> list (list JSValue)
                         -> Result JSValue.
Variable values_get : option string -> string
                      -> Result (option (list (list string))).
Variable values_batchUpdate : string -> list Obj -> Result unit.
Variable parseFloat : JSValue -> Num.
Variable now : string.
Variable initializeSheets_call : Result unit.

(** [await initializeSheets()] in a function with the given
    parameters and locals. *)
Definition initializeSheets (locals : Scope) : Result unit :=
  binding <- resolve (locals ++ SheetsService.module_scope)
                     "initializeSheets" ;;
  match binding with
  | Declared => initializeSheets_call
  | Value _ => Throw "initializeSheets is not a function"
  end.

Definition safeJsonParse (jsonString : JSValue) : JSValue :=
  match (if truthy jsonString then JSON_parse (to_text jsonString)
         else Ok (JObj [])) with
  | Ok parsed => parsed
  | Throw _ => JObj []
  end.

(** The row that [storePersonas] prepares for one persona. *)
Definition store_row (timestamp : string) (campaignData persona : JSValue)
  : Result (list JSValue) :=
  name <- get_prop persona "name" ;;
  age <- get_prop persona "age" ;;
  gender <- get_prop persona "gender" ;;
  location <- get_prop persona "location" ;;
  bio <- get_prop persona "bio" ;;
  motivations <- get_prop persona "motivations" ;;
  barriers <- get_prop persona "barriers" ;;
  communication_style <- get_prop persona "communication_style" ;;
  example_quote <- get_prop persona "example_quote" ;;
  matter <- get_prop campaignData "matter" ;;
  personality <- get_prop persona "personality" ;;
  session_id <- get_prop campaignData "session_id" ;;
  confidence_score <- get_prop persona "confidence_score" ;;
  source_citations <- get_prop persona "source_citations" ;;
  validation <- get_prop persona "validation" ;;
  Ok [name;
      age;
      JStr (to_text (or_else gender (JStr "N/A")) ++ ", "
            ++ to_text (or_else location (JStr "N/A")));
      bio;
      SheetsService.joined "; " motivations motivations;
      SheetsService.joined "; " barriers barriers;
      communication_style;
      example_quote;
      JStr timestamp;
      matter;
      JStr (JSON_stringify (or_else personality (JObj [])));
      JStr "ready_for_testing";
      session_id;
      or_else confidence_score (JInt 0);
      JStr (JSON_stringify (or_else source_citations (JObj [])));
      or_else (read_opt validation "quality_score") (JInt 0)].

Definition storePersonas (personas : list JSValue) (campaignData : JSValue)
  : Result Obj :=
  try_catch
    (_ <- initializeSheets [("personas", Value (JArray personas));
                            ("campaignData", Value campaignData)] ;;
     let timestamp := now in
     rows <- mapM (store_row timestamp campaignData) personas ;;
     updatedRange <- values_append GOOGLE_SHEETS_ID "Sheet1!A:P" rows ;;
     Ok [("success", JBool true);
         ("rows_added", JNat (List.length rows));
         ("sheet_url",
           JStr ("https://docs.google.com/spreadsheets/d/"
                 ++ env_text GOOGLE_SHEETS_ID));
         ("updated_range", updatedRange)])
    (fun message => Throw message).

(** The persona that a stored row is read back as. *)
Definition stored_persona (row : list string) : Obj :=
  [("name", cell row 0);
   ("age", JNum (parseInt (cell row 1)));
   ("demographics", cell row 2);
   ("bio", cell row 3);
   ("motivations", split_cell (cell row 4));
   ("barriers", split_cell (cell row 5));
   ("communication_style", cell row 6);
   ("example_quote", cell row 7);
   ("created_date", cell row 8);
   ("case_type", cell row 9);
   ("personality", safeJsonParse (cell row 10));
   ("status", cell row 11);
   ("run_id", cell row 12);
   ("confidence_score", or_else (JNum (parseFloat (cell row 13))) (JInt 0));
   ("source_citations", safeJsonParse (cell row 14));
   ("validation_score", or_else (JNum (parseFloat (cell row 15))) (JInt 0))].

(** [row[0] && row[0].toLowerCase() === name.toLowerCase()]. *)
Definition row_is_named (name : string) (row : list string) : bool :=
  match nth_error row 0 with
  | Some s => negb (Text.is_empty s)
              && String.eqb (Text.toLowerCase s) (Text.toLowerCase name)
  | None => false
  end.

Definition getPersonaByName (name : string) : Result Obj :=
  try_catch
    (_ <- initializeSheets [("name", Value (JStr name))] ;;
     values <- values_get GOOGLE_SHEETS_ID "Sheet1!A:P" ;;
     let rows := match values with Some rows => rows | None => [] end in
     if List.length rows <=? 1
     then Throw ("Persona not found: " ++ name)
     else match find (row_is_named name) (tl rows) with
          | Some row => Ok (stored_persona row)
          | None => Throw ("Persona not found: " ++ name)
          end)
    (fun message => Throw message).

Definition getAllPersonas : Result (list Obj) :=
  try_catch
    (_ <- initializeSheets [] ;;
     values <- values_get GOOGLE_SHEETS_ID "Sheet1!A:P" ;;
     let rows := match values with Some rows => rows | None => [] end in
     if List.length rows <=? 1 then Ok []
     else Ok (map stored_persona (tl rows)))
    (fun message => Throw message).

(** The update that [updateJuliusSheetWithEnrichment] prepares for the
    persona at index [i]; only arrays have both [slice] and [join]. *)
Definition enrichment_update (headers : list string) (i : nat)
           (persona : Obj) : Result Obj :=
  let rowIndex := i + 2 in
  let legal_motivations := field persona "legal_motivations" in
  legal_insights <-
    (if truthy legal_motivations
     then match legal_motivations with
          | JArr xs _ =>
              text <- array_join "; " (JArray (firstn 2 xs)) ;;
              Ok (JStr text)
          | JStr _ =>
              Throw "persona.legal_motivations.slice(...).join is not a function"
          | _ => Throw "persona.legal_motivations.slice is not a function"
          end
     else Ok (JStr "")) ;;
  let enrichmentSummary :=
    [JStr "enriched";
     if truthy (field persona "social_media_profiles")
     then JStr "Added social profiles" else JStr "";
     legal_insights;
     or_else (read_opt (field persona "enrichment") "confidence_score")
             (JStr "");
     or_else (read_opt (field persona "enrichment") "enriched_at")
             (JStr "")] in
  Ok [("range",
        JStr (fromCharCode (65 + List.length headers)
              ++ Text.decimal_of_nat rowIndex ++ ":"
              ++ fromCharCode (65 + List.length headers
                               + List.length enrichmentSummary - 1)
              ++ Text.decimal_of_nat rowIndex));
      ("values", JArray [JArray enrichmentSummary])].

Definition updateJuliusSheetWithEnrichment (enrichedPersonas : list Obj)
           (juliusSheetUrl options : JSValue) : Result Obj :=
  try_catch
    (info <- SheetsService.extractSheetInfo juliusSheetUrl ;;
     let spreadsheetId := fst info in
     _ <- initializeSheets
            [("enrichedPersonas", Value (JArray (map JObj enrichedPersonas)));
             ("juliusSheetUrl", Value juliusSheetUrl);
             ("options", Value options);
             ("spreadsheetId", Value (JStr spreadsheetId));
             ("gid", Value (match snd info with
                            | Some gid => JStr gid
                            | None => JNull
                            end))] ;;
     values <- values_get (Some spreadsheetId) "A1:Z1" ;;
     let headers := match values with
                    | Some (first :: _) => first
                    | _ => []
                    end in
     updates <- mapM (fun entry => enrichment_update headers (fst entry)
                                                     (snd entry))
                     (indexed 0 enrichedPersonas) ;;
     _ <- (if 0 <? List.length updates
           then values_batchUpdate spreadsheetId updates
           else Ok tt) ;;
     Ok [("success", JBool true);
         ("spreadsheet_id", JStr spreadsheetId);
         ("sheet_url", juliusSheetUrl);
         ("personas_updated", JNat (List.length enrichedPersonas))])
    (fun message => Throw ("Julius sheet update failed: " ++ message)).

End Storage.

End SheetsStorage.

(** ** api/chat-persona.js *)

Module ChatPersona.
Import JS Services.

Record Request : Type := {
  method : string;
  body : JSValue
}.

Record Response : Type := {
  status : nat;
  json : Obj
}.

Definition generic_persona : JSValue :=
  JObj [("name", JStr "AI Assistant");
        ("bio", JStr "A helpful AI assistant ready to discuss legal matters");
        ("communication_style", JStr "Professional and empathetic");
        ("case_type", JStr "General Legal");
        ("motivations", JStrings ["Getting helpful information"]);
        ("barriers", JStrings ["Uncertainty about legal processes"]);
        ("example_quote", JStr "I want to understand my options.")].

Definition fallback_persona (description : string) : JSValue :=
  JObj [("name", JStr "Alex");
        ("bio", JStr description);
        ("communication_style", JStr "Direct and practical");
        ("motivations", JStrings ["Getting help with legal issue"]);
        ("barriers", JStrings ["Cost concerns"; "Process complexity"]);
        ("case_type", JStr "General Legal");
        ("example_quote", JStr "I need to understand my options.")].

(** [v.trim()] for a truthy [v]: only a string has the method. *)
Definition trimmed (v : JSValue) (name : string) : Result string :=
  match v with
  | JStr s => Ok (Text.trim s)
  | _ => Throw (name ++ ".trim is not a function")
  end.

Section Handler.
Context {rt : Runtime}.
(** The environment, [new Date().toISOString()] and [Date.now()], the
    construction of the client, the store behind [getPersonaByName], and
    the replies of the model to the two calls. *)
Variable env : Env.
Variable now : string.
Variable now_ms : string.
Variable anthropic_client : Result unit.
Variable GOOGLE_SHEETS_ID : option string.
Variable values_get : option string -> string
                      -> Result (option (list (list string))).
Variable parseFloat : JSValue -> Num.
Variable initializeSheets_call : Result unit.
Variable quick_reply : ApiReply.
Variable chat_reply : ApiReply.

Definition respond (code : nat) (fields : Obj) : Response :=
  {| status := code; json := fields |}.

(** The prompt is a template literal over the description; the reply
    of the model is the oracle [quick_reply]. *)
Definition generateQuickPersona (description : string) : JSValue :=
  match (_ <- anthropic_client ;;
         text <- call quick_reply ;;
         match Text.match_object text with
         | None => Throw "Could not generate quick persona"
         | Some jsonMatch => JSON_parse jsonMatch
         end)
  with
  | Ok persona => persona
  | Throw _ => fallback_persona description
  end.

(** The system prompt is a template literal over the properties of a
    truthy persona ([join] is called on arrays only), so building it
    cannot throw; the reply of the model is the oracle [chat_reply]. *)
Definition handler (req : Request) : Response :=
  if String.eqb (method req) "OPTIONS" then respond 200 []
  else if negb (String.eqb (method req) "POST")
  then respond 405 [("error", JStr "Method not allowed")]
  else
    match (persona_name <- get_prop (body req) "persona_name" ;;
           message <- get_prop (body req) "message" ;;
           persona_attributes <- get_prop (body req) "persona_attributes" ;;
           message_text <- (if truthy message then trimmed message "message"
                            else Ok EmptyString) ;;
           if Text.is_empty message_text
           then Ok (respond 400 [("error", JStr "Message is required")])
           else if negb (configured (ANTHROPIC_API_KEY env))
           then Throw "Anthropic API key not configured"
           else
             _ <- anthropic_client ;;
             name_text <- (if truthy persona_name
                           then trimmed persona_name "persona_name"
                           else Ok EmptyString) ;;
             let '(persona, chatType) :=
               if Text.is_empty name_text then (JNull, EmptyString)
               else match SheetsStorage.getPersonaByName GOOGLE_SHEETS_ID
                            values_get parseFloat initializeSheets_call
                            name_text with
                    | Ok found => (JObj found, "existing_persona")
                    | Throw _ => (JNull, EmptyString)
                    end in
             attributes_text <-
               (if negb (truthy persona) && truthy persona_attributes
                then trimmed persona_attributes "persona_attributes"
                else Ok EmptyString) ;;
             let '(persona, chatType) :=
               if Text.is_empty attributes_text then (persona, chatType)
               else (generateQuickPersona attributes_text,
                     "custom_persona") in
             let '(persona, chatType) :=
               if negb (truthy persona)
               then (generic_persona, "generic_persona")
               else (persona, chatType) in
             personaResponse <- call chat_reply ;;
             Ok (respond 200
                   [("success", JBool true);
                    ("persona_name", read persona "name");
                    ("persona_response", JStr personaResponse);
                    ("timestamp", JStr now);
                    ("chat_type", JStr chatType);
                    ("conversation_id",
                      JStr (to_text (read persona "name") ++ "_"
                            ++ now_ms))]))
    with
    | Ok response => response
    | Throw _ =>
        respond 500
          [("success", JBool false);
           ("error", JStr "Chat temporarily unavailable");
           ("message",
             JStr "I apologize, but I'm having trouble responding right now. Please try again in a moment.");
           ("timestamp", JStr now)]
    end.

End Handler.

End ChatPersona.

(** ** The words of the further properties *)

Module Shapes.
Import JS Services.

(** Every character of [s] satisfies [p]. *)
Fixpoint all_chars (p : ascii -> bool) (s : string) : bool :=
  match s with
  | EmptyString => true
  | String c r => p c && all_chars p r
  end.

(** The address of a sheet, as the browser shows it: the spreadsheet id
    and the id of the tab. *)
Definition sheet_url (spreadsheetId gid : string) : string :=
  "https://docs.google.com/spreadsheets/d/" ++ spreadsheetId
  ++ "/edit#gid=" ++ gid.

Section Reports.
Context {rt : Runtime}.
Variable anthropic : nat -> ApiReply.
Variable clock : nat -> string.
Variable contextData : JSValue.

(** What the batch with progress reports makes of the persona at index
    [i] when no callback throws. *)
Definition progress_result (i : nat) (persona : Obj) : Obj :=
  match EnrichmentProgress.enrich anthropic clock contextData i persona with
  | Ok enriched => enriched
  | Throw message =>
      PersonaEnrichmentAgent.failed_persona clock i persona message
  end.

Fixpoint expected_results (i : nat) (personas : list Obj) : list Obj :=
  match personas with
  | [] => []
  | persona :: rest =>
      progress_result i persona :: expected_results (S i) rest
  end.

(** The progress reports of such a batch: for each persona [enriching],
    then [completed] or [failed] with the error. *)
Fixpoint expected_reports (total i : nat) (personas : list Obj)
  : list Obj :=
  match personas with
  | [] => []
  | persona :: rest =>
      EnrichmentProgress.event i total persona "enriching" []
      :: match EnrichmentProgress.enrich anthropic clock contextData
                 i persona with
         | Ok _ => EnrichmentProgress.event i total persona "completed" []
         | Throw message =>
             EnrichmentProgress.event i total persona "failed"
               [("error", JStr message)]
         end
      :: expected_reports total (S i) rest
  end.

(** Every persona twice: as enriched, and as failed with [message]. *)
Fixpoint enriched_and_failed (message : string) (i : nat)
         (personas : list Obj) : list Obj :=
  match personas with
  | [] => []
  | persona :: rest =>
      progress_result i persona
      :: PersonaEnrichmentAgent.failed_persona clock i persona message
      :: enriched_and_failed message (S i) rest
  end.

End Reports.

End Shapes.

(** ** Further sample inputs *)

Module Cases.
Import JS Services.

(** A sheet with two columns for the location, a row without a name and
    a row with blank cells. *)
Definition sheet : list (list string) :=
  [["Name"; "City"; "State"; "Hobbies"];
   ["Alice Moreno"; "Tulsa"; "OK"; "chess, hiking; jazz"];
   ["  "; "Reno"; "NV"; "golf"];
   ["Bea Quint"; ""; "WA"; ""]].

Definition sheet_address : JSValue :=
  JStr (Shapes.sheet_url "1MyEQrGY2NAhvgf6" "0").

(** The world of the samples without the key of the research API. *)
Definition offline_world : GeneratePersonasV2.World :=
  {| GeneratePersonasV2.session_id := "k3x9qa";
     GeneratePersonasV2.env :=
       {| ANTHROPIC_API_KEY := Some "sk-ant-test";
          PERPLEXITY_API_KEY := None;
          OPENAI_API_KEY := None |};
     GeneratePersonasV2.now := Samples.timestamp;
     GeneratePersonasV2.clock := fun _ => Samples.timestamp;
     GeneratePersonasV2.perplexity :=
       fun _ => HttpContent Samples.structured_reply;
     GeneratePersonasV2.generation_reply := ApiText "[]";
     GeneratePersonasV2.document_agent_import := Ok tt;
     GeneratePersonasV2.document_processing := Ok (JArray []);
     GeneratePersonasV2.document_analysis := Ok (JArray []);
     GeneratePersonasV2.sheets_client := Ok tt;
     GeneratePersonasV2.values_get := fun _ => Ok (Some sheet);
     GeneratePersonasV2.spreadsheets_create := fun _ => Ok "sheet-2";
     GeneratePersonasV2.values_update := fun _ range _ => Ok (JStr range);
     GeneratePersonasV2.initializeSheets_call := Ok tt;
     GeneratePersonasV2.enrichment_agent := Ok tt;
     GeneratePersonasV2.social_reply := Samples.one_reply_then_outage;
     GeneratePersonasV2.legal_reply := Samples.one_reply_then_outage |}.

(** Every research query is answered in prose. *)
Definition prose_only (requestType : string) : HttpReply :=
  HttpContent "No structured data is available for this topic.".

(** A progress callback that throws when it is told [completed]. *)
Definition completed_is_fatal (e : Obj) : Result unit :=
  match field e "status" with
  | JStr status =>
      if String.eqb status "completed" then Throw "listener failed"
      else Ok tt
  | _ => Ok tt
  end.

End Cases.

(** * Properties *)

Import JS Services.

(** ** Objects *)

Section ObjectFacts.

Lemma lookup_app_last (k k' : string) (v : JSValue) (o : Obj) :
  lookup k (o ++ [(k', v)]) =
  if String.eqb k k' then Some v else lookup k o.
Proof.
  induction o as [|[k0 v0] r IH]; simpl.
  - reflexivity.
  - rewrite IH. destruct (String.eqb k k'); [reflexivity|].
    reflexivity.
Qed.

Lemma lookup_replace (k k' : string) (v : JSValue) (o : Obj) :
  lookup k' (map (fun kv => if String.eqb k (fst kv) then (k, v) else kv) o) =
  if String.eqb k' k
  then match lookup k o with Some _ => Some v | None => None end
  else lookup k' o.
Proof.
  induction o as [|[k0 v0] r IH]; simpl.
  - destruct (String.eqb k' k); reflexivity.
  - destruct (String.eqb k k0) eqn:E0; simpl; rewrite IH;
      destruct (String.eqb k' k) eqn:E.
    + destruct (lookup k r); reflexivity.
    + apply String.eqb_eq in E0; subst k0. rewrite E. reflexivity.
    + apply String.eqb_eq in E; subst k'. rewrite E0.
      destruct (lookup k r); reflexivity.
    + reflexivity.
Qed.

Lemma lookup_set (k k' : string) (v : JSValue) (o : Obj) :
  lookup k' (set k v o) = if String.eqb k' k then Some v else lookup k' o.
Proof.
  unfold set, has_key. destruct (lookup k o) eqn:E.
  - rewrite lookup_replace, E. reflexivity.
  - rewrite lookup_app_last. reflexivity.
Qed.

Lemma lookup_set_same (k : string) (v : JSValue) (o : Obj) :
  lookup k (set k v o) = Some v.
Proof. rewrite lookup_set, String.eqb_refl. reflexivity. Qed.

Lemma lookup_set_other (k k' : string) (v : JSValue) (o : Obj) :
  k' <> k -> lookup k' (set k v o) = lookup k' o.
Proof.
  intros H. rewrite lookup_set.
  destruct (String.eqb k' k) eqn:E; [|reflexivity].
  apply String.eqb_eq in E. contradiction.
Qed.

Lemma field_set_same (k : string) (v : JSValue) (o : Obj) :
  field (set k v o) k = v.
Proof. unfold field. rewrite lookup_set_same. reflexivity. Qed.

Lemma field_set_other (k k' : string) (v : JSValue) (o : Obj) :
  k' <> k -> field (set k v o) k' = field o k'.
Proof. intros H. unfold field. rewrite lookup_set_other by exact H. reflexivity. Qed.

(** Spreading: the later source wins, key by key. *)
Lemma lookup_assign_all (k : string) (props target : Obj) :
  lookup k (assign_all target props) =
  match lookup k props with
  | Some v => Some v
  | None => lookup k target
  end.
Proof.
  unfold assign_all. revert target.
  induction props as [|[k0 v0] r IH]; intros target; simpl.
  - reflexivity.
  - rewrite IH. destruct (lookup k r); [reflexivity|].
    rewrite lookup_set. destruct (String.eqb k k0); reflexivity.
Qed.

Lemma lookup_spread (k : string) (target : Obj) (v : JSValue) :
  lookup k (spread target v) =
  match lookup k (own_props v) with
  | Some x => Some x
  | None => lookup k target
  end.
Proof. apply lookup_assign_all. Qed.

(** [{...persona}] has the properties of [persona]. *)
Lemma lookup_copy (k : string) (o : Obj) :
  lookup k (spread [] (JObj o)) = lookup k o.
Proof. rewrite lookup_spread. simpl. destruct (lookup k o); reflexivity. Qed.

Lemma get_prop_truthy (v : JSValue) (k : string) :
  truthy v = true -> get_prop v k = Ok (read v k).
Proof.
  unfold read. destruct v; simpl; try discriminate; intros _;
    try reflexivity.
  - destruct (String.eqb k "length"); [reflexivity|].
    destruct (index_of_key k); reflexivity.
  - destruct (String.eqb k "length"); [reflexivity|].
    destruct (index_of_key k); reflexivity.
Qed.

End ObjectFacts.

Create Rewrite HintDb objects.
#[local] Hint Rewrite lookup_set_same field_set_same lookup_copy : objects.

(** ** Stage A of the enrichment pipeline *)

Section SocialEnrichment.
Context {rt : Runtime}.
Variable anthropic : nat -> ApiReply.
Variable clock : nat -> string.

#[local] Abbreviation enrichPersonas :=
  (PersonaEnrichmentAgent.enrichPersonas anthropic clock).
#[local] Abbreviation enrich_step :=
  (PersonaEnrichmentAgent.enrich_step anthropic clock).
#[local] Abbreviation enrich_loop :=
  (PersonaEnrichmentAgent.enrich_loop anthropic clock).
#[local] Abbreviation parseEnrichmentResponse :=
  PersonaEnrichmentAgent.parseEnrichmentResponse.

(** The loop pushes one persona per input persona, in order. *)
Lemma social_loop_spec (personas : list Obj) :
  forall (i : nat) (acc : list Obj),
  exists out,
    enrich_loop personas i acc = acc ++ out /\
    List.length out = List.length personas /\
    forall j p, nth_error personas j = Some p ->
                nth_error out j = Some (enrich_step (i + j) p).
Proof.
  induction personas as [|p0 rest IH]; intros i acc.
  - exists []. rewrite app_nil_r. repeat split.
    intros [|j] p H; discriminate.
  - simpl. destruct (IH (S i) (acc ++ [enrich_step i p0])) as (out & E & L & N).
    exists (enrich_step i p0 :: out). rewrite E, <- app_assoc.
    split; [reflexivity|]. split; [simpl; lia|].
    intros [|j] p H; simpl in *.
    + inversion H; subst. rewrite Nat.add_0_r. reflexivity.
    + rewrite (N j p H). do 2 f_equal. lia.
Qed.

(** The two outcomes of one persona. *)
Lemma social_step_outcome (i : nat) (persona : Obj) :
  (exists message,
      enrich_step i persona =
      PersonaEnrichmentAgent.failed_persona clock i persona message)
  \/ (exists text data block,
         anthropic i = ApiText text /\
         parseEnrichmentResponse text = Ok data /\
         field block "status" = JStr "enriched" /\
         enrich_step i persona =
         set "enrichment" (JObj block)
             (spread (spread [] (JObj persona)) (field data "enrichedFields"))).
Proof.
  unfold PersonaEnrichmentAgent.enrich_step,
    PersonaEnrichmentAgent.enrichSinglePersona.
  destruct (anthropic i) as [text|message] eqn:R; simpl.
  - destruct (parseEnrichmentResponse text) as [data|message] eqn:P; simpl.
    + right. exists text, data. eexists. repeat split; try eassumption.
      reflexivity.
    + left. eexists. reflexivity.
  - left. eexists. reflexivity.
Qed.


End SocialEnrichment.



(** ** Response parsing *)

Section ResponseParsing.
Context {rt : Runtime}.

Lemma get_prop_read (v : JSValue) (k : string) :
  get_prop v k = Ok (read v k) \/ exists m, get_prop v k = Throw m.
Proof.
  unfold read. destruct (get_prop v k) as [x|m]; [left|right; exists m];
    reflexivity.
Qed.

(** The Stage A parser returns a result for every text. *)
Lemma social_parser_total (text : string) :
  exists data, PersonaEnrichmentAgent.parseEnrichmentResponse text = Ok data.
Proof.
  unfold PersonaEnrichmentAgent.parseEnrichmentResponse.
  match goal with |- exists d, try_catch ?b _ = _ => destruct b eqn:E end;
    simpl; eexists; reflexivity.
Qed.

(** So does the Stage B parser. *)
Lemma legal_parser_total (text : string) :
  exists data, PersonaAgent.parseEnrichmentResponse text = Ok data.
Proof.
  unfold PersonaAgent.parseEnrichmentResponse.
  match goal with |- exists d, try_catch ?b _ = _ => destruct b eqn:E end;
    simpl; eexists; reflexivity.
Qed.

Lemma social_parser_fallback (text : string) :
  Spec.EnrichmentParseFailure text ->
  PersonaEnrichmentAgent.parseEnrichmentResponse text =
  Ok PersonaEnrichmentAgent.fallback_enrichment.
Proof.
  unfold PersonaEnrichmentAgent.parseEnrichmentResponse.
  intros [E|json message E D|json parsed E D K]; rewrite E.
  - reflexivity.
  - rewrite D. reflexivity.
  - rewrite D. simpl. unfold Spec.has_required_keys in K.
    destruct (get_prop_read parsed "enrichedFields") as [G|[m G]];
      rewrite G; simpl; [|reflexivity].
    destruct (get_prop_read parsed "confidence") as [G'|[m G']];
      rewrite G'; simpl; [|reflexivity].
    apply andb_false_iff in K. destruct K as [K|K]; rewrite K; simpl.
    + reflexivity.
    + rewrite orb_true_r. reflexivity.
Qed.

Lemma array_parser_throws (text : string) :
  Spec.ArrayParseFailure text ->
  exists message,
    PersonaAgent.parsePersonaResponse text =
    Throw ("Persona parsing failed: " ++ message).
Proof.
  unfold PersonaAgent.parsePersonaResponse.
  intros [E|json message E D|json parsed E D K]; rewrite E.
  - eexists. reflexivity.
  - rewrite D. eexists. reflexivity.
  - rewrite D. simpl. destruct parsed; try discriminate;
      eexists; reflexivity.
Qed.

(** C2 (as amended).  On a parse failure of an enrichment reply (no JSON
    found, a decode error, or missing required keys) the Stage A parser
    returns its fixed fallback object, whose confidence is 0.3, hence at
    most 0.3; the Stage A and Stage B parsers return a structured result
    for every text and never raise.  The persona-array parser of the
    Generator has no fallback: on a parse failure it raises the error
    [Persona parsing failed: ...]. *)
Theorem parse_failure_handling (text : string) :
  (Spec.EnrichmentParseFailure text ->
   PersonaEnrichmentAgent.parseEnrichmentResponse text =
   Ok PersonaEnrichmentAgent.fallback_enrichment)
  /\ (exists c,
         field PersonaEnrichmentAgent.fallback_enrichment "confidence" = JNum c
         /\ num_leb c (Fin (3 # 10)) = true)
  /\ (exists data,
         PersonaEnrichmentAgent.parseEnrichmentResponse text = Ok data)
  /\ (exists data, PersonaAgent.parseEnrichmentResponse text = Ok data)
  /\ (Spec.ArrayParseFailure text ->
      exists message,
        PersonaAgent.parsePersonaResponse text =
        Throw ("Persona parsing failed: " ++ message)).
Proof.
  split; [apply social_parser_fallback|].
  split; [exists (Fin (3 # 10)); split; reflexivity|].
  split; [apply social_parser_total|].
  split; [apply legal_parser_total|].
  apply array_parser_throws.
Qed.

End ResponseParsing.

(** A reply without any JSON is a parse failure for both parsers. *)
Lemma parse_failure_handling_witness :
  PersonaEnrichmentAgent.parseEnrichmentResponse (rt := ReferenceRuntime.runtime)
    "I cannot help with that." =
  Ok PersonaEnrichmentAgent.fallback_enrichment
  /\ exists message,
      PersonaAgent.parsePersonaResponse (rt := ReferenceRuntime.runtime)
        "I cannot help with that." =
      Throw ("Persona parsing failed: " ++ message).
Proof.
  destruct (parse_failure_handling (rt := ReferenceRuntime.runtime)
              "I cannot help with that.") as (F & _ & _ & _ & A).
  split.
  - apply F. apply Spec.NoJsonFound. reflexivity.
  - apply A. apply Spec.NoArrayFound. reflexivity.
Defined.

(** C2 (as stated) fails for the persona-array parser: the reply has no
    array, and the parser raises instead of returning a fallback; the
    Generator passes the error on. *)
Lemma parsePersonaResponse_raises :
  PersonaAgent.parsePersonaResponse (rt := ReferenceRuntime.runtime)
    "I cannot help with that." =
  Throw "Persona parsing failed: No JSON array found in Claude response"
  /\ PersonaAgent.generatePersonas (rt := ReferenceRuntime.runtime)
       {| ANTHROPIC_API_KEY := Some "sk-ant-test";
          PERPLEXITY_API_KEY := None; OPENAI_API_KEY := None |}
       (ApiText "I cannot help with that.") Samples.timestamp
       [("matter", JStr "X")] (JArray [])
       (JObj [("demographics", JObj [("age_demographics", JStr "35-54")])])
       (Fin 3) =
     Throw "Persona parsing failed: No JSON array found in Claude response".
Proof. split; vm_compute; reflexivity. Qed.

(** ** The export of the enrichment workflow *)

Section SheetExport.
Context {rt : Runtime}.

Lemma initializeSheets_unbound :
  resolve SheetsService.module_scope "initializeSheets" =
  Throw "initializeSheets is not defined".
Proof. reflexivity. Qed.

Lemma export_throws
      (spreadsheets_create : string -> Result string)
      (values_update : string -> string -> list (list JSValue) -> Result JSValue)
      (now : string) (initializeSheets_call : Result unit)
      (enrichedPersonas : list Obj) (campaignData options : Obj) :
  SheetsService.exportEnrichedPersonas spreadsheets_create values_update now
    initializeSheets_call enrichedPersonas campaignData options =
  Throw "Export failed: initializeSheets is not defined".
Proof. reflexivity. Qed.

Ltac next_case :=
  match goal with
  | |- context [SheetsService.exportEnrichedPersonas ?a ?b ?c ?d ?e ?f ?g] =>
      rewrite (export_throws a b c d e f g)
  | |- context [match ?x with _ => _ end] => destruct x eqn:?
  | |- context [if ?x then _ else _] => destruct x eqn:?
  end.

(** The steps from the documents to the export end in an error. *)
Lemma enrich_and_export_throws (w : GeneratePersonasV2.World)
      (matter keywords target url : JSValue) (fileUrls : list JSValue)
      (imported : list Obj) (validation : SheetsService.Validation) :
  exists message,
    fst (GeneratePersonasV2.enrich_and_export w matter keywords target url
           fileUrls imported validation) = Throw message.
Proof.
  unfold GeneratePersonasV2.enrich_and_export.
  repeat next_case; simpl; eauto.
Qed.

Lemma enrichment_workflow_fails (w : GeneratePersonasV2.World)
      (matter keywords target url complaint research : JSValue) :
  let response :=
    fst (GeneratePersonasV2.handlePersonaEnrichment w matter keywords target
           url complaint research) in
  GeneratePersonasV2.status response = 400
  \/ GeneratePersonasV2.status response = 500.
Proof.
  unfold GeneratePersonasV2.handlePersonaEnrichment,
    GeneratePersonasV2.respond.
  destruct (SheetsService.fetchPersonasFromExternalSheet _ _ _ _)
    as [[|p rest]|m]; simpl; auto.
  destruct (SheetsService.validatePersonas _) as [validation|m]; simpl; auto.
  destruct (Nat.eqb _ 0); simpl; auto.
  destruct (enrich_and_export_throws w matter keywords target url
              (filter truthy [complaint; research]) (p :: rest) validation)
    as [message E].
  destruct (GeneratePersonasV2.enrich_and_export _ _ _ _ _ _ _ _) as [r t].
  simpl in E. subst r. simpl. auto.
Qed.

(** C3.  Whatever the personas, the campaign data and the options,
    [exportEnrichedPersonas] throws: the module binds no
    [initializeSheets], so its first statement raises a ReferenceError,
    which the function rethrows as [Export failed: ...]; the success value
    is unreachable.  Hence the enrichment workflow never answers 200: its
    status is 400 or 500. *)
Theorem export_never_succeeds
        (w : GeneratePersonasV2.World)
        (enrichedPersonas : list Obj) (campaignData options : Obj)
        (matter keywords target url complaint research : JSValue) :
  resolve SheetsService.module_scope "initializeSheets" =
  Throw "initializeSheets is not defined"
  /\ SheetsService.exportEnrichedPersonas
       (GeneratePersonasV2.spreadsheets_create w)
       (GeneratePersonasV2.values_update w) (GeneratePersonasV2.now w)
       (GeneratePersonasV2.initializeSheets_call w)
       enrichedPersonas campaignData options =
     Throw "Export failed: initializeSheets is not defined"
  /\ (let response :=
        fst (GeneratePersonasV2.handlePersonaEnrichment w matter keywords
               target url complaint research) in
      GeneratePersonasV2.status response <> 200
      /\ (GeneratePersonasV2.status response = 400
          \/ GeneratePersonasV2.status response = 500)).
Proof.
  split; [reflexivity|]. split; [reflexivity|].
  pose proof (enrichment_workflow_fails w matter keywords target url
                complaint research) as H.
  cbv zeta in *. split; [|exact H]. destruct H as [H|H]; rewrite H; discriminate.
Qed.

End SheetExport.

(** ** The second-opinion validator *)

Section SecondOpinion.
Context {rt : Runtime}.
Variable client : Result unit.
Variable openai : nat -> ApiReply.

#[local] Abbreviation validateSinglePersona :=
  (ValidationAgent.validateSinglePersona openai).

#[local] Abbreviation passed :=
  (fun v : Obj => field v "validation_passed" = JBool true).

Lemma validation_parser_constant (text : string) :
  ValidationAgent.parseValidationResponse text =
  Ok ValidationAgent.fallback_validation.
Proof. reflexivity. Qed.

(** A persona whose name can be read passes, whatever the model does;
    for [undefined] and [null] the [catch] itself throws. *)
Lemma single_validation (i : nat) (persona : JSValue) :
  (Spec.has_properties persona = true
   /\ exists result,
       validateSinglePersona i persona = Ok result
       /\ passed result /\ field result "persona" = persona)
  \/ (Spec.has_properties persona = false
      /\ validateSinglePersona i persona =
         Throw ("Cannot read properties of " ++ to_text persona
                ++ " (reading 'name')")).
Proof.
  unfold ValidationAgent.validateSinglePersona.
  destruct persona; [right; split; reflexivity|right; split; reflexivity|..];
    left; (split; [reflexivity|]);
    cbn [get_prop String.eqb Ascii.eqb Bool.eqb index_of_key bind try_catch];
    try (change (index_of_key "name") with (@None nat); cbv iota);
    destruct (openai i); cbn; eexists; repeat split; reflexivity.
Qed.

Lemma validate_batch_cases (batch : list JSValue) :
  forall (i : nat) (acc : list Obj),
    (forallb Spec.has_properties batch = true
     /\ exists out,
         ValidationAgent.validate_batch openai batch i acc = Ok (acc ++ out)
         /\ map (fun v => field v "persona") out = batch
         /\ Forall passed out)
    \/ (forallb Spec.has_properties batch = false
        /\ exists message,
            ValidationAgent.validate_batch openai batch i acc =
            Throw message).
Proof.
  induction batch as [|p rest IH]; intros i acc.
  - left. split; [reflexivity|]. exists []. cbn. rewrite app_nil_r.
    repeat split. constructor.
  - cbn [ValidationAgent.validate_batch forallb].
    destruct (single_validation i p) as [(H & r & E & V & P)|(H & E)];
      rewrite H, E; cbn [bind andb].
    + destruct (IH (S i) (acc ++ [r])) as [(F & out & E' & M & A)|(F & m & E')];
        rewrite F, E'.
      * left. split; [reflexivity|]. exists (r :: out).
        rewrite <- app_assoc. split; [reflexivity|]. split.
        -- cbn [map]. rewrite P, M. reflexivity.
        -- constructor; assumption.
      * right. split; [reflexivity|]. exists m. reflexivity.
    + right. split; [reflexivity|]. eexists. reflexivity.
Qed.

Lemma batch_loop_cases (fuel : nat) :
  forall (remaining : list JSValue) (i : nat) (acc : list Obj),
    List.length remaining <= fuel ->
    (forallb Spec.has_properties remaining = true
     /\ exists out,
         ValidationAgent.batch_loop openai fuel remaining i acc =
         Ok (acc ++ out)
         /\ map (fun v => field v "persona") out = remaining
         /\ Forall passed out)
    \/ (forallb Spec.has_properties remaining = false
        /\ exists message,
            ValidationAgent.batch_loop openai fuel remaining i acc =
            Throw message).
Proof.
  induction fuel as [|fuel IH]; intros remaining i acc L.
  - destruct remaining; [|simpl in L; lia].
    left. split; [reflexivity|]. exists []. cbn. rewrite app_nil_r.
    repeat split. constructor.
  - destruct remaining as [|p rest].
    + left. split; [reflexivity|]. exists []. cbn. rewrite app_nil_r.
      repeat split. constructor.
    + cbn [ValidationAgent.batch_loop].
      assert (FA : forallb Spec.has_properties (p :: rest) =
                   forallb Spec.has_properties (firstn 3 (p :: rest))
                   && forallb Spec.has_properties (skipn 3 (p :: rest))).
      { rewrite <- forallb_app, firstn_skipn. reflexivity. }
      rewrite FA.
      destruct (validate_batch_cases (firstn 3 (p :: rest)) i acc)
        as [(F1 & out1 & E1 & M1 & A1)|(F1 & m & E1)]; rewrite F1, E1;
        cbn [bind andb].
      2:{ right. split; [reflexivity|]. exists m. reflexivity. }
      destruct (IH (skipn 3 (p :: rest)) (i + 3) (acc ++ out1))
        as [(F2 & out2 & E2 & M2 & A2)|(F2 & m & E2)].
      { pose proof (length_skipn 3 (p :: rest)) as K. simpl in L. simpl in K.
        simpl. lia. }
      * left. rewrite F2, E2, <- app_assoc. split; [reflexivity|].
        exists (out1 ++ out2). split; [reflexivity|]. split.
        -- rewrite map_app, M1, M2. apply firstn_skipn.
        -- apply Forall_app. split; assumption.
      * right. rewrite F2, E2. split; [reflexivity|]. exists m. reflexivity.
Qed.

Lemma filter_all_passed (results : list Obj) :
  Forall passed results ->
  filter (fun v => truthy (field v "validation_passed")) results = results.
Proof.
  induction 1 as [|v r H F IH]; simpl; [reflexivity|].
  rewrite H. simpl. rewrite IH. reflexivity.
Qed.


End SecondOpinion.


(** ** The research collector *)

Section Research.
Context {rt : Runtime}.
Variable perplexity : string -> HttpReply.
Variable now : string.

#[local] Abbreviation makePerplexityRequest :=
  (ResearchAgent.makePerplexityRequest perplexity).
#[local] Abbreviation conductResearch :=
  (ResearchAgent.conductResearch perplexity now).

(** An answered query yields a result; unparsable content yields the
    tagged error object. *)
Lemma answered_query (requestType content : string) :
  perplexity requestType = HttpContent content ->
  content <> EmptyString ->
  (exists result, makePerplexityRequest requestType = Ok result)
  /\ forall parseError,
      JSON_parse content = Throw parseError ->
      makePerplexityRequest requestType =
      Ok (ResearchAgent.raw_text_result content requestType parseError).
Proof.
  intros R N. unfold ResearchAgent.makePerplexityRequest. rewrite R.
  destruct content as [|c content]; [contradiction|]. simpl. split.
  - destruct (JSON_parse (String c content)) as [parsed|e]; simpl;
      [|eexists; reflexivity].
    destruct (assign_prop parsed "_raw_response" _) as [tagged|e]; simpl;
      [|eexists; reflexivity].
    destruct (assign_prop tagged "_request_type" _); simpl;
      eexists; reflexivity.
  - intros e P. rewrite P. reflexivity.
Qed.

Lemma failed_query (requestType : string) :
  Spec.query_fails (perplexity requestType) ->
  exists message, makePerplexityRequest requestType = Throw message.
Proof.
  unfold ResearchAgent.makePerplexityRequest, Spec.query_fails.
  destruct (perplexity requestType) as [content| | |]; intros F;
    try (eexists; reflexivity).
  subst content. eexists. reflexivity.
Qed.

Lemma query_outcome (requestType : string) :
  (Spec.query_fails (perplexity requestType)
   /\ exists message, makePerplexityRequest requestType = Throw message)
  \/ (~ Spec.query_fails (perplexity requestType)
      /\ exists result, makePerplexityRequest requestType = Ok result).
Proof.
  destruct (perplexity requestType) as [content| | |] eqn:R.
  - destruct content as [|c content].
    + left. split; [reflexivity|]. apply failed_query. rewrite R. reflexivity.
    + right. split; [simpl; discriminate|].
      apply (answered_query requestType (String c content) R). discriminate.
  - left. split; [exact I|]. apply failed_query. rewrite R. exact I.
  - left. split; [exact I|]. apply failed_query. rewrite R. exact I.
  - left. split; [exact I|]. apply failed_query. rewrite R. exact I.
Qed.


End Research.



(** ** The Generator on an empty array *)

Section EmptyGeneration.
Context {rt : Runtime}.

(** The data-sufficiency record has the four keys of its literal, and
    no count of valid personas. *)
Lemma sufficiency_record (sourceContext : Obj) :
  exists (b : bool) (missing available : list JSValue) (confidence : Num),
    PersonaAgent.validateDataSufficiency sourceContext =
    [("sufficient", JBool b); ("missing", JArray missing);
     ("available", JArray available); ("confidence", JNum confidence)].
Proof.
  unfold PersonaAgent.validateDataSufficiency. simpl.
  destruct (PersonaAgent.populated sourceContext "demographic_data");
    destruct (PersonaAgent.populated sourceContext "social_insights");
    destruct (PersonaAgent.populated sourceContext "consumer_behavior");
    do 4 eexists; reflexivity.
Qed.


End EmptyGeneration.



(** ** Mode dispatch *)

Section Dispatch.
Context {rt : Runtime}.
Variable w : GeneratePersonasV2.World.

(** STEP 1 never yields a document: a request with file URLs stops at
    the read of [mri_file_url]. *)
Lemma process_uploads_empty (fileUrls : list JSValue) :
  GeneratePersonasV2.process_uploads w fileUrls = JArray [].
Proof.
  unfold GeneratePersonasV2.process_uploads.
  destruct fileUrls; [reflexivity|].
  destruct (GeneratePersonasV2.document_agent_import w); reflexivity.
Qed.

(** The result of the Generator is the record of its [return]. *)
Lemma generator_result_shape
      (env : Env) (reply : ApiReply) (now : string) (campaignData : Obj)
      (uploadedData researchData : JSValue) (personaCount : Num)
      (result : Obj) :
  PersonaAgent.generatePersonas env reply now campaignData uploadedData
    researchData personaCount = Ok result ->
  exists personas sources validation,
    result = [("personas", JArray personas); ("sources_used", sources);
              ("validation", JObj validation);
              ("generation_timestamp", JStr now)].
Proof.
  unfold PersonaAgent.generatePersonas.
  destruct (negb (configured (ANTHROPIC_API_KEY env))); [discriminate|].
  cbv zeta.
  destruct (negb (truthy (field _ "sufficient"))).
  - destruct (array_join ", " _); discriminate.
  - destruct (call reply) as [text|m]; [|discriminate]. cbn [bind try_catch].
    destruct (PersonaAgent.parsePersonaResponse text) as [personas|m];
      [|discriminate]. cbn [bind try_catch].
    destruct (PersonaAgent.addSourceCitations personas _) as [cited|m];
      [|discriminate]. cbn [bind try_catch].
    destruct (PersonaAgent.validatePersonas cited) as [validated|m];
      [|discriminate]. cbn [bind try_catch].
    intros H. injection H as <-. do 3 eexists. reflexivity.
Qed.

(** The generation workflow: the Generator runs on no documents and
    on the bundle that the research collector returned; its result is
    sent with the status 422, its error goes to the [catch] of the
    handler. *)
Lemma generation_outcome (matter keywords target count : JSValue)
      (fileUrls : list JSValue) :
  GeneratePersonasV2.generation_workflow w matter keywords target count
    fileUrls =
  (match PersonaAgent.generatePersonas
           (GeneratePersonasV2.env w) (GeneratePersonasV2.generation_reply w)
           (GeneratePersonasV2.now w)
           [("matter", matter); ("keywords", keywords);
            ("target_description", target)]
           (JArray [])
           (JObj (ResearchAgent.conductResearch
                    (GeneratePersonasV2.perplexity w)
                    (GeneratePersonasV2.now w) (GeneratePersonasV2.env w)
                    matter keywords target))
           (GeneratePersonasV2.requested_count count) with
   | Ok personaResult =>
       Ok (GeneratePersonasV2.respond 422 personaResult)
   | Throw message => Throw message
   end,
   [GeneratePersonasV2.ConductResearch;
    GeneratePersonasV2.GeneratePersonas]).
Proof.
  unfold GeneratePersonasV2.generation_workflow, GeneratePersonasV2.invoke.
  rewrite process_uploads_empty.
  cbn [get_prop String.eqb Ascii.eqb Bool.eqb app].
  destruct (PersonaAgent.generatePersonas _ _ _ _ _ _ _) as [result|m] eqn:G;
    cbn [bind]; [|reflexivity].
  destruct (generator_result_shape _ _ _ _ _ _ _ _ G)
    as (personas & sources & validation & ->).
  reflexivity.
Qed.

Lemma log_text_or_absent (v : JSValue) :
  Spec.text_or_absent v -> GeneratePersonasV2.log_file_url v = Ok tt.
Proof.
  unfold GeneratePersonasV2.log_file_url, Spec.text_or_absent.
  destruct v; intros H; try (rewrite H; reflexivity).
  destruct (truthy (JStr s)); reflexivity.
Qed.


End Dispatch.



(** ** The batch validation of the Generator *)

#[local] Arguments gt_num : simpl never.
#[local] Arguments lt_num : simpl never.
#[local] Arguments isNaN : simpl never.

Section GenerationValidation.
Context {rt : Runtime}.

Lemma object_get (v : JSValue) (k : string) :
  Spec.is_object v = true -> get_prop v k = Ok (read v k).
Proof.
  intros O. apply get_prop_truthy. destruct v; try discriminate; reflexivity.
Qed.

Lemma object_assign (v : JSValue) (k : string) (x : JSValue) :
  Spec.is_object v = true ->
  exists v', assign_prop v k x = Ok v' /\ Spec.is_object v' = true.
Proof.
  destruct v; try discriminate; intros _; eexists; split; reflexivity.
Qed.

(** What [cite] stores can be read back. *)
Lemma cite_well_cited (sourceContext : Obj) (persona cited : JSValue) :
  PersonaAgent.cite sourceContext persona = Ok cited -> Spec.well_cited cited.
Proof.
  unfold PersonaAgent.cite.
  destruct (get_prop persona "data_sources") as [data_sources|m] eqn:G;
    simpl; [|discriminate].
  assert (L : forall a b : JSValue,
             let record :=
               JObj [("primary_sources", or_else data_sources (JArray []));
                     ("data_categories", a); ("confidence_factors", b)] in
             get_prop (read record "primary_sources") "length" =
             Ok (read (read record "primary_sources") "length")).
  { intros a b record. apply get_prop_truthy.
    change (read record "primary_sources")
      with (or_else data_sources (JArray [])).
    unfold or_else. destruct (truthy data_sources) eqn:T; [exact T|reflexivity]. }
  destruct persona as [ | | | | |xs named|o]; simpl; try discriminate;
    intros E; inversion E; subst cited; clear E.
  - unfold Spec.well_cited.
    assert (R : forall x, read (JArr xs (set "source_citations" x named))
                               "source_citations" = x).
    { intros x. unfold read. simpl. apply field_set_same. }
    rewrite R. split; [reflexivity|]. split; [reflexivity|]. apply L.
  - unfold Spec.well_cited.
    assert (R : forall x, read (JObj (set "source_citations" x o))
                               "source_citations" = x).
    { intros x. unfold read. simpl. apply field_set_same. }
    rewrite R. split; [reflexivity|]. split; [reflexivity|]. apply L.
Qed.

Lemma citations_well_cited (sourceContext : Obj) (personas : list JSValue) :
  forall cited,
    PersonaAgent.addSourceCitations personas sourceContext = Ok cited ->
    Forall Spec.well_cited cited.
Proof.
  unfold PersonaAgent.addSourceCitations.
  induction personas as [|p rest IH]; simpl; intros cited E.
  - inversion E. constructor.
  - destruct (PersonaAgent.cite sourceContext p) as [p'|m] eqn:C; simpl in E;
      [|discriminate].
    destruct (mapM (PersonaAgent.cite sourceContext) rest) as [rest'|m];
      simpl in E; [|discriminate].
    inversion E. constructor; [exact (cite_well_cited _ _ _ C)|].
    apply IH. reflexivity.
Qed.

(** What the code tests, [!v || (Array.isArray(v) && v.length === 0)],
    is that the value is not filled. *)
Lemma filled_spec (v : JSValue) :
  PersonaAgent.missing_value v = negb (Spec.filled v).
Proof.
  destruct v as [ | |b|n|s|xs named|o]; try reflexivity.
  - destruct b; reflexivity.
  - destruct n; try reflexivity.
    unfold PersonaAgent.missing_value, truthy, Spec.filled.
    destruct (Qeq_bool q 0); reflexivity.
  - destruct s; reflexivity.
  - destruct xs; reflexivity.
Qed.

(** A filled value is non-empty; [0] is non-empty and not filled. *)
Lemma filled_non_empty (v : JSValue) :
  Spec.filled v = true -> Spec.non_empty v = true.
Proof.
  destruct v as [ | |b|n|s|xs named|o]; try reflexivity; try discriminate.
  - destruct s; [discriminate|reflexivity].
  - destruct xs; [discriminate|reflexivity].
Qed.

(** The loop over the required fields computes completeness and the
    list of the missing ones. *)
Lemma check_required_spec (persona : JSValue) :
  Spec.is_object persona = true ->
  forall fields complete missing,
    PersonaAgent.check_required persona fields complete missing =
    Ok (complete && forallb (fun f => Spec.filled (read persona f)) fields,
        missing
        ++ filter (fun f => negb (Spec.filled (read persona f))) fields).
Proof.
  intros O. induction fields as [|f rest IH]; intros complete missing; simpl.
  - rewrite andb_true_r, app_nil_r. reflexivity.
  - rewrite (object_get persona f O). simpl. rewrite filled_spec.
    destruct (Spec.filled (read persona f)); simpl; rewrite IH.
    + reflexivity.
    + rewrite andb_false_r, <- app_assoc. reflexivity.
Qed.

Lemma all_present_none_missing (there : string -> bool)
      (fields : list string) :
  forallb there fields = true ->
  filter (fun f => negb (there f)) fields = [].
Proof.
  induction fields as [|f rest IH]; simpl; [reflexivity|].
  intros H. apply andb_prop in H. destruct H as [Hf Hr].
  rewrite Hf. simpl. apply IH. exact Hr.
Qed.

(** The fields that the code goes through are the six of the claim. *)
Lemma required_fields_spec (persona : JSValue) :
  forallb (fun f => Spec.filled (read persona f))
          PersonaAgent.requiredFields =
  Spec.has_required_fields persona.
Proof.
  unfold Spec.has_required_fields, Spec.all_six, PersonaAgent.requiredFields.
  cbn [forallb]. rewrite andb_true_r, !andb_assoc. reflexivity.
Qed.

(** The accumulated score is the weighted sum. *)
Lemma quality_score_spec (persona : JSValue) (complete : bool) :
  Spec.well_cited persona ->
  PersonaAgent.quality_score persona complete =
  Ok (Spec.weighted_score complete persona).
Proof.
  intros (O & T & L). unfold PersonaAgent.quality_score.
  rewrite !(object_get persona _ O). simpl. rewrite T.
  rewrite (get_prop_truthy _ "primary_sources" T). simpl. rewrite L. simpl.
  unfold Spec.weighted_score, Spec.citations_present, Spec.confident,
    Spec.long_bio.
  rewrite T. simpl.
  destruct (gt_num (read (read (read persona "source_citations")
                               "primary_sources") "length") (Fin 0));
    destruct (truthy (read persona "confidence_score")
              && gt_num (read persona "confidence_score") (Fin 70));
    destruct complete;
    (destruct (truthy (read persona "bio")) eqn:B; simpl;
     [rewrite (get_prop_truthy _ "length" B); simpl;
      destruct (gt_num (read (read persona "bio") "length") (Fin 100))
     |]); reflexivity.
Qed.

Lemma validate_one_spec (persona : JSValue) :
  Spec.well_cited persona ->
  PersonaAgent.validate_one persona =
  Ok (if Spec.kept persona then Some (Spec.with_validation persona) else None).
Proof.
  intros W. pose proof W as (O & _). unfold PersonaAgent.validate_one.
  rewrite (check_required_spec persona O). cbn [bind andb app].
  rewrite (quality_score_spec persona _ W). cbn [bind].
  pose proof (all_present_none_missing
                (fun f => Spec.filled (read persona f))
                PersonaAgent.requiredFields) as N.
  rewrite required_fields_spec in *.
  unfold Spec.kept, Spec.with_validation, Spec.score.
  destruct (Spec.has_required_fields persona); cbn [andb]; [|reflexivity].
  rewrite (N eq_refl).
  match goal with |- context [(50 <=? ?z)%Z] => destruct (50 <=? z)%Z end;
    [|reflexivity].
  match goal with
  | |- context [assign_prop persona "validation" ?x] =>
      destruct (object_assign persona "validation" x O) as (v' & A & _)
  end.
  rewrite A. reflexivity.
Qed.

Lemma validate_loop_spec (personas : list JSValue) :
  Forall Spec.well_cited personas ->
  forall validated,
    PersonaAgent.validate_loop personas validated =
    Ok (validated ++ map Spec.with_validation (filter Spec.kept personas)).
Proof.
  induction 1 as [|p rest W F IH]; intros validated; simpl.
  - rewrite app_nil_r. reflexivity.
  - rewrite (validate_one_spec p W). simpl.
    destruct (Spec.kept p); rewrite IH; [|reflexivity].
    rewrite <- app_assoc. reflexivity.
Qed.

Lemma score_bounds (persona : JSValue) :
  (0 <= Spec.score persona <= 100)%Z.
Proof.
  unfold Spec.score, Spec.weighted_score.
  destruct (Spec.citations_present persona), (Spec.confident persona),
    (Spec.has_required_fields persona), (Spec.long_bio persona); lia.
Qed.

Lemma all_six_weaken (there there' : JSValue -> bool) (persona : JSValue) :
  (forall v, there v = true -> there' v = true) ->
  Spec.all_six there persona = true -> Spec.all_six there' persona = true.
Proof.
  intros W. unfold Spec.all_six. rewrite !andb_true_iff.
  intros (((((A & B) & C) & D) & E) & F). repeat split; apply W; assumption.
Qed.


End GenerationValidation.



(** ** The import validator *)

Section ImportValidation.
Context {rt : Runtime}.

#[local] Abbreviation keep :=
  (fun p : Obj => negb (Spec.name_missing_or_empty p)).

Lemma warn_valid (c : bool) (t : string) (r : SheetsService.SingleValidation) :
  SheetsService.isValid (SheetsService.warn c t r) = SheetsService.isValid r.
Proof. unfold SheetsService.warn. destruct c; reflexivity. Qed.

Lemma warn_keeps (c : bool) (t x : string) (r : SheetsService.SingleValidation) :
  In x (SheetsService.single_warnings r) ->
  In x (SheetsService.single_warnings (SheetsService.warn c t r)).
Proof.
  unfold SheetsService.warn. destruct c; simpl; [|trivial].
  intros H. apply in_or_app. left. exact H.
Qed.

Lemma warn_adds (t : string) (r : SheetsService.SingleValidation) :
  In t (SheetsService.single_warnings (SheetsService.warn true t r)).
Proof. simpl. apply in_or_app. right. left. reflexivity. Qed.

Lemma name_missing_spec (persona : Obj) :
  Spec.name_is_text persona ->
  SheetsService.name_missing (field persona "name") =
  Ok (Spec.name_missing_or_empty persona).
Proof.
  unfold Spec.name_is_text, Spec.name_missing_or_empty,
    SheetsService.name_missing.
  destruct (field persona "name") as [ | |b|n|s|xs named|o]; intros H;
    try (rewrite H; reflexivity).
  destruct s; reflexivity.
Qed.

Lemma unusual_age (q : Q) :
  (q < 0 \/ 120 < q)%Q ->
  isNaN (JNum (Fin q)) || lt_num (JNum (Fin q)) (Fin 0)
  || gt_num (JNum (Fin q)) (Fin 120) = true.
Proof.
  unfold isNaN, lt_num, gt_num. simpl. unfold Qltb. intros [H|H].
  - destruct (Qle_bool 0 q) eqn:E; [|reflexivity].
    apply Qle_bool_iff in E. exfalso. exact (Qlt_not_le _ _ H E).
  - destruct (Qle_bool q 120) eqn:E; [|apply orb_true_r].
    apply Qle_bool_iff in E. exfalso. exact (Qlt_not_le _ _ H E).
Qed.

(** One persona: valid exactly when it has a name; an age outside
    [0,120] is a warning. *)
Lemma single_import_spec (persona : Obj) (rowNumber : nat) :
  Spec.name_is_text persona ->
  exists r,
    SheetsService.validateSinglePersona persona rowNumber = Ok r
    /\ SheetsService.isValid r = keep persona
    /\ forall q,
        field persona "age" = JNum (Fin q) -> (q < 0 \/ 120 < q)%Q ->
        In (Spec.age_warning (field persona "age"))
           (SheetsService.single_warnings r).
Proof.
  intros T. unfold SheetsService.validateSinglePersona.
  rewrite (name_missing_spec persona T). cbn [bind]. eexists.
  split; [reflexivity|]. split.
  - rewrite !warn_valid.
    destruct (field persona "age"); rewrite ?warn_valid;
      destruct (Spec.name_missing_or_empty persona); reflexivity.
  - intros q A U. do 7 apply warn_keeps. rewrite A.
    rewrite (unusual_age q U). apply warn_adds.
Qed.

Lemma import_loop_spec (personas : list Obj) :
  Forall Spec.name_is_text personas ->
  forall (i : nat) (v0 : SheetsService.Validation),
  exists v ws es,
    SheetsService.validate_loop personas i v0 = Ok v
    /\ SheetsService.valid v = SheetsService.valid v0 ++ filter keep personas
    /\ SheetsService.warnings v = SheetsService.warnings v0 ++ ws
    /\ SheetsService.errors v = SheetsService.errors v0 ++ es
    /\ SheetsService.total_imported (SheetsService.summary v) =
       SheetsService.total_imported (SheetsService.summary v0)
    /\ SheetsService.valid_personas (SheetsService.summary v) =
       SheetsService.valid_personas (SheetsService.summary v0)
       + List.length (filter keep personas)
    /\ SheetsService.personas_with_warnings (SheetsService.summary v) =
       SheetsService.personas_with_warnings (SheetsService.summary v0)
       + List.length ws
    /\ SheetsService.invalid_personas (SheetsService.summary v) =
       SheetsService.invalid_personas (SheetsService.summary v0)
       + List.length es
    /\ forall j p q,
        nth_error personas j = Some p ->
        keep p = true ->
        field p "age" = JNum (Fin q) -> (q < 0 \/ 120 < q)%Q ->
        exists entry texts,
          In entry ws
          /\ field entry "persona_name" = field p "name"
          /\ field entry "row" = JNat (i + j + 1)
          /\ field entry "warnings" = JStrings texts
          /\ In (Spec.age_warning (field p "age")) texts.
Proof.
  induction 1 as [|p rest T F IH]; intros i v0.
  - exists v0, [], []. simpl. rewrite !app_nil_r, !Nat.add_0_r.
    repeat split. intros [|j] p q H; discriminate.
  - destruct (single_import_spec p (i + 1) T) as (r & E & V & A).
    cbn [SheetsService.validate_loop]. unfold SheetsService.validate_step.
    rewrite E. cbn [bind]. rewrite V. cbn [filter].
    destruct (negb (Spec.name_missing_or_empty p)) eqn:K; cbn [bind].
    + match goal with
      | |- context [SheetsService.validate_loop rest (S i) ?v1] =>
          destruct (IH (S i) v1)
            as (v & ws & es & L & Hv & Hw & He & Ht & Hc & Hp & Hi & Hage)
      end.
      cbn [SheetsService.valid SheetsService.warnings SheetsService.errors
           SheetsService.summary SheetsService.total_imported
           SheetsService.valid_personas SheetsService.personas_with_warnings
           SheetsService.invalid_personas] in *.
      destruct (negb (List.length (SheetsService.single_warnings r) =? 0))
        eqn:W.
      * exists v. eexists (_ :: ws). exists es.
        split; [exact L|]. rewrite Hv, Hw, He, Ht, Hc, Hp, Hi.
        rewrite <- !app_assoc. cbn [app List.length].
        split; [reflexivity|]. split; [reflexivity|]. split; [reflexivity|].
        split; [reflexivity|]. split; [lia|]. split; [lia|].
        split; [reflexivity|].
        intros [|j] p' q H' K' A' U'.
        -- inversion H'; subst p'. do 2 eexists.
           split; [left; reflexivity|]. rewrite Nat.add_0_r.
           repeat split. exact (A q A' U').
        -- destruct (Hage j p' q H' K' A' U') as (entry & texts & I & R).
           exists entry, texts. split; [right; exact I|].
           replace (i + S j + 1) with (S i + j + 1) by lia. exact R.
      * exists v, ws, es.
        split; [exact L|]. rewrite Hv, Hw, He, Ht, Hc, Hp, Hi.
        rewrite <- !app_assoc. cbn [app List.length].
        split; [reflexivity|]. split; [reflexivity|]. split; [reflexivity|].
        split; [reflexivity|]. split; [lia|]. split; [reflexivity|].
        split; [reflexivity|].
        intros [|j] p' q H' K' A' U'.
        -- inversion H'; subst p'. exfalso.
           pose proof (A q A' U') as I.
           destruct (SheetsService.single_warnings r); [destruct I|discriminate].
        -- destruct (Hage j p' q H' K' A' U') as (entry & texts & I & R).
           exists entry, texts. split; [exact I|].
           replace (i + S j + 1) with (S i + j + 1) by lia. exact R.
    + match goal with
      | |- context [SheetsService.validate_loop rest (S i) ?v1] =>
          destruct (IH (S i) v1)
            as (v & ws & es & L & Hv & Hw & He & Ht & Hc & Hp & Hi & Hage)
      end.
      cbn [SheetsService.valid SheetsService.warnings SheetsService.errors
           SheetsService.summary SheetsService.total_imported
           SheetsService.valid_personas SheetsService.personas_with_warnings
           SheetsService.invalid_personas] in *.
      exists v, ws. eexists (_ :: es).
      split; [exact L|]. rewrite Hv, Hw, He, Ht, Hc, Hp, Hi.
      rewrite <- !app_assoc. cbn [app List.length].
      split; [reflexivity|]. split; [reflexivity|]. split; [reflexivity|].
      split; [reflexivity|]. split; [reflexivity|]. split; [reflexivity|].
      split; [lia|].
      intros [|j] p' q H' K' A' U'.
      -- inversion H'; subst p'. rewrite K in K'. discriminate.
      -- destruct (Hage j p' q H' K' A' U') as (entry & texts & I & R).
         exists entry, texts. split; [exact I|].
         replace (i + S j + 1) with (S i + j + 1) by lia. exact R.
Qed.


End ImportValidation.


(** ** Decimal numerals *)

Section Numerals.

Lemma digit_facts (d : nat) :
  d < 10 ->
  Text.digit_value (Text.digit_char d) = Some (Z.of_nat d)
  /\ Text.is_space (Text.digit_char d) = false
  /\ Ascii.eqb (Text.digit_char d) "-" = false
  /\ Ascii.eqb (Text.digit_char d) "+" = false
  /\ Ascii.eqb "x" (Text.digit_char d) = false
  /\ Ascii.eqb "X" (Text.digit_char d) = false.
Proof.
  intros H.
  do 10 (destruct d as [|d]; [repeat split; reflexivity|]).
  lia.
Qed.

Lemma mod10_digit (n : Z) : Z.to_nat (n mod 10) < 10.
Proof. pose proof (Z.mod_pos_bound n 10 ltac:(lia)). lia. Qed.

(** Reading back what [print_digits] wrote: the numeral has [k] digits
    and the value [n]. *)
Lemma read_print_digits (fuel : nat) :
  forall (n : Z) (rest : string),
    (0 <= n < 2 ^ Z.of_nat fuel)%Z ->
    exists k : nat,
      (0 < fuel -> 0 < k)
      /\ forall (a : Z) (c : nat),
          Text.read_digits Text.digit_value 10 a c
            (Text.print_digits fuel n rest) =
          Text.read_digits Text.digit_value 10
            (a * 10 ^ Z.of_nat k + n)%Z (c + k) rest.
Proof.
  induction fuel as [|fuel IH]; intros n rest B.
  - exists 0. split; [lia|]. intros a c. simpl.
    replace n with 0%Z by (simpl in B; lia).
    rewrite Z.mul_1_r, Z.add_0_r, Nat.add_0_r. reflexivity.
  - cbn [Text.print_digits]. cbv zeta.
    pose proof (Z.mod_pos_bound n 10 ltac:(lia)) as M.
    destruct (digit_facts (Z.to_nat (n mod 10)) (mod10_digit n)) as (D & _).
    rewrite Z2Nat.id in D by lia.
    destruct (n / 10 =? 0)%Z eqn:E.
    + exists 1. split; [lia|]. intros a c. cbn [Text.read_digits].
      rewrite D. apply Z.eqb_eq in E.
      pose proof (Z.div_mod n 10 ltac:(lia)) as DM.
      replace (10 * a + n mod 10)%Z with (a * 10 ^ Z.of_nat 1 + n)%Z
        by (change (10 ^ Z.of_nat 1)%Z with 10%Z; lia).
      replace (S c) with (c + 1) by lia. reflexivity.
    + destruct (IH (n / 10)%Z
                   (String (Text.digit_char (Z.to_nat (n mod 10))) rest))
        as (k & _ & R).
      { split; [apply Z.div_pos; lia|].
        apply Z.div_lt_upper_bound; [lia|].
        rewrite Nat2Z.inj_succ, Z.pow_succ_r in B by lia. lia. }
      exists (S k). split; [lia|]. intros a c. rewrite R.
      cbn [Text.read_digits]. rewrite D.
      pose proof (Z.div_mod n 10 ltac:(lia)) as DM.
      replace (10 * (a * 10 ^ Z.of_nat k + n / 10) + n mod 10)%Z
        with (a * 10 ^ Z.of_nat (S k) + n)%Z
        by (rewrite Nat2Z.inj_succ, Z.pow_succ_r by lia; lia).
      replace (S (c + k)) with (c + S k) by lia. reflexivity.
Qed.

(** A numeral starts with a digit, and goes on with one if at all. *)
Lemma print_digits_head (fuel : nat) :
  forall (n : Z) (rest : string),
  exists d, d < 10 /\
    (Text.print_digits (S fuel) n rest = String (Text.digit_char d) rest
     \/ exists d' tail, d' < 10 /\
          Text.print_digits (S fuel) n rest =
          String (Text.digit_char d) (String (Text.digit_char d') tail)).
Proof.
  induction fuel as [|fuel IH]; intros n rest.
  - exists (Z.to_nat (n mod 10)). split; [apply mod10_digit|]. left.
    simpl. destruct (n / 10 =? 0)%Z; reflexivity.
  - cbn [Text.print_digits]. cbv zeta.
    destruct (n / 10 =? 0)%Z.
    + exists (Z.to_nat (n mod 10)). split; [apply mod10_digit|]. left.
      reflexivity.
    + destruct (IH (n / 10)%Z
                   (String (Text.digit_char (Z.to_nat (n mod 10))) rest))
        as (d & Hd & [E|(d' & tail & Hd' & E)]).
      * exists d. split; [exact Hd|]. right.
        exists (Z.to_nat (n mod 10)), rest.
        split; [apply mod10_digit|]. exact E.
      * exists d. split; [exact Hd|]. right. exists d', tail.
        split; [exact Hd'|]. exact E.
Qed.

Lemma trim_nonblank (c : ascii) (r : string) :
  Text.is_space c = false ->
  Text.is_empty (Text.trim (String c r)) = false.
Proof.
  intros H. unfold Text.trim. cbn [Text.trimStart]. rewrite H.
  cbn [Text.trimEnd]. destruct (Text.trimEnd r); [rewrite H|]; reflexivity.
Qed.

Context {rt : Runtime}.

(** Below [2^53] an integer is its own Number value. *)
Lemma double_of_Z_exact (z : Z) :
  (Z.abs z < 2 ^ 53)%Z -> double_of_Z z = num_of_Z z.
Proof.
  intros H. unfold double_of_Z.
  replace (Z.abs z <? 2 ^ 53)%Z with true
    by (symmetry; apply Z.ltb_lt; exact H).
  reflexivity.
Qed.

(** [parseInt] reads the decimal numeral of a positive integer below
    [2^53] back. *)
Lemma parseInt_decimal (z : Z) :
  (0 < z < 2 ^ 53)%Z ->
  parseInt (JStr (Text.decimal_of_Z z)) = num_of_Z z
  /\ SheetsService.blank (Text.decimal_of_Z z) = false.
Proof.
  intros [P U]. unfold Text.decimal_of_Z.
  replace (z <? 0)%Z with false by (symmetry; apply Z.ltb_ge; lia).
  destruct (read_print_digits (S (Z.to_nat (Z.log2 z))) z EmptyString)
    as (k & K & R).
  { split; [lia|]. rewrite Nat2Z.inj_succ, Z2Nat.id by apply Z.log2_nonneg.
    apply Z.log2_spec. exact P. }
  specialize (R 0%Z 0). cbn [Text.read_digits] in R.
  rewrite Z.mul_0_l, Z.add_0_l, Nat.add_0_l in R.
  specialize (K ltac:(lia)).
  destruct (print_digits_head (Z.to_nat (Z.log2 z)) z EmptyString)
    as (d & Hd & H).
  destruct (digit_facts d Hd) as (_ & Sp & Mi & Pl & _ & _).
  assert (N : exists tail,
             Text.print_digits (S (Z.to_nat (Z.log2 z))) z EmptyString =
             String (Text.digit_char d) tail
             /\ Text.startsWith "0x" (String (Text.digit_char d) tail) = false
             /\ Text.startsWith "0X" (String (Text.digit_char d) tail) = false).
  { destruct H as [E|(d' & tail & Hd' & E)]; eexists; (split; [exact E|]).
    - cbn [Text.startsWith]. rewrite !andb_false_r. split; reflexivity.
    - destruct (digit_facts d' Hd') as (_ & _ & _ & _ & X1 & X2).
      cbn [Text.startsWith]. rewrite X1, X2. cbn [andb].
      rewrite !andb_false_r. split; reflexivity. }
  destruct N as (tail & E & X1 & X2). rewrite E in *. split.
  - unfold parseInt. cbn [to_text Text.trimStart]. rewrite Sp, Mi, Pl.
    rewrite X1, X2. cbn [orb]. rewrite R.
    destruct k; [lia|]. apply double_of_Z_exact. lia.
  - unfold SheetsService.blank. rewrite (trim_nonblank _ _ Sp). reflexivity.
Qed.

End Numerals.

(** ** The columns of an imported row *)

Section ColumnFacts.
Context {rt : Runtime}.

(** A column leaves the properties it does not fill alone. *)
Lemma parse_column_other (header value : string) (persona : Obj) (k : string) :
  Spec.column_key header <> k ->
  lookup k (SheetsService.parse_column header value persona) = lookup k persona.
Proof.
  unfold Spec.column_key, SheetsService.parse_column. intros H.
  destruct (SheetsService.blank value); [reflexivity|].
  destruct (SheetsService.mapped header SheetsService.columnMapping) as [m|].
  - destruct (String.eqb m "age"); [|destruct (SheetsService.is_list_property m)];
      apply lookup_set_other; congruence.
  - apply lookup_set_other. congruence.
Qed.

Lemma parse_column_text (header value m : string) (persona : Obj) :
  SheetsService.blank value = false ->
  SheetsService.mapped header SheetsService.columnMapping = Some m ->
  String.eqb m "age" = false ->
  SheetsService.is_list_property m = false ->
  lookup m (SheetsService.parse_column header value persona) =
  Some (JStr (Text.trim value)).
Proof.
  intros B M A L. unfold SheetsService.parse_column. rewrite B, M, A, L.
  apply lookup_set_same.
Qed.

Lemma parse_column_age (header value : string) (persona : Obj) :
  SheetsService.blank value = false ->
  SheetsService.mapped header SheetsService.columnMapping = Some "age" ->
  lookup "age" (SheetsService.parse_column header value persona) =
  Some (or_else (JNum (parseInt (JStr value))) (JInt 0)).
Proof.
  intros B M. unfold SheetsService.parse_column. rewrite B, M.
  apply lookup_set_same.
Qed.

Lemma truthy_nonzero (z : Z) : z <> 0%Z -> truthy (JInt z) = true.
Proof.
  intros H. unfold JInt, num_of_Z, inject_Z. simpl. unfold Qeq_bool. simpl.
  destruct z; [contradiction| |]; reflexivity.
Qed.

Lemma blank_trimmed (s : string) :
  Text.trim s = s -> s <> EmptyString -> SheetsService.blank s = false.
Proof.
  intros T N. unfold SheetsService.blank. rewrite T.
  destruct s; [contradiction|reflexivity].
Qed.

End ColumnFacts.

(** ** Export then import *)

Section RoundTrip.
Context {rt : Runtime}.

(** C8.  The round trip stops at its first step.  For the sample
    persona, which has a name, an age and a communication style,
    [exportEnrichedPersonas] throws before it builds a row, whatever the
    spreadsheet service would answer and whatever the options: no sheet
    is written that the row import could read back.  The cause is the
    one of C3: the module declares no [initializeSheets]. *)
Theorem export_stops_round_trip
        (spreadsheets_create : string -> Result string)
        (values_update : string -> string -> list (list JSValue)
                         -> Result JSValue)
        (now : string) (initializeSheets_call : Result unit)
        (campaignData options : Obj) :
  field Samples.alice "name" = JStr "Alice Moreno"
  /\ field Samples.alice "age" = JInt 41
  /\ field Samples.alice "communication_style" = JStr "direct"
  /\ SheetsService.exportEnrichedPersonas spreadsheets_create values_update
       now initializeSheets_call [Samples.alice] campaignData options =
     Throw "Export failed: initializeSheets is not defined".
Proof. repeat split; reflexivity. Qed.

End RoundTrip.

(** * Further properties of the code *)

(** ** The confidence that Stage A stores *)

Section Clamp.

Lemma num_leb_fin (a b : Q) :
  num_leb (Fin a) (Fin b) = true <-> (a <= b)%Q.
Proof.
  unfold num_leb, num_ltb, num_eqb, Qltb. split.
  - intros H. apply orb_true_iff in H. destruct H as [H|H].
    + apply negb_true_iff in H. apply Qlt_le_weak. apply Qnot_le_lt.
      intros L. apply Qle_bool_iff in L. congruence.
    + apply Qeq_bool_iff in H. rewrite H. apply Qle_refl.
  - intros L. destruct (Qle_bool b a) eqn:E; [|reflexivity].
    apply Qle_bool_iff in E. simpl. apply Qeq_bool_iff.
    apply Qle_antisym; assumption.
Qed.

Lemma Qltb_false (a b : Q) : Qltb a b = false -> (b <= a)%Q.
Proof.
  unfold Qltb. intros H. apply negb_false_iff in H.
  apply Qle_bool_iff. exact H.
Qed.

(** [Math.min(Math.max(n, 0), 1)] is [NaN] or lies in [[0,1]]. *)
Lemma clamp_range (n : Num) :
  let c := num_min (num_max n (Fin 0)) (Fin 1) in
  c = NaN \/ (num_leb (Fin 0) c = true /\ num_leb c (Fin 1) = true).
Proof.
  destruct n as [ | | |q]; cbv zeta.
  - left. reflexivity.
  - right. split; reflexivity.
  - right. split; reflexivity.
  - right. cbn [num_max num_ltb].
    destruct (Qltb q 0) eqn:L0.
    + split; reflexivity.
    + cbn [num_min num_ltb]. destruct (Qltb 1 q) eqn:L1.
      * split; reflexivity.
      * split; apply num_leb_fin.
        -- apply Qltb_false. exact L0.
        -- apply Qltb_false. exact L1.
Qed.

Context {rt : Runtime}.

(** X1.  Whatever the model replies, the confidence that the Stage A
    parser returns is a number between 0 and 1, or [NaN]: the fallback
    has 0.3, and a decoded confidence goes through
    [Math.min(Math.max(confidence, 0), 1)], which clamps a number and
    leaves the [NaN] of a confidence that is not numeric. *)
Theorem social_confidence_in_range (text : string) :
  exists data c,
    PersonaEnrichmentAgent.parseEnrichmentResponse text = Ok data
    /\ field data "confidence" = JNum c
    /\ (c = NaN \/ (num_leb (Fin 0) c = true /\ num_leb c (Fin 1) = true)).
Proof.
  unfold PersonaEnrichmentAgent.parseEnrichmentResponse.
  assert (F : exists data c,
             Ok PersonaEnrichmentAgent.fallback_enrichment = Ok data
             /\ field data "confidence" = JNum c
             /\ (c = NaN \/
                 (num_leb (Fin 0) c = true /\ num_leb c (Fin 1) = true))).
  { do 2 eexists. split; [reflexivity|]. split; [reflexivity|].
    right. split; reflexivity. }
  destruct (Text.match_object text) as [json|]; [|exact F].
  destruct (JSON_parse json) as [parsed|m]; [|exact F]. cbn [bind try_catch].
  destruct (get_prop parsed "enrichedFields") as [fields|m]; [|exact F].
  cbn [bind try_catch].
  destruct (get_prop parsed "confidence") as [confidence|m]; [|exact F].
  cbn [bind try_catch].
  destruct (negb (truthy fields) || negb (truthy confidence)); [exact F|].
  destruct (get_prop parsed "fieldsEnriched") as [enriched|m]; [|exact F].
  cbn [bind try_catch].
  destruct (get_prop parsed "insights") as [insights|m]; [|exact F].
  cbn [bind try_catch].
  do 2 eexists. split; [reflexivity|]. split; [reflexivity|].
  apply clamp_range.
Qed.

End Clamp.

(** ** Stage B of the enrichment pipeline *)

Section LegalStage.
Context {rt : Runtime}.
Variable anthropic : nat -> ApiReply.
Variable clock : nat -> string.

#[local] Abbreviation enrich_one := (PersonaAgent.enrich_one anthropic clock).

Lemma legal_loop_spec (sourceContext : Obj) (personas : list Obj) :
  forall (i : nat) (acc : list Obj),
  exists out,
    PersonaAgent.enrich_loop anthropic clock sourceContext personas i acc =
    acc ++ out
    /\ List.length out = List.length personas
    /\ forall j p, nth_error personas j = Some p ->
                   nth_error out j = Some (enrich_one sourceContext (i + j) p).
Proof.
  induction personas as [|p0 rest IH]; intros i acc.
  - exists []. rewrite app_nil_r. repeat split.
    intros [|j] p H; discriminate.
  - simpl.
    destruct (IH (S i) (acc ++ [enrich_one sourceContext i p0]))
      as (out & E & L & N).
    exists (enrich_one sourceContext i p0 :: out). rewrite E, <- app_assoc.
    split; [reflexivity|]. split; [simpl; lia|].
    intros [|j] p H; simpl in *.
    + inversion H; subst. rewrite Nat.add_0_r. reflexivity.
    + rewrite (N j p H). do 2 f_equal. lia.
Qed.

(** What Stage B makes of one persona. *)
Lemma legal_step_outcome (sourceContext : Obj) (i : nat) (persona : Obj) :
  exists meta,
    lookup "enrichment_metadata" (enrich_one sourceContext i persona) =
    Some (JObj meta)
    /\ field meta "enriched_by" = JStr "persona_agent"
    /\ field meta "enriched_at" = JStr (clock i)
    /\ field meta "original_source" =
       or_else (field persona "source") (JStr "julius_sheet")
    /\ match anthropic i with
       | ApiError message =>
           field meta "enrichment_error" = JStr message
           /\ forall k, k <> "enrichment_metadata" ->
                        lookup k (enrich_one sourceContext i persona) =
                        lookup k persona
       | ApiText text =>
           exists data,
             PersonaAgent.parseEnrichmentResponse text = Ok data
             /\ lookup "enrichment_error" meta = None
             /\ field (enrich_one sourceContext i persona) "legal_profile" =
                field data "legal_profile"
             /\ field (enrich_one sourceContext i persona) "document_insights" =
                field data "insights"
             /\ forall k,
                 k <> "enrichment_metadata" -> k <> "legal_profile" ->
                 k <> "document_insights" ->
                 lookup k (enrich_one sourceContext i persona) =
                 match lookup k (own_props (field data "additions")) with
                 | Some v => Some v
                 | None => lookup k persona
                 end
       end.
Proof.
  unfold PersonaAgent.enrich_one.
  destruct (anthropic i) as [text|message]; cbn [call bind].
  - destruct (legal_parser_total text) as [data P]. rewrite P. cbn [bind].
    eexists. split; [apply lookup_set_same|].
    split; [reflexivity|]. split; [reflexivity|]. split; [reflexivity|].
    exists data. split; [reflexivity|]. split; [reflexivity|].
    split; [|split].
    + rewrite field_set_other by discriminate. apply field_set_same.
    + rewrite !field_set_other by discriminate. apply field_set_same.
    + intros k K1 K2 K3. rewrite !lookup_set_other by assumption.
      rewrite lookup_spread, lookup_copy. reflexivity.
  - eexists. split; [apply lookup_set_same|].
    split; [reflexivity|]. split; [reflexivity|]. split; [reflexivity|].
    split; [reflexivity|].
    intros k K. rewrite lookup_set_other by exact K. apply lookup_copy.
Qed.


End LegalStage.


(** ** The two stages in sequence *)

Section Pipeline.
Context {rt : Runtime}.
Variable social_reply legal_reply : nat -> ApiReply.
Variable clock : nat -> string.


End Pipeline.


(** ** Texts *)

Section TextFacts.

Lemma trimEnd_idempotent (s : string) :
  Text.trimEnd (Text.trimEnd s) = Text.trimEnd s.
Proof.
  induction s as [|c r IH]; [reflexivity|].
  cbn [Text.trimEnd]. destruct (Text.trimEnd r) as [|a q] eqn:E.
  - destruct (Text.is_space c) eqn:S; [reflexivity|].
    cbn [Text.trimEnd]. rewrite S. reflexivity.
  - cbn [Text.trimEnd] in *. rewrite IH. reflexivity.
Qed.

Lemma trimStart_head (s : string) (c : ascii) (r : string) :
  Text.trimStart s = String c r -> Text.is_space c = false.
Proof.
  induction s as [|a q IH]; [discriminate|].
  cbn [Text.trimStart]. destruct (Text.is_space a) eqn:S; [exact IH|].
  intros H. inversion H; subst. exact S.
Qed.

Lemma trimEnd_keeps_head (c : ascii) (r : string) :
  Text.is_space c = false ->
  Text.trimEnd (String c r) = String c (Text.trimEnd r).
Proof.
  intros S. cbn [Text.trimEnd]. destruct (Text.trimEnd r); [rewrite S|];
    reflexivity.
Qed.

(** [trim] leaves a trimmed text alone. *)
Lemma trim_idempotent (s : string) : Text.trim (Text.trim s) = Text.trim s.
Proof.
  unfold Text.trim. destruct (Text.trimStart s) as [|c r] eqn:E;
    [reflexivity|].
  pose proof (trimStart_head s c r E) as S.
  rewrite (trimEnd_keeps_head c r S). cbn [Text.trimStart]. rewrite S.
  rewrite <- (trimEnd_keeps_head c r S). apply trimEnd_idempotent.
Qed.

Lemma startsWith_drop (p s : string) :
  Text.startsWith p s = true ->
  s = (p ++ Text.drop (String.length p) s)%string.
Proof.
  revert s. induction p as [|a p IH]; intros s; [reflexivity|].
  destruct s as [|b s]; [discriminate|]. cbn [Text.startsWith].
  intros H. apply andb_true_iff in H. destruct H as [E H].
  apply Ascii.eqb_eq in E. subst b. simpl. f_equal. apply IH. exact H.
Qed.

Lemma includes_after (p a s : string) :
  Text.includes p s = true -> Text.includes p (a ++ s)%string = true.
Proof.
  intros H. induction a as [|c a IH]; [exact H|].
  simpl. rewrite IH. apply orb_true_r.
Qed.

End TextFacts.

(** ** The import of a sheet *)

Section SheetImport.
Context {rt : Runtime}.
Variable client : Result unit.
Variable values_get : string -> Result (option (list (list string))).
Variable now : string.

#[local] Abbreviation named persona :=
  (exists value,
      SheetsService.blank value = false
      /\ lookup "name" persona = Some (JStr (Text.trim value))).

#[local] Abbreviation import_row headers :=
  (fun row => match SheetsService.parsePersonaFromRow now row headers with
              | Some persona => [persona]
              | None => []
              end).

(** A column writes a name only as the trimmed text of a cell that is
    not blank. *)
Lemma parse_column_name (header value : string) (persona : Obj) :
  lookup "name" persona = None \/ named persona ->
  lookup "name" (SheetsService.parse_column header value persona) = None
  \/ named (SheetsService.parse_column header value persona).
Proof.
  intros H. destruct (String.eqb (Spec.column_key header) "name") eqn:E.
  - apply String.eqb_eq in E. unfold SheetsService.parse_column.
    destruct (SheetsService.blank value) eqn:B; [exact H|].
    right. exists value. split; [exact B|].
    unfold Spec.column_key in E.
    destruct (SheetsService.mapped header SheetsService.columnMapping) as [m|].
    + subst m. change (String.eqb "name" "age") with false.
      change (SheetsService.is_list_property "name") with false.
      cbv iota. apply lookup_set_same.
    + rewrite E. apply lookup_set_same.
  - rewrite parse_column_other; [exact H|].
    intros C. rewrite C in E. discriminate.
Qed.

Lemma parse_columns_name (headers : list string) :
  forall (row : list string) (persona : Obj),
    lookup "name" persona = None \/ named persona ->
    lookup "name" (SheetsService.parse_columns headers row persona) = None
    \/ named (SheetsService.parse_columns headers row persona).
Proof.
  induction headers as [|h hs IH]; intros row persona H; [exact H|].
  destruct row as [|v vs]; [exact H|].
  cbn [SheetsService.parse_columns]. apply IH. apply parse_column_name.
  exact H.
Qed.

Lemma truthy_trimmed (value : string) :
  SheetsService.blank value = false ->
  truthy (JStr (Text.trim value)) = true
  /\ Text.is_empty (Text.trim (Text.trim value)) = false.
Proof.
  unfold SheetsService.blank. intros B. apply orb_false_iff in B.
  destruct B as [_ B]. rewrite trim_idempotent. cbn [truthy]. rewrite B.
  split; reflexivity.
Qed.

(** A row yields a persona exactly when its columns give a name; the
    persona then carries the marks of the import. *)
Lemma imported_row (row headers : list string) (persona : Obj) :
  SheetsService.parsePersonaFromRow now row headers = Some persona ->
  (exists value,
      SheetsService.blank value = false
      /\ field persona "name" = JStr (Text.trim value))
  /\ field persona "source" = JStr "julius_sheet"
  /\ field persona "imported_at" = JStr now.
Proof.
  unfold SheetsService.parsePersonaFromRow.
  destruct (parse_columns_name headers row [] (or_introl eq_refl))
    as [N|(value & B & N)]; unfold field at 1; rewrite N.
  - discriminate.
  - destruct (truthy_trimmed value B) as [T _]. rewrite T. cbn [negb].
    intros H. inversion H; subst persona; clear H.
    split; [|split].
    + exists value. split; [exact B|].
      rewrite !field_set_other by discriminate. unfold field. rewrite N.
      reflexivity.
    + rewrite field_set_other by discriminate. apply field_set_same.
    + apply field_set_same.
Qed.

Lemma import_rows (headers : list string) (rows : list (list string)) :
  forall acc : list Obj,
    fold_left
      (fun personas row =>
         match SheetsService.parsePersonaFromRow now row headers with
         | Some persona =>
             if truthy (field persona "name")
             then personas ++ [persona] else personas
         | None => personas
         end) rows acc =
    acc ++ flat_map (import_row headers) rows.
Proof.
  induction rows as [|row rest IH]; intros acc; cbn [fold_left flat_map].
  - rewrite app_nil_r. reflexivity.
  - rewrite IH.
    destruct (SheetsService.parsePersonaFromRow now row headers)
      as [persona|] eqn:P; [|reflexivity].
    destruct (imported_row row headers persona P) as ((value & B & N) & _).
    rewrite N. destruct (truthy_trimmed value B) as [T _]. rewrite T.
    rewrite <- app_assoc. reflexivity.
Qed.

Lemma import_rows_length (headers : list string) (rows : list (list string)) :
  List.length (flat_map (import_row headers) rows) <= List.length rows.
Proof.
  induction rows as [|row rest IH]; [apply le_n|].
  cbn [flat_map]. rewrite length_app.
  destruct (SheetsService.parsePersonaFromRow now row headers); simpl in *; lia.
Qed.

(** The shape of a successful import. *)
Lemma import_shape (sheetUrl : JSValue) (imported : list Obj) :
  SheetsService.fetchPersonasFromExternalSheet client values_get now sheetUrl =
  Ok imported ->
  exists spreadsheetId gid first second others,
    SheetsService.extractSheetInfo sheetUrl = Ok (spreadsheetId, gid)
    /\ values_get spreadsheetId = Ok (Some (first :: second :: others))
    /\ imported =
       flat_map
         (import_row (map (fun h => Text.trim (Text.toLowerCase h)) first))
         (second :: others).
Proof.
  unfold SheetsService.fetchPersonasFromExternalSheet.
  destruct (SheetsService.extractSheetInfo sheetUrl) as [[id gid]|m] eqn:X;
    [|discriminate]. cbn [bind try_catch fst].
  destruct SheetsService.initializeGoogleSheetsService; [|discriminate].
  cbn [bind try_catch].
  destruct (values_get id) as [[[|first [|second others]]|]|m] eqn:V;
    try discriminate. cbn [bind try_catch].
  rewrite (import_rows _ (second :: others) []), app_nil_l.
  intros H. injection H as <-.
  exists id, gid, first, second, others.
  split; [reflexivity|]. split; [exact V|reflexivity].
Qed.

(** The marks of the personas that rows are imported as. *)
Lemma imported_marks (headers : list string) (rows : list (list string))
      (persona : Obj) :
  In persona (flat_map (import_row headers) rows) ->
  (exists name,
      field persona "name" = JStr name
      /\ name <> EmptyString /\ Text.trim name = name)
  /\ field persona "source" = JStr "julius_sheet"
  /\ field persona "imported_at" = JStr now.
Proof.
  intros I. apply in_flat_map in I. destruct I as (row & _ & I).
  destruct (SheetsService.parsePersonaFromRow now row headers) as [p|] eqn:P;
    [|destruct I].
  destruct I as [<-|[]].
  destruct (imported_row _ _ _ P) as ((value & B & N) & S & T).
  split; [|split; assumption].
  exists (Text.trim value). split; [exact N|].
  split; [|apply trim_idempotent].
  unfold SheetsService.blank in B. apply orb_false_iff in B.
  destruct B as [_ B]. intros E. rewrite E in B. discriminate.
Qed.

(** X4.  When the import of a sheet succeeds, the sheet had a header
    row and at least one more row, and the personas are the rows that
    give a name, in the order of the sheet: a row whose name cells are
    all blank is skipped.  Every imported persona has a name that is a
    non-empty text without surrounding white space, the source
    [julius_sheet] (whatever a [source] column says) and the time of the
    import. *)
Theorem import_keeps_named_rows (sheetUrl : JSValue) (imported : list Obj) :
  SheetsService.fetchPersonasFromExternalSheet client values_get now sheetUrl =
  Ok imported ->
  exists spreadsheetId gid first second others,
    SheetsService.extractSheetInfo sheetUrl = Ok (spreadsheetId, gid)
    /\ values_get spreadsheetId = Ok (Some (first :: second :: others))
    /\ imported =
       flat_map
         (import_row (map (fun h => Text.trim (Text.toLowerCase h)) first))
         (second :: others)
    /\ List.length imported <= List.length (second :: others)
    /\ forall persona,
        In persona imported ->
        (exists name,
            field persona "name" = JStr name
            /\ name <> EmptyString /\ Text.trim name = name)
        /\ field persona "source" = JStr "julius_sheet"
        /\ field persona "imported_at" = JStr now.
Proof.
  intros H.
  destruct (import_shape sheetUrl imported H)
    as (id & gid & first & second & others & X & V & ->).
  exists id, gid, first, second, others.
  split; [exact X|]. split; [exact V|]. split; [reflexivity|].
  split; [apply (import_rows_length _ (second :: others))|].
  intros persona I. exact (imported_marks _ _ persona I).
Qed.

End SheetImport.

(** ** The import followed by its validation *)

Section ImportedValidation.
Context {rt : Runtime}.

#[local] Abbreviation text_named persona :=
  (exists name,
      field persona "name" = JStr name
      /\ name <> EmptyString /\ Text.trim name = name).

Lemma text_named_valid (persona : Obj) :
  text_named persona ->
  Spec.name_is_text persona /\ Spec.name_missing_or_empty persona = false.
Proof.
  intros (name & N & E & T).
  unfold Spec.name_is_text, Spec.name_missing_or_empty. rewrite N, T.
  split; [exact I|]. destruct name; [contradiction|reflexivity].
Qed.

(** The loop of the import validator on personas that all have a name:
    every persona is pushed to the valid list, none to the errors. *)
Lemma import_loop_all_valid (personas : list Obj) :
  Forall (fun persona => text_named persona) personas ->
  forall (i : nat) (v0 : SheetsService.Validation),
  exists v,
    SheetsService.validate_loop personas i v0 = Ok v
    /\ SheetsService.valid v = SheetsService.valid v0 ++ personas
    /\ SheetsService.errors v = SheetsService.errors v0
    /\ SheetsService.total_imported (SheetsService.summary v) =
       SheetsService.total_imported (SheetsService.summary v0)
    /\ SheetsService.valid_personas (SheetsService.summary v) =
       SheetsService.valid_personas (SheetsService.summary v0)
       + List.length personas
    /\ SheetsService.invalid_personas (SheetsService.summary v) =
       SheetsService.invalid_personas (SheetsService.summary v0).
Proof.
  induction 1 as [|p rest T F IH]; intros i v0.
  - exists v0. simpl. rewrite app_nil_r, Nat.add_0_r. repeat split.
  - destruct (text_named_valid p T) as [Tx K].
    destruct (single_import_spec p (i + 1) Tx) as (r & E & V & _).
    cbn [SheetsService.validate_loop]. unfold SheetsService.validate_step.
    rewrite E. cbn [bind]. rewrite V, K. cbn [negb bind].
    match goal with
    | |- context [SheetsService.validate_loop rest (S i) ?v1] =>
        destruct (IH (S i) v1) as (v & L & Hv & He & Ht & Hc & Hi)
    end.
    cbn [SheetsService.valid SheetsService.errors SheetsService.summary
         SheetsService.total_imported SheetsService.valid_personas
         SheetsService.invalid_personas] in *.
    exists v. split; [exact L|]. rewrite Hv, He, Ht, Hc, Hi.
    rewrite <- app_assoc. cbn [app List.length].
    repeat split. lia.
Qed.

(** The validation of personas that all have a name. *)
Lemma named_are_valid (personas : list Obj) :
  (forall persona, In persona personas -> text_named persona) ->
  exists v,
    SheetsService.validatePersonas personas = Ok v
    /\ SheetsService.valid v = personas
    /\ SheetsService.errors v = []
    /\ SheetsService.total_imported (SheetsService.summary v) =
       List.length personas
    /\ SheetsService.valid_personas (SheetsService.summary v) =
       List.length personas
    /\ SheetsService.invalid_personas (SheetsService.summary v) = 0.
Proof.
  intros N. unfold SheetsService.validatePersonas.
  match goal with
  | |- context [SheetsService.validate_loop personas 0 ?v0] =>
      destruct (import_loop_all_valid personas
                  ltac:(apply Forall_forall; exact N) 0 v0)
        as (v & L & Hv & He & Ht & Hc & Hi)
  end.
  exists v. split; [exact L|]. rewrite Hv, He, Ht, Hc, Hi.
  repeat split.
Qed.

(** X5.  The import validator rejects nothing that the import produces:
    for the personas that [fetchPersonasFromExternalSheet] returns, the
    validation succeeds, its valid list is the imported list, it records
    no error entry, and its summary counts every persona as valid. *)
Theorem imported_personas_all_valid
        (client : Result unit)
        (values_get : string -> Result (option (list (list string))))
        (now : string) (sheetUrl : JSValue) (imported : list Obj) :
  SheetsService.fetchPersonasFromExternalSheet client values_get now sheetUrl =
  Ok imported ->
  exists v,
    SheetsService.validatePersonas imported = Ok v
    /\ SheetsService.valid v = imported
    /\ SheetsService.errors v = []
    /\ SheetsService.total_imported (SheetsService.summary v) =
       List.length imported
    /\ SheetsService.valid_personas (SheetsService.summary v) =
       List.length imported
    /\ SheetsService.invalid_personas (SheetsService.summary v) = 0.
Proof.
  intros H. apply named_are_valid.
  destruct (import_shape client values_get now sheetUrl imported H)
    as (id & gid & first & second & others & _ & _ & ->).
  intros persona I. exact (proj1 (imported_marks now _ _ persona I)).
Qed.

End ImportedValidation.

(** ** The outcomes of the enrichment workflow *)

Section EnrichmentOutcomes.
Context {rt : Runtime}.

Lemma import_error_text
      (client : Result unit)
      (values_get : string -> Result (option (list (list string))))
      (now : string) (sheetUrl : JSValue) (message : string) :
  SheetsService.fetchPersonasFromExternalSheet client values_get now sheetUrl =
  Throw message ->
  exists cause,
    message = ("Failed to access Julius personas sheet: " ++ cause)%string.
Proof.
  unfold SheetsService.fetchPersonasFromExternalSheet.
  match goal with |- try_catch ?b _ = _ -> _ => destruct b as [x|cause] end;
    cbn [try_catch]; intros H; [discriminate|].
  injection H as <-. exists cause. reflexivity.
Qed.

(** The text of every import error contains the word [access]. *)
Lemma import_error_class (cause : string) :
  fst (GeneratePersonasV2.sheet_error
         ("Failed to access Julius personas sheet: " ++ cause)) =
  "Permission denied accessing Julius sheet".
Proof.
  unfold GeneratePersonasV2.sheet_error.
  assert (A : Text.includes "access"
                ("Failed to access Julius personas sheet: " ++ cause) = true)
    by reflexivity.
  rewrite A, orb_true_r. reflexivity.
Qed.

(** X6.  The enrichment workflow has three outcomes.  When the import
    fails, for whatever reason (a URL without a spreadsheet id, no
    client, an error of the sheets API, a sheet with no row below the
    headers), the answer is 400 [SHEET_ACCESS_FAILED] with the message
    [Permission denied accessing Julius sheet]: the import prefixes every
    error with [Failed to access ...], and the handler looks for the word
    [access] first.  When the import returns no persona the answer is
    400 [EMPTY_PERSONAS_SHEET].  When it returns at least one persona the
    answer is 500 [ENRICHMENT_FAILED]; [NO_VALID_PERSONAS] is never
    answered. *)
Theorem enrichment_mode_outcomes
        (w : GeneratePersonasV2.World)
        (matter keywords target url complaint research : JSValue) :
  let response :=
    fst (GeneratePersonasV2.handlePersonaEnrichment w matter keywords target
           url complaint research) in
  match SheetsService.fetchPersonasFromExternalSheet
          (GeneratePersonasV2.sheets_client w)
          (GeneratePersonasV2.values_get w) (GeneratePersonasV2.now w) url with
  | Throw _ =>
      GeneratePersonasV2.status response = 400
      /\ field (GeneratePersonasV2.body response) "error" =
         JStr "SHEET_ACCESS_FAILED"
      /\ field (GeneratePersonasV2.body response) "message" =
         JStr "Permission denied accessing Julius sheet"
  | Ok [] =>
      GeneratePersonasV2.status response = 400
      /\ field (GeneratePersonasV2.body response) "error" =
         JStr "EMPTY_PERSONAS_SHEET"
  | Ok (_ :: _) =>
      GeneratePersonasV2.status response = 500
      /\ field (GeneratePersonasV2.body response) "error" =
         JStr "ENRICHMENT_FAILED"
  end.
Proof.
  cbv zeta. unfold GeneratePersonasV2.handlePersonaEnrichment.
  destruct (SheetsService.fetchPersonasFromExternalSheet _ _ _ url)
    as [[|p rest]|message] eqn:F.
  - split; reflexivity.
  - destruct (import_shape _ _ _ _ _ F)
      as (id & gid & first & second & others & _ & _ & I).
    destruct (named_are_valid (p :: rest)) as (v & E & _ & _ & _ & C & _).
    { intros persona P. rewrite I in P.
      exact (proj1 (imported_marks _ _ _ persona P)). }
    rewrite E, C. cbn [List.length Nat.eqb].
    destruct (enrich_and_export_throws w matter keywords target url
                (filter truthy [complaint; research]) (p :: rest) v)
      as [m T].
    destruct (GeneratePersonasV2.enrich_and_export _ _ _ _ _ _ _ _) as [r t].
    cbn [fst] in T. subst r. split; reflexivity.
  - destruct (import_error_text _ _ _ _ _ F) as [cause ->].
    cbn [fst GeneratePersonasV2.respond GeneratePersonasV2.status
         GeneratePersonasV2.body].
    split; [reflexivity|]. split; [reflexivity|].
    change (field _ "message") with
      (JStr (fst (GeneratePersonasV2.sheet_error
                    ("Failed to access Julius personas sheet: " ++ cause)))).
    rewrite import_error_class. reflexivity.
Qed.

End EnrichmentOutcomes.

(** ** The status codes of the handler *)

Section StatusCodes.
Context {rt : Runtime}.
Variable w : GeneratePersonasV2.World.

Lemma generation_status (matter keywords target count : JSValue)
      (fileUrls : list JSValue) :
  match fst (GeneratePersonasV2.generation_workflow w matter keywords target
               count fileUrls) with
  | Ok response =>
      GeneratePersonasV2.status response = 422
      /\ keys (GeneratePersonasV2.body response) =
         ["personas"; "sources_used"; "validation"; "generation_timestamp"]
  | Throw _ => True
  end.
Proof.
  rewrite generation_outcome. cbn [fst].
  destruct (PersonaAgent.generatePersonas _ _ _ _ _ _ _) as [result|m] eqn:G;
    [|exact I].
  destruct (generator_result_shape _ _ _ _ _ _ _ _ G)
    as (personas & sources & validation & ->).
  split; reflexivity.
Qed.

(** X7.  The handler answers 200 only to an OPTIONS request.  Every
    other request is answered 405 (not a POST), 400, 422 or 500: the
    enrichment workflow ends in an error, and in generation mode the
    result of the Generator, which has the keys [personas],
    [sources_used], [validation] and [generation_timestamp] and no
    [success], is sent back with the status 422. *)
Theorem handler_success_is_unreachable (req : GeneratePersonasV2.Request) :
  let response := fst (GeneratePersonasV2.handler w req) in
  (GeneratePersonasV2.status response = 200
   /\ GeneratePersonasV2.method req = "OPTIONS"
   /\ GeneratePersonasV2.body response = [])
  \/ (GeneratePersonasV2.status response = 405
      /\ GeneratePersonasV2.method req <> "OPTIONS"
      /\ GeneratePersonasV2.method req <> "POST")
  \/ (GeneratePersonasV2.method req = "POST"
      /\ (GeneratePersonasV2.status response = 400
          \/ GeneratePersonasV2.status response = 500
          \/ (GeneratePersonasV2.status response = 422
              /\ keys (GeneratePersonasV2.body response) =
                 ["personas"; "sources_used"; "validation";
                  "generation_timestamp"]))).
Proof.
  cbv zeta. unfold GeneratePersonasV2.handler.
  destruct (String.eqb (GeneratePersonasV2.method req) "OPTIONS") eqn:O.
  { left. apply String.eqb_eq in O. repeat split. exact O. }
  destruct (String.eqb (GeneratePersonasV2.method req) "POST") eqn:P;
    cbn [negb].
  2:{ right. left. split; [reflexivity|].
      split; intros E; rewrite E in *; discriminate. }
  right. right. apply String.eqb_eq in P. split; [exact P|].
  destruct (GeneratePersonasV2.form req) as [fields|m]; [|left; reflexivity].
  destruct (_ <- GeneratePersonasV2.log_file_url _ ;; _);
    [|right; left; reflexivity].
  destruct (negb (truthy (field fields "matter")) || _ || _);
    [left; reflexivity|].
  destruct (truthy (field fields "julius_personas_sheet_url")); cbn [andb].
  - destruct (negb (GeneratePersonasV2.sheetsUrlPattern _));
      [left; reflexivity|].
    destruct (GeneratePersonasV2.check_url _); [|left; reflexivity].
    pose proof (enrichment_workflow_fails w (field fields "matter")
                  (field fields "keywords")
                  (field fields "target_description")
                  (field fields "julius_personas_sheet_url")
                  (field fields "complaint_file_url")
                  (field fields "research_file_url")) as H.
    cbv zeta in H.
    destruct (GeneratePersonasV2.handlePersonaEnrichment _ _ _ _ _ _ _)
      as [response trace].
    cbn [fst] in *. tauto.
  - pose proof (generation_status (field fields "matter")
                  (field fields "keywords")
                  (field fields "target_description")
                  (field fields "persona_count")
                  (filter truthy [field fields "complaint_file_url";
                                  field fields "research_file_url"])) as H.
    destruct (GeneratePersonasV2.generation_workflow _ _ _ _ _ _)
      as [[response|m] trace]; cbn [fst] in *.
    + right. right. exact H.
    + right. left. reflexivity.
Qed.

End StatusCodes.

(** ** Research and generation *)

Section ResearchThenGeneration.
Context {rt : Runtime}.

(** A research result that lacks the three topics, besides no
    documents: the source context is empty. *)
Lemma context_without_topics (research : Obj) :
  truthy (field research "demographics") = false ->
  truthy (field research "social_insights") = false ->
  truthy (field research "consumer_behavior") = false ->
  PersonaAgent.buildSourceContext (JArray []) (JObj research) =
  [("demographic_data", JArray []); ("case_data", JArray []);
   ("social_insights", JArray []); ("consumer_behavior", JArray []);
   ("client_data", JArray []); ("total_sources", JNat 0)].
Proof.
  intros D S C. unfold PersonaAgent.buildSourceContext, PersonaAgent.collect.
  change (read (JObj research) "demographics")
    with (field research "demographics").
  change (read (JObj research) "social_insights")
    with (field research "social_insights").
  change (read (JObj research) "consumer_behavior")
    with (field research "consumer_behavior").
  rewrite D, S, C. reflexivity.
Qed.

Lemma insufficient_without_topics
      (env : Env) (reply : ApiReply) (now : string) (campaignData : Obj)
      (research : Obj) (personaCount : Num) :
  configured (ANTHROPIC_API_KEY env) = true ->
  truthy (field research "demographics") = false ->
  truthy (field research "social_insights") = false ->
  truthy (field research "consumer_behavior") = false ->
  PersonaAgent.generatePersonas env reply now campaignData (JArray [])
    (JObj research) personaCount =
  Throw "Insufficient data for persona generation: demographic_data, social_insights, consumer_behavior".
Proof.
  intros K D S C. unfold PersonaAgent.generatePersonas.
  rewrite K, (context_without_topics research D S C). reflexivity.
Qed.

(** The three shapes of a research result. *)
Lemma research_cases (perplexity : string -> HttpReply) (now : string)
      (env : Env) (caseType keywords targetDescription : JSValue) :
  let research :=
    ResearchAgent.conductResearch perplexity now env caseType keywords
      targetDescription in
  (configured (PERPLEXITY_API_KEY env) = false
   /\ research = [("error", JStr "Research API not configured")])
  \/ (configured (PERPLEXITY_API_KEY env) = true
      /\ (exists t, In t Spec.topics /\ Spec.query_fails (perplexity t))
      /\ exists message,
          research = [("error", JStr message); ("partial_data", JNull)])
  \/ (configured (PERPLEXITY_API_KEY env) = true
      /\ (forall t, In t Spec.topics -> ~ Spec.query_fails (perplexity t))
      /\ exists r0 r1 r2 r3,
          research =
          [("demographics", r0); ("social_insights", r1);
           ("legal_trends", r2); ("consumer_behavior", r3);
           ("research_timestamp", JStr now); ("case_type", caseType);
           ("keywords", keywords)]
          /\ ResearchAgent.makePerplexityRequest perplexity "demographics" =
             Ok r0
          /\ ResearchAgent.makePerplexityRequest perplexity "social_insights" =
             Ok r1
          /\ ResearchAgent.makePerplexityRequest perplexity "legal_trends" =
             Ok r2
          /\ ResearchAgent.makePerplexityRequest perplexity
               "consumer_behavior" = Ok r3).
Proof.
  cbv zeta. unfold ResearchAgent.conductResearch.
  destruct (configured (PERPLEXITY_API_KEY env)); cbn [negb];
    [|left; split; reflexivity].
  right.
  unfold ResearchAgent.researchDemographics,
    ResearchAgent.researchSocialInsights, ResearchAgent.researchLegalTrends,
    ResearchAgent.researchConsumerBehavior.
  destruct (query_outcome perplexity "demographics")
    as [[F0 [m0 E0]]|[N0 [r0 E0]]].
  { left. split; [reflexivity|]. split.
    - exists "demographics". split; [simpl; tauto|exact F0].
    - rewrite E0. eexists. reflexivity. }
  destruct (query_outcome perplexity "social_insights")
    as [[F1 [m1 E1]]|[N1 [r1 E1]]].
  { left. split; [reflexivity|]. split.
    - exists "social_insights". split; [simpl; tauto|exact F1].
    - rewrite E0, E1. eexists. reflexivity. }
  destruct (query_outcome perplexity "legal_trends")
    as [[F2 [m2 E2]]|[N2 [r2 E2]]].
  { left. split; [reflexivity|]. split.
    - exists "legal_trends". split; [simpl; tauto|exact F2].
    - rewrite E0, E1, E2. eexists. reflexivity. }
  destruct (query_outcome perplexity "consumer_behavior")
    as [[F3 [m3 E3]]|[N3 [r3 E3]]].
  { left. split; [reflexivity|]. split.
    - exists "consumer_behavior". split; [simpl; tauto|exact F3].
    - rewrite E0, E1, E2, E3. eexists. reflexivity. }
  right. split; [reflexivity|]. split.
  - intros t T. simpl in T.
    destruct T as [<-|[<-|[<-|[<-|[]]]]]; assumption.
  - exists r0, r1, r2, r3. rewrite E0, E1, E2, E3.
    repeat split; reflexivity.
Qed.

(** A result of a research query is an object (or an array), hence
    truthy. *)
Lemma query_result_truthy (perplexity : string -> HttpReply)
      (requestType : string) (result : JSValue) :
  ResearchAgent.makePerplexityRequest perplexity requestType = Ok result ->
  truthy result = true.
Proof.
  unfold ResearchAgent.makePerplexityRequest.
  destruct (perplexity requestType) as [content| | |]; try discriminate.
  destruct (Text.is_empty content); [discriminate|].
  destruct (JSON_parse content) as [parsed|e]; cbn [bind try_catch].
  - destruct parsed; cbn [assign_prop bind try_catch];
      intros H; injection H as <-; reflexivity.
  - intros H; injection H as <-; reflexivity.
Qed.

Variable w : GeneratePersonasV2.World.



End ResearchThenGeneration.

(** ** Sheet addresses *)

Section SheetAddress.
Context {rt : Runtime}.

Lemma take_while_all (p : ascii -> bool) (s : string) :
  Shapes.all_chars p s = true -> SheetsService.take_while p s = s.
Proof.
  induction s as [|c r IH]; [reflexivity|]. cbn [Shapes.all_chars].
  intros H. apply andb_true_iff in H. destruct H as [C H].
  cbn [SheetsService.take_while]. rewrite C, (IH H). reflexivity.
Qed.

Lemma take_while_stops (p : ascii -> bool) (s : string) (c : ascii)
      (rest : string) :
  Shapes.all_chars p s = true -> p c = false ->
  SheetsService.take_while p (s ++ String c rest) = s.
Proof.
  intros A C. induction s as [|a r IH].
  - cbn. rewrite C. reflexivity.
  - cbn [Shapes.all_chars] in A. apply andb_true_iff in A.
    destruct A as [Ha A]. cbn. rewrite Ha, (IH A). reflexivity.
Qed.

(** The address pattern of the handler puts the id where the adapter
    looks for it. *)
Lemma extract_after_prefix (c : ascii) (r : string) :
  SheetsService.is_id_char c = true ->
  SheetsService.capture_after "/spreadsheets/d/" SheetsService.is_id_char
    ("https://docs.google.com/spreadsheets/d/" ++ String c r) =
  Some (String c (SheetsService.take_while SheetsService.is_id_char r)).
Proof.
  intros I. cbn. rewrite I. reflexivity.
Qed.

(** X10.  A sheet address that passes the pattern of the handler is one
    the adapter can read: [extractSheetInfo] does not throw on it, and
    the spreadsheet id it returns is the longest run of id characters
    behind [https://docs.google.com/spreadsheets/d/], which is not
    empty. *)
Theorem validated_url_has_an_id (s : string) :
  GeneratePersonasV2.sheetsUrlPattern s = true ->
  SheetsService.extractSheetInfo (JStr s) =
  Ok (SheetsService.take_while SheetsService.is_id_char (Text.drop 39 s),
      SheetsService.capture_gid s)
  /\ SheetsService.take_while SheetsService.is_id_char (Text.drop 39 s)
     <> EmptyString.
Proof.
  unfold GeneratePersonasV2.sheetsUrlPattern. intros H.
  apply andb_true_iff in H. destruct H as [P I].
  apply startsWith_drop in P.
  change (String.length "https://docs.google.com/spreadsheets/d/") with 39
    in *.
  destruct (Text.drop 39 s) as [|c r]; [discriminate|].
  cbn [SheetsService.take_while]. rewrite I. split; [|discriminate].
  unfold SheetsService.extractSheetInfo. rewrite P at 1.
  rewrite (extract_after_prefix c r I). reflexivity.
Qed.

Lemma id_char_is_no_mark (c : ascii) :
  SheetsService.is_id_char c = true ->
  (Ascii.eqb c "#" || Ascii.eqb c "&")%bool = false.
Proof.
  destruct c as [b0 b1 b2 b3 b4 b5 b6 b7].
  destruct b0, b1, b2, b3, b4, b5, b6, b7; intros H;
    (reflexivity || discriminate H).
Qed.

Lemma all_chars_weaken (p q : ascii -> bool) (s : string) :
  (forall c, p c = true -> q c = true) ->
  Shapes.all_chars p s = true -> Shapes.all_chars q s = true.
Proof.
  intros W. induction s as [|c r IH]; [reflexivity|]. cbn [Shapes.all_chars].
  intros H. apply andb_true_iff in H. destruct H as [C H].
  rewrite (W c C), (IH H). reflexivity.
Qed.

(** The search for the tab id passes over a text without [#] and [&]. *)
Lemma capture_gid_skips (s rest : string) :
  Shapes.all_chars (fun c => negb (Ascii.eqb c "#" || Ascii.eqb c "&")) s =
  true ->
  SheetsService.capture_gid (s ++ rest) = SheetsService.capture_gid rest.
Proof.
  induction s as [|c r IH]; [reflexivity|]. cbn [Shapes.all_chars].
  intros H. apply andb_true_iff in H. destruct H as [C H].
  apply negb_true_iff in C.
  cbn [append SheetsService.capture_gid]. rewrite C. cbn [andb].
  exact (IH H).
Qed.

(** X11.  Reading an address back: for a non-empty spreadsheet id of id
    characters (letters, digits, [-], [_]) and a non-empty tab id of
    digits, [extractSheetInfo] returns exactly the two from the address
    [https://docs.google.com/spreadsheets/d/<id>/edit#gid=<gid>], and the
    handler's pattern accepts that address. *)
Theorem sheet_url_round_trip (spreadsheetId gid : string) :
  spreadsheetId <> EmptyString ->
  Shapes.all_chars SheetsService.is_id_char spreadsheetId = true ->
  gid <> EmptyString ->
  Shapes.all_chars SheetsService.is_digit gid = true ->
  SheetsService.extractSheetInfo (JStr (Shapes.sheet_url spreadsheetId gid)) =
  Ok (spreadsheetId, Some gid)
  /\ GeneratePersonasV2.sheetsUrlPattern (Shapes.sheet_url spreadsheetId gid) =
     true.
Proof.
  intros N A G D.
  assert (U : Shapes.all_chars
                (fun c => negb (Ascii.eqb c "#" || Ascii.eqb c "&"))
                spreadsheetId = true).
  { apply (all_chars_weaken SheetsService.is_id_char); [|exact A].
    intros c C. rewrite (id_char_is_no_mark c C). reflexivity. }
  assert (T : SheetsService.capture_gid (Shapes.sheet_url spreadsheetId gid) =
              Some gid).
  { unfold Shapes.sheet_url.
    rewrite (capture_gid_skips "https://docs.google.com/spreadsheets/d/")
      by reflexivity.
    rewrite (capture_gid_skips spreadsheetId) by exact U.
    cbn [append SheetsService.capture_gid Ascii.eqb Bool.eqb orb andb
         Text.startsWith Text.drop].
    rewrite (take_while_all _ gid D).
    destruct gid; [contradiction|reflexivity]. }
  destruct spreadsheetId as [|c r]; [contradiction|].
  cbn [Shapes.all_chars] in A. apply andb_true_iff in A.
  destruct A as [C A]. split.
  - unfold SheetsService.extractSheetInfo. rewrite T.
    unfold Shapes.sheet_url.
    change ("https://docs.google.com/spreadsheets/d/" ++ String c r
            ++ "/edit#gid=" ++ gid)%string
      with ("https://docs.google.com/spreadsheets/d/"
            ++ String c (r ++ String "/" ("edit#gid=" ++ gid)))%string.
    rewrite (extract_after_prefix c _ C).
    rewrite (take_while_stops _ r "/" _ A eq_refl). reflexivity.
  - unfold Shapes.sheet_url, GeneratePersonasV2.sheetsUrlPattern.
    cbn. rewrite C. reflexivity.
Qed.

End SheetAddress.

(** ** The confidence of the second opinion *)

Section SecondOpinionScore.
Context {rt : Runtime}.
Variable client : Result unit.
Variable openai : nat -> ApiReply.

Lemma filter_none_failed (results : list Obj) :
  Forall (fun v => field v "validation_passed" = JBool true) results ->
  filter (fun v => negb (truthy (field v "validation_passed"))) results = [].
Proof.
  induction 1 as [|v r H F IH]; simpl; [reflexivity|].
  rewrite H. simpl. exact IH.
Qed.

(** A quotient that equals one is the number 1. *)
Lemma double_of_Q_one (q : Q) : (q == 1)%Q -> double_of_Q q = Fin 1.
Proof.
  intros H. unfold double_of_Q. rewrite (Qred_complete q 1 H).
  vm_compute. reflexivity.
Qed.

(** [n / n * 100] is 100 for a count [n] that is not zero. *)
Lemma full_share (n : nat) :
  num_eqb (num_mul (num_div (num_of_nat (S n)) (num_of_nat (S n))) (Fin 100))
          (Fin 100) = true.
Proof.
  unfold num_of_nat, num_of_Z, num_div.
  assert (Z : ~ (inject_Z (Z.of_nat (S n)) == 0)%Q).
  { unfold Qeq. simpl. lia. }
  destruct (Qeq_bool (inject_Z (Z.of_nat (S n))) 0) eqn:E.
  - apply Qeq_bool_iff in E. contradiction.
  - rewrite double_of_Q_one.
    + vm_compute. reflexivity.
    + unfold Qdiv. apply Qmult_inv_r. exact Z.
Qed.


End SecondOpinionScore.

(** ** The cells of an imported row *)

Section Cells.
Context {rt : Runtime}.

#[local] Abbreviation no_separator :=
  (fun c => negb (Text.is_list_separator c)).

Lemma split_on_pieces (s : string) :
  Forall (fun piece => Shapes.all_chars no_separator piece = true)
         (Text.split_on Text.is_list_separator s).
Proof.
  induction s as [|a r IH]; cbn [Text.split_on].
  - repeat constructor.
  - destruct (Text.is_list_separator a) eqn:S.
    + constructor; [reflexivity|exact IH].
    + destruct (Text.split_on Text.is_list_separator r) as [|h t].
      * repeat constructor. cbn. rewrite S. reflexivity.
      * inversion IH; subst. constructor; [|assumption].
        cbn [Shapes.all_chars]. rewrite S. assumption.
Qed.

Lemma all_chars_trimStart (p : ascii -> bool) (s : string) :
  Shapes.all_chars p s = true -> Shapes.all_chars p (Text.trimStart s) = true.
Proof.
  induction s as [|c r IH]; [reflexivity|]. intros H.
  cbn [Text.trimStart]. destruct (Text.is_space c); [|exact H].
  cbn [Shapes.all_chars] in H. apply andb_true_iff in H. apply IH, H.
Qed.

Lemma all_chars_trimEnd (p : ascii -> bool) (s : string) :
  Shapes.all_chars p s = true -> Shapes.all_chars p (Text.trimEnd s) = true.
Proof.
  induction s as [|c r IH]; [reflexivity|]. cbn [Shapes.all_chars].
  intros H. apply andb_true_iff in H. destruct H as [C H].
  cbn [Text.trimEnd]. specialize (IH H).
  destruct (Text.trimEnd r).
  - destruct (Text.is_space c); [reflexivity|]. cbn. rewrite C. reflexivity.
  - cbn [Shapes.all_chars] in *. rewrite C. exact IH.
Qed.

Lemma list_property_is_not_age (m : string) :
  SheetsService.is_list_property m = true -> String.eqb m "age" = false.
Proof.
  unfold SheetsService.is_list_property. intros H.
  apply orb_true_iff in H. destruct H as [H|H];
    [apply orb_true_iff in H; destruct H as [H|H]|];
    apply String.eqb_eq in H; subst m; reflexivity.
Qed.

(** X13.  A cell under a header for [interests], [motivations] or
    [barriers] (or a synonym) is stored as a list of texts, split at
    commas and semicolons: no item is empty, none has white space around
    it, and none contains a separator. *)
Theorem list_cell_items (header value m : string) (persona : Obj) :
  SheetsService.blank value = false ->
  SheetsService.mapped header SheetsService.columnMapping = Some m ->
  SheetsService.is_list_property m = true ->
  exists items,
    lookup m (SheetsService.parse_column header value persona) =
    Some (JStrings items)
    /\ Forall (fun item =>
                 item <> EmptyString
                 /\ Text.trim item = item
                 /\ Shapes.all_chars no_separator item = true) items.
Proof.
  intros B M L. unfold SheetsService.parse_column.
  rewrite B, M, (list_property_is_not_age m L), L.
  eexists. split; [apply lookup_set_same|].
  pose proof (split_on_pieces value) as P.
  induction P as [|piece rest H F IH]; cbn [map filter]; [constructor|].
  destruct (Text.is_empty (Text.trim piece)) eqn:E; cbn [negb]; [exact IH|].
  constructor; [|exact IH].
  split; [intros Z; rewrite Z in E; discriminate|].
  split; [apply trim_idempotent|].
  apply all_chars_trimEnd, all_chars_trimStart, H.
Qed.

Lemma parse_column_sets (header value : string) (persona : Obj) :
  SheetsService.blank value = false ->
  lookup (Spec.column_key header)
         (SheetsService.parse_column header value persona) =
  lookup (Spec.column_key header)
         (SheetsService.parse_column header value []).
Proof.
  intros B. unfold Spec.column_key, SheetsService.parse_column. rewrite B.
  destruct (SheetsService.mapped header SheetsService.columnMapping) as [m|].
  - destruct (String.eqb m "age");
      [|destruct (SheetsService.is_list_property m)];
      rewrite !lookup_set_same; reflexivity.
  - rewrite !lookup_set_same. reflexivity.
Qed.

Lemma parse_columns_app (before after : list (string * string)) :
  forall persona,
    SheetsService.parse_columns (map fst (before ++ after))
      (map snd (before ++ after)) persona =
    SheetsService.parse_columns (map fst after) (map snd after)
      (SheetsService.parse_columns (map fst before) (map snd before) persona).
Proof.
  induction before as [|[h v] rest IH]; intros persona; [reflexivity|].
  cbn [app map fst snd SheetsService.parse_columns]. apply IH.
Qed.

Lemma parse_columns_leave (k : string) (columns : list (string * string)) :
  Forall (fun column =>
            Spec.column_key (fst column) = k ->
            SheetsService.blank (snd column) = true) columns ->
  forall persona,
    lookup k (SheetsService.parse_columns (map fst columns) (map snd columns)
                persona) = lookup k persona.
Proof.
  induction 1 as [|[h v] rest H F IH]; intros persona; [reflexivity|].
  cbn [map fst snd SheetsService.parse_columns] in *. rewrite IH.
  destruct (String.eqb (Spec.column_key h) k) eqn:E.
  - apply String.eqb_eq in E. unfold SheetsService.parse_column.
    rewrite (H E). reflexivity.
  - apply parse_column_other. intros C. rewrite C, String.eqb_refl in E.
    discriminate.
Qed.

(** X14.  When several columns of a sheet fill the same property (as
    [city] and [state] both fill [location]), the last of them whose
    cell is not blank decides: what that column alone would store is
    what the row stores, and the cells of the earlier columns are
    lost. *)
Theorem later_column_wins (before after : list (string * string))
        (header value : string) (persona : Obj) :
  SheetsService.blank value = false ->
  Forall (fun column =>
            Spec.column_key (fst column) = Spec.column_key header ->
            SheetsService.blank (snd column) = true) after ->
  let columns := before ++ (header, value) :: after in
  lookup (Spec.column_key header)
         (SheetsService.parse_columns (map fst columns) (map snd columns)
            persona) =
  lookup (Spec.column_key header)
         (SheetsService.parse_column header value []).
Proof.
  intros B A. cbv zeta. rewrite parse_columns_app.
  cbn [map fst snd SheetsService.parse_columns].
  rewrite (parse_columns_leave _ after A). apply parse_column_sets. exact B.
Qed.

End Cells.

(** ** The summary of the import validation *)

Section ImportSummary.
Context {rt : Runtime}.

Lemma import_loop_counts (personas : list Obj) :
  forall (i : nat) (v0 v : SheetsService.Validation),
    SheetsService.validate_loop personas i v0 = Ok v ->
    exists a b c,
      a + b = List.length personas /\ c <= a
      /\ SheetsService.total_imported (SheetsService.summary v) =
         SheetsService.total_imported (SheetsService.summary v0)
      /\ SheetsService.valid_personas (SheetsService.summary v) =
         SheetsService.valid_personas (SheetsService.summary v0) + a
      /\ List.length (SheetsService.valid v) =
         List.length (SheetsService.valid v0) + a
      /\ SheetsService.invalid_personas (SheetsService.summary v) =
         SheetsService.invalid_personas (SheetsService.summary v0) + b
      /\ List.length (SheetsService.errors v) =
         List.length (SheetsService.errors v0) + b
      /\ SheetsService.personas_with_warnings (SheetsService.summary v) =
         SheetsService.personas_with_warnings (SheetsService.summary v0) + c
      /\ List.length (SheetsService.warnings v) =
         List.length (SheetsService.warnings v0) + c.
Proof.
  induction personas as [|p rest IH]; intros i v0 v.
  - cbn. intros H. injection H as <-. exists 0, 0, 0.
    rewrite !Nat.add_0_r. repeat split. apply le_n.
  - cbn [SheetsService.validate_loop]. unfold SheetsService.validate_step.
    destruct (SheetsService.validateSinglePersona p (i + 1)) as [r|m];
      cbn [bind]; [|discriminate].
    destruct (SheetsService.isValid r); cbn [bind]; intros L;
      destruct (IH _ _ _ L) as (a & b & c & Sm & W & Ht & Hc & Hv & Hi & He & Hp & Hw);
      cbn [SheetsService.valid SheetsService.warnings SheetsService.errors
           SheetsService.summary SheetsService.total_imported
           SheetsService.valid_personas SheetsService.personas_with_warnings
           SheetsService.invalid_personas] in *.
    + rewrite length_app in Hv. cbn [List.length] in *.
      destruct (negb (List.length (SheetsService.single_warnings r) =? 0)).
      * rewrite length_app in Hw. cbn [List.length] in Hw.
        exists (S a), b, (S c). repeat split; lia.
      * exists (S a), b, c. repeat split; lia.
    + rewrite length_app in He. cbn [List.length] in *.
      exists a, (S b), c. repeat split; lia.
Qed.

(** X15.  Whenever the import validator returns, its summary adds up:
    [total_imported] is the number of personas given, every persona is
    counted as valid or as invalid and never as both, the three counters
    are the lengths of the valid list, of the error entries and of the
    warning entries, and only valid personas carry warning entries. *)
Theorem import_summary_adds_up (personas : list Obj)
        (v : SheetsService.Validation) :
  SheetsService.validatePersonas personas = Ok v ->
  let s := SheetsService.summary v in
  SheetsService.total_imported s = List.length personas
  /\ SheetsService.valid_personas s + SheetsService.invalid_personas s =
     SheetsService.total_imported s
  /\ SheetsService.valid_personas s = List.length (SheetsService.valid v)
  /\ SheetsService.invalid_personas s = List.length (SheetsService.errors v)
  /\ SheetsService.personas_with_warnings s =
     List.length (SheetsService.warnings v)
  /\ SheetsService.personas_with_warnings s <= SheetsService.valid_personas s.
Proof.
  unfold SheetsService.validatePersonas. intros L.
  destruct (import_loop_counts _ _ _ _ L)
    as (a & b & c & Sm & W & Ht & Hc & Hv & Hi & He & Hp & Hw).
  cbn in Ht, Hc, Hv, Hi, He, Hp, Hw. cbv zeta.
  rewrite Ht, Hc, Hv, Hi, He, Hp, Hw. repeat split; lia.
Qed.

End ImportSummary.

(** ** The verdict on the source data *)

Section Sufficiency.
Context {rt : Runtime}.

Lemma sufficiency_verdict (sourceContext : Obj) :
  field (PersonaAgent.validateDataSufficiency sourceContext) "sufficient" =
  JBool (PersonaAgent.populated sourceContext "demographic_data"
         || PersonaAgent.populated sourceContext "social_insights"
         || PersonaAgent.populated sourceContext "consumer_behavior").
Proof.
  unfold PersonaAgent.validateDataSufficiency. cbn [fold_left].
  destruct (PersonaAgent.populated sourceContext "demographic_data");
    destruct (PersonaAgent.populated sourceContext "social_insights");
    destruct (PersonaAgent.populated sourceContext "consumer_behavior");
    reflexivity.
Qed.

Lemma push_other (k target : string) (x : JSValue) (context : Obj) :
  k <> target ->
  lookup k (PersonaAgent.push target x context) = lookup k context.
Proof.
  intros H. unfold PersonaAgent.push.
  destruct (field context target); try reflexivity.
  apply lookup_set_other. exact H.
Qed.

Lemma collect_other (data : JSValue) (key target source type k : string)
      (summarised : bool) (context : Obj) :
  k <> target ->
  lookup k (PersonaAgent.collect data key target source type summarised
              context) = lookup k context.
Proof.
  intros H. unfold PersonaAgent.collect.
  destruct (truthy (read data key)); [|reflexivity].
  apply push_other. exact H.
Qed.

Lemma collect_same (data : JSValue) (key target source type : string)
      (summarised : bool) (context : Obj) :
  lookup target (PersonaAgent.collect data key target source type summarised
                   context) =
  if truthy (read data key)
  then match lookup target context with
       | Some (JArr xs named) =>
           Some (JArr (xs ++ [PersonaAgent.source_item
                                (JSON_stringify
                                   (if summarised
                                    then or_else
                                           (read (read data key) "summary")
                                           (read data key)
                                    else read data key))
                                source type]) named)
       | other => other
       end
  else lookup target context.
Proof.
  unfold PersonaAgent.collect, PersonaAgent.push, field.
  destruct (truthy (read data key)); [|reflexivity].
  destruct (lookup target context) as [[]|] eqn:E; try exact E.
  apply lookup_set_same.
Qed.

(** Which inputs fill the three categories of the verdict. *)
Lemma populated_categories (uploadedData researchData : JSValue) :
  let sourceContext :=
    PersonaAgent.buildSourceContext uploadedData researchData in
  PersonaAgent.populated sourceContext "demographic_data" =
  (truthy uploadedData
   && (truthy (read uploadedData "mri_data")
       || truthy (read uploadedData "targetsmart_data")))
  || (truthy researchData && truthy (read researchData "demographics"))
  /\ PersonaAgent.populated sourceContext "social_insights" =
     truthy researchData && truthy (read researchData "social_insights")
  /\ PersonaAgent.populated sourceContext "consumer_behavior" =
     truthy researchData && truthy (read researchData "consumer_behavior").
Proof.
  cbv zeta. unfold PersonaAgent.populated, field,
    PersonaAgent.buildSourceContext.
  rewrite !lookup_set_other by discriminate.
  repeat split;
    destruct (truthy uploadedData); destruct (truthy researchData);
    cbn [andb orb];
    repeat first [rewrite collect_other by discriminate
                 | rewrite collect_same];
    try destruct (truthy (read uploadedData "mri_data"));
    try destruct (truthy (read uploadedData "targetsmart_data"));
    try destruct (truthy (read researchData "demographics"));
    try destruct (truthy (read researchData "social_insights"));
    try destruct (truthy (read researchData "consumer_behavior"));
    reflexivity.
Qed.

(** X16.  The data-sufficiency verdict in terms of the inputs of the
    Generator: the data are sufficient exactly when the documents hold
    [mri_data] or [targetsmart_data], or the research holds
    [demographics], [social_insights] or [consumer_behavior].  Client
    data, legal trends and anything else have no part in the verdict. *)
Theorem sufficiency_from_inputs (uploadedData researchData : JSValue) :
  let has v k := truthy (read v k) in
  field (PersonaAgent.validateDataSufficiency
           (PersonaAgent.buildSourceContext uploadedData researchData))
        "sufficient" =
  JBool ((truthy uploadedData
          && (has uploadedData "mri_data"
              || has uploadedData "targetsmart_data"))
         || (truthy researchData
             && (has researchData "demographics"
                 || has researchData "social_insights"
                 || has researchData "consumer_behavior"))).
Proof.
  cbv zeta. rewrite sufficiency_verdict.
  destruct (populated_categories uploadedData researchData) as (D & S & C).
  rewrite D, S, C.
  destruct (truthy uploadedData); destruct (truthy researchData);
    cbn [andb orb]; try reflexivity;
    destruct (truthy (read uploadedData "mri_data"));
    destruct (truthy (read uploadedData "targetsmart_data"));
    cbn [andb orb]; try reflexivity;
    destruct (truthy (read researchData "demographics"));
    destruct (truthy (read researchData "social_insights"));
    destruct (truthy (read researchData "consumer_behavior"));
    reflexivity.
Qed.

End Sufficiency.

(** ** The batch with progress reports *)

Section ProgressReports.
Context {rt : Runtime}.
Variable anthropic : nat -> ApiReply.
Variable clock : nat -> string.
Variable contextData : JSValue.
Variable progressCallback : option (Obj -> Result unit).

#[local] Abbreviation progress_loop :=
  (EnrichmentProgress.progress_loop anthropic clock contextData
     progressCallback).
#[local] Abbreviation enrich :=
  (EnrichmentProgress.enrich anthropic clock contextData).

Lemma quiet_loop (personas : list Obj) :
  (forall callback e, progressCallback = Some callback -> callback e = Ok tt) ->
  forall (i total : nat) (st : EnrichmentProgress.State),
    progress_loop personas i total st =
    ({| EnrichmentProgress.results :=
          EnrichmentProgress.results st
          ++ Shapes.expected_results anthropic clock contextData i personas;
        EnrichmentProgress.reported :=
          EnrichmentProgress.reported st
          ++ match progressCallback with
             | None => []
             | Some _ =>
                 Shapes.expected_reports anthropic clock contextData total i
                   personas
             end |},
     Ok tt).
Proof.
  intros Q. induction personas as [|p rest IH]; intros i total st.
  - cbn. destruct st. destruct progressCallback; rewrite !app_nil_r;
      reflexivity.
  - cbn [EnrichmentProgress.progress_loop].
    unfold EnrichmentProgress.progress_step, EnrichmentProgress.attempt,
      EnrichmentProgress.report.
    cbn [Shapes.expected_results Shapes.expected_reports].
    unfold Shapes.progress_result.
    destruct progressCallback as [callback|] eqn:C.
    + rewrite (Q callback _ eq_refl).
      destruct (enrich i p) as [enriched|message];
        rewrite (Q callback _ eq_refl), IH;
        cbn [EnrichmentProgress.results EnrichmentProgress.reported
             EnrichmentProgress.push];
        rewrite <- !app_assoc; reflexivity.
    + destruct (enrich i p) as [enriched|message];
        rewrite IH;
        cbn [EnrichmentProgress.results EnrichmentProgress.reported
             EnrichmentProgress.push];
        rewrite <- !app_assoc; reflexivity.
Qed.

(** With a context, the results are those of the plain batch. *)
Lemma results_with_context (personas : list Obj) :
  contextData <> JUndefined -> contextData <> JNull ->
  forall i,
    Shapes.expected_results anthropic clock contextData i personas =
    PersonaEnrichmentAgent.enrich_loop anthropic clock personas i [].
Proof.
  intros U N. induction personas as [|p rest IH]; intros i; [reflexivity|].
  cbn [Shapes.expected_results PersonaEnrichmentAgent.enrich_loop app].
  rewrite IH.
  assert (E : Shapes.progress_result anthropic clock contextData i p =
              PersonaEnrichmentAgent.enrich_step anthropic clock i p).
  { unfold Shapes.progress_result, EnrichmentProgress.enrich,
      PersonaEnrichmentAgent.enrich_step.
    destruct contextData; try contradiction; reflexivity. }
  rewrite E. clear IH.
  generalize (PersonaEnrichmentAgent.enrich_step anthropic clock i p).
  intros first. generalize (S i). intros j.
  assert (G : forall acc,
             PersonaEnrichmentAgent.enrich_loop anthropic clock rest j acc =
             acc ++ PersonaEnrichmentAgent.enrich_loop anthropic clock rest
                      j []).
  { clear. revert j. induction rest as [|q more IH]; intros j acc; cbn.
    - rewrite app_nil_r. reflexivity.
    - rewrite (IH (S j) (acc ++ _)), (IH (S j) [_]), <- app_assoc.
      reflexivity. }
  rewrite (G [first]). reflexivity.
Qed.


Lemma expected_results_spec (personas : list Obj) :
  forall j,
    List.length
      (Shapes.expected_results anthropic clock contextData j personas) =
    List.length personas
    /\ forall i persona,
        nth_error personas i = Some persona ->
        nth_error
          (Shapes.expected_results anthropic clock contextData j personas) i =
        Some (Shapes.progress_result anthropic clock contextData (j + i)
                persona).
Proof.
  induction personas as [|p rest IH]; intros j.
  - split; [reflexivity|]. intros [|i] persona H; discriminate.
  - destruct (IH (S j)) as [L N].
    cbn [Shapes.expected_results List.length]. split; [rewrite L; reflexivity|].
    intros [|i] persona H; cbn [nth_error] in *.
    + injection H as <-. rewrite Nat.add_0_r. reflexivity.
    + rewrite (N i persona H). do 2 f_equal. lia.
Qed.


Lemma loud_loop (callback : Obj -> Result unit) (message : string)
      (personas : list Obj) :
  progressCallback = Some callback ->
  (forall i total persona,
      callback (EnrichmentProgress.event i total persona "completed" []) =
      Throw message) ->
  (forall i total persona,
      callback (EnrichmentProgress.event i total persona "enriching" []) =
      Ok tt) ->
  (forall i total persona error,
      callback (EnrichmentProgress.event i total persona "failed"
                  [("error", JStr error)]) = Ok tt) ->
  forall (i total : nat) (st : EnrichmentProgress.State),
    (forall j p, i <= j -> exists enriched, enrich j p = Ok enriched) ->
    exists reports,
      progress_loop personas i total st =
      ({| EnrichmentProgress.results :=
            EnrichmentProgress.results st
            ++ Shapes.enriched_and_failed anthropic clock contextData message
                 i personas;
          EnrichmentProgress.reported := reports |},
       Ok tt).
Proof.
  intros C T E F. rewrite C.
  induction personas as [|p rest IH]; intros i total st A.
  - cbn. destruct st. rewrite app_nil_r. eexists. reflexivity.
  - cbn [EnrichmentProgress.progress_loop].
    unfold EnrichmentProgress.progress_step, EnrichmentProgress.attempt,
      EnrichmentProgress.report.
    rewrite E.
    cbn [Shapes.enriched_and_failed].
    unfold Shapes.progress_result.
    destruct (A i p (le_n _)) as [enriched Es]. rewrite Es, T, F.
    match goal with
    | |- context [EnrichmentProgress.progress_loop _ _ _ _ rest (S i) total
                    ?st1] =>
        destruct (IH (S i) total st1) as [reports L]
    end.
    { intros j q J. apply A. lia. }
    rewrite L. exists reports.
    cbn [EnrichmentProgress.results EnrichmentProgress.reported
         EnrichmentProgress.push].
    rewrite <- !app_assoc. reflexivity.
Qed.

Lemma enriched_and_failed_length (message : string) (personas : list Obj) :
  forall i,
    List.length (Shapes.enriched_and_failed anthropic clock contextData
                   message i personas) = 2 * List.length personas.
Proof.
  induction personas as [|p rest IH]; intros i; [reflexivity|].
  cbn [Shapes.enriched_and_failed List.length]. rewrite IH. lia.
Qed.


End ProgressReports.

(** ** The store of generated personas *)

Section Store.
Context {rt : Runtime}.
Variable GOOGLE_SHEETS_ID : option string.
Variable values_append : option string -> string -> list (list JSValue)
                         -> Result JSValue.
Variable values_get : option string -> string
                      -> Result (option (list (list string))).
Variable values_batchUpdate : string -> list Obj -> Result unit.
Variable parseFloat : JSValue -> Num.
Variable now : string.
Variable initializeSheets_call : Result unit.

Lemma lookup_throws (name : string) :
  SheetsStorage.getPersonaByName GOOGLE_SHEETS_ID values_get parseFloat
    initializeSheets_call name = Throw "initializeSheets is not defined".
Proof. reflexivity. Qed.

(** X19.  The four other functions of the adapter that start with
    [initializeSheets()] throw for every input, as the export does:
    [storePersonas], [getPersonaByName] and [getAllPersonas] pass the
    ReferenceError on, and [updateJuliusSheetWithEnrichment] throws
    [Julius sheet update failed: ...] with the ReferenceError, or with
    the error of the address when that cannot be parsed.  Nothing is
    read from or written to a sheet. *)
Theorem store_functions_always_throw
        (personas : list JSValue) (campaignData : JSValue) (name : string)
        (enrichedPersonas : list Obj) (juliusSheetUrl options : JSValue) :
  SheetsStorage.storePersonas GOOGLE_SHEETS_ID values_append now
    initializeSheets_call personas campaignData =
  Throw "initializeSheets is not defined"
  /\ SheetsStorage.getPersonaByName GOOGLE_SHEETS_ID values_get parseFloat
       initializeSheets_call name = Throw "initializeSheets is not defined"
  /\ SheetsStorage.getAllPersonas GOOGLE_SHEETS_ID values_get parseFloat
       initializeSheets_call = Throw "initializeSheets is not defined"
  /\ SheetsStorage.updateJuliusSheetWithEnrichment values_get
       values_batchUpdate initializeSheets_call enrichedPersonas
       juliusSheetUrl options =
     Throw ("Julius sheet update failed: "
            ++ match SheetsService.extractSheetInfo juliusSheetUrl with
               | Ok _ => "initializeSheets is not defined"
               | Throw message => message
               end).
Proof.
  split; [reflexivity|]. split; [reflexivity|]. split; [reflexivity|].
  unfold SheetsStorage.updateJuliusSheetWithEnrichment.
  destruct (SheetsService.extractSheetInfo juliusSheetUrl); reflexivity.
Qed.

End Store.

(** ** The chat with a persona *)

Section Chat.
Context {rt : Runtime}.
Variable env : Env.
Variable now : string.
Variable now_ms : string.
Variable anthropic_client : Result unit.
Variable GOOGLE_SHEETS_ID : option string.
Variable values_get : option string -> string
                      -> Result (option (list (list string))).
Variable parseFloat : JSValue -> Num.
Variable initializeSheets_call : Result unit.
Variable quick_reply : ApiReply.
Variable chat_reply : ApiReply.

#[local] Abbreviation chat :=
  (ChatPersona.handler env now now_ms anthropic_client GOOGLE_SHEETS_ID
     values_get parseFloat initializeSheets_call quick_reply chat_reply).

#[local] Abbreviation unavailable :=
  (ChatPersona.respond 500
     [("success", JBool false);
      ("error", JStr "Chat temporarily unavailable");
      ("message",
        JStr "I apologize, but I'm having trouble responding right now. Please try again in a moment.");
      ("timestamp", JStr now)]).

(** X20.  The answers of the chat handler.  An OPTIONS request gets an
    empty 200 and another method than POST a 405.  A POST gets 400
    [Message is required], or the fixed 500 body, which never shows the
    error, or a 200 that carries the reply of the model.  In a 200 the
    chat type is [custom_persona] or [generic_persona], the latter with
    the persona [AI Assistant]; it is never [existing_persona], because
    the lookup of a stored persona always throws. *)
Theorem chat_outcomes (req : ChatPersona.Request) :
  (ChatPersona.method req = "OPTIONS" /\ chat req = ChatPersona.respond 200 [])
  \/ (ChatPersona.method req <> "OPTIONS" /\ ChatPersona.method req <> "POST"
      /\ chat req =
         ChatPersona.respond 405 [("error", JStr "Method not allowed")])
  \/ (ChatPersona.method req = "POST"
      /\ (chat req =
          ChatPersona.respond 400 [("error", JStr "Message is required")]
          \/ chat req = unavailable
          \/ (ChatPersona.status (chat req) = 200
              /\ (exists text,
                     chat_reply = ApiText text
                     /\ field (ChatPersona.json (chat req))
                              "persona_response" = JStr text)
              /\ (field (ChatPersona.json (chat req)) "chat_type" =
                  JStr "custom_persona"
                  \/ (field (ChatPersona.json (chat req)) "chat_type" =
                      JStr "generic_persona"
                      /\ field (ChatPersona.json (chat req)) "persona_name" =
                         JStr "AI Assistant"))))).
Proof.
  unfold ChatPersona.handler.
  destruct (String.eqb (ChatPersona.method req) "OPTIONS") eqn:O.
  { left. apply String.eqb_eq in O. split; [exact O|reflexivity]. }
  destruct (String.eqb (ChatPersona.method req) "POST") eqn:P; cbn [negb].
  2:{ right. left. split; [|split; [|reflexivity]];
        intros E; rewrite E in *; discriminate. }
  right. right. apply String.eqb_eq in P. split; [exact P|].
  destruct (get_prop (ChatPersona.body req) "persona_name")
    as [persona_name|m]; cbn [bind]; [|right; left; reflexivity].
  destruct (get_prop (ChatPersona.body req) "message") as [message|m];
    cbn [bind]; [|right; left; reflexivity].
  destruct (get_prop (ChatPersona.body req) "persona_attributes")
    as [persona_attributes|m]; cbn [bind]; [|right; left; reflexivity].
  destruct (if truthy message then _ else _) as [message_text|m];
    cbn [bind]; [|right; left; reflexivity].
  destruct (Text.is_empty message_text); [left; reflexivity|].
  destruct (negb (configured (ANTHROPIC_API_KEY env)));
    [right; left; reflexivity|].
  destruct anthropic_client as [u|m] eqn:A; cbn [bind];
    [|right; left; reflexivity].
  destruct (if truthy persona_name then _ else _) as [name_text|m];
    cbn [bind]; [|right; left; reflexivity].
  rewrite lookup_throws.
  assert (N : (if Text.is_empty name_text
               then (JNull, EmptyString)
               else (JNull, EmptyString)) = (JNull, EmptyString))
    by (destruct (Text.is_empty name_text); reflexivity).
  rewrite N. cbn [truthy negb andb].
  destruct (if truthy persona_attributes then _ else _)
    as [attributes_text|m]; cbn [bind]; [|right; left; reflexivity].
  destruct (Text.is_empty attributes_text).
  - cbn [truthy negb]. destruct chat_reply as [text|m]; cbn [call bind];
      [|right; left; reflexivity].
    right. right. split; [reflexivity|]. split.
    + exists text. split; reflexivity.
    + right. split; reflexivity.
  - destruct (negb (truthy (ChatPersona.generateQuickPersona _ _ _))).
    + destruct chat_reply as [text|m]; cbn [call bind];
        [|right; left; reflexivity].
      right. right. split; [reflexivity|]. split.
      * exists text. split; reflexivity.
      * right. split; reflexivity.
    + destruct chat_reply as [text|m]; cbn [call bind];
        [|right; left; reflexivity].
      right. right. split; [reflexivity|]. split.
      * exists text. split; reflexivity.
      * left. reflexivity.
Qed.

(** X21.  Naming a stored persona makes no difference to the chat: a
    request with a [persona_name] that is a text gets the answer that the
    same request gets without one. *)
Theorem persona_name_is_ignored (fields : Obj) (name : string) :
  chat {| ChatPersona.method := "POST";
          ChatPersona.body := JObj (set "persona_name" (JStr name) fields) |} =
  chat {| ChatPersona.method := "POST";
          ChatPersona.body := JObj (set "persona_name" JUndefined fields) |}.
Proof.
  unfold ChatPersona.handler.
  cbn [ChatPersona.method ChatPersona.body String.eqb Ascii.eqb Bool.eqb negb
       get_prop bind].
  rewrite !field_set_same, !field_set_other by discriminate.
  destruct (if truthy (field fields "message") then _ else _)
    as [message_text|m]; cbn [bind]; [|reflexivity].
  destruct (Text.is_empty message_text); [reflexivity|].
  destruct (negb (configured (ANTHROPIC_API_KEY env))); [reflexivity|].
  destruct anthropic_client as [u|m]; cbn [bind]; [|reflexivity].
  cbn [truthy ChatPersona.trimmed bind]. rewrite !lookup_throws.
  destruct (negb (Text.is_empty name)) eqn:E; cbn [bind Text.is_empty];
    destruct (Text.is_empty (Text.trim name)); reflexivity.
Qed.

End Chat.

(** ** The further properties on sample inputs *)

(** The sample sheet: the row without a name is skipped, and the two
    others are imported with the marks of the import. *)
Lemma import_keeps_named_rows_witness :
  exists imported,
    SheetsService.fetchPersonasFromExternalSheet
      (rt := ReferenceRuntime.runtime) (Ok tt) (fun _ => Ok (Some Cases.sheet))
      Samples.timestamp Cases.sheet_address = Ok imported
    /\ List.length imported = 2
    /\ forall persona,
        In persona imported -> field persona "source" = JStr "julius_sheet".
Proof.
  eexists. split; [vm_compute; reflexivity|]. split; [reflexivity|].
  intros persona I.
  match type of I with
  | In _ ?l =>
      destruct (import_keeps_named_rows (rt := ReferenceRuntime.runtime)
                  (Ok tt) (fun _ => Ok (Some Cases.sheet)) Samples.timestamp
                  Cases.sheet_address l ltac:(vm_compute; reflexivity))
        as (id & gid & first & second & others & _ & _ & _ & _ & N)
  end.
  apply (N persona I).
Defined.

Lemma imported_personas_all_valid_witness :
  exists imported v,
    SheetsService.fetchPersonasFromExternalSheet
      (rt := ReferenceRuntime.runtime) (Ok tt) (fun _ => Ok (Some Cases.sheet))
      Samples.timestamp Cases.sheet_address = Ok imported
    /\ SheetsService.validatePersonas (rt := ReferenceRuntime.runtime)
         imported = Ok v
    /\ SheetsService.valid v = imported
    /\ SheetsService.invalid_personas (SheetsService.summary v) = 0.
Proof.
  eexists.
  match goal with
  | |- exists v, ?f = Ok ?l /\ _ =>
      assert (F : f = Ok l) by (vm_compute; reflexivity);
      destruct (imported_personas_all_valid (rt := ReferenceRuntime.runtime)
                  (Ok tt) (fun _ => Ok (Some Cases.sheet)) Samples.timestamp
                  Cases.sheet_address l F)
        as (v & E & V & _ & _ & _ & Z)
  end.
  exists v. split; [exact F|]. split; [exact E|]. split; [exact V|exact Z].
Defined.



Lemma validated_url_has_an_id_witness :
  SheetsService.extractSheetInfo
    (JStr "https://docs.google.com/spreadsheets/d/1MyEQrGY2NAhvgf6/edit") =
  Ok ("1MyEQrGY2NAhvgf6", None).
Proof.
  exact (proj1 (validated_url_has_an_id
                  "https://docs.google.com/spreadsheets/d/1MyEQrGY2NAhvgf6/edit"
                  eq_refl)).
Defined.

Lemma sheet_url_round_trip_witness :
  SheetsService.extractSheetInfo
    (JStr "https://docs.google.com/spreadsheets/d/1MyEQrGY2NAhvgf6/edit#gid=42") =
  Ok ("1MyEQrGY2NAhvgf6", Some "42").
Proof.
  exact (proj1 (sheet_url_round_trip "1MyEQrGY2NAhvgf6" "42"
                  ltac:(discriminate) eq_refl ltac:(discriminate) eq_refl)).
Defined.

(** A cell of hobbies with both separators and spaces. *)
Lemma list_cell_items_witness :
  exists items,
    lookup "interests"
      (SheetsService.parse_column (rt := ReferenceRuntime.runtime)
         "hobbies" "chess, hiking; jazz" []) = Some (JStrings items)
    /\ Forall (fun item =>
                 item <> EmptyString
                 /\ Text.trim item = item
                 /\ Shapes.all_chars
                      (fun c => negb (Text.is_list_separator c)) item = true)
              items.
Proof.
  exact (list_cell_items (rt := ReferenceRuntime.runtime)
           "hobbies" "chess, hiking; jazz" "interests" []
           eq_refl eq_refl eq_refl).
Defined.

(** The city is lost to the state. *)
Lemma later_column_wins_witness :
  lookup "location"
    (SheetsService.parse_columns (rt := ReferenceRuntime.runtime)
       ["name"; "city"; "state"; "hobbies"]
       ["Alice Moreno"; "Tulsa"; "OK"; "chess"] []) = Some (JStr "OK").
Proof.
  apply (later_column_wins (rt := ReferenceRuntime.runtime)
           [("name", "Alice Moreno"); ("city", "Tulsa")]
           [("hobbies", "chess")] "state" "OK" [] eq_refl).
  repeat constructor. intros H. vm_compute in H. discriminate H.
Defined.

Lemma import_summary_adds_up_witness :
  exists v,
    SheetsService.validatePersonas (rt := ReferenceRuntime.runtime)
      [Samples.nameless_persona; Samples.aged_persona;
       Samples.blank_name_persona] = Ok v
    /\ SheetsService.valid_personas (SheetsService.summary v)
       + SheetsService.invalid_personas (SheetsService.summary v) = 3.
Proof.
  eexists.
  match goal with
  | |- ?f = Ok ?v /\ _ =>
      assert (E : f = Ok v) by (vm_compute; reflexivity);
      destruct (import_summary_adds_up (rt := ReferenceRuntime.runtime)
                  _ v E) as (T & A & _)
  end.
  split; [exact E|]. exact A.
Defined.




(** ** More on cells, replies and generated arrays *)

Section MoreEdges.
Context {rt : Runtime}.

Lemma double_of_Z_cases (z : Z) :
  double_of_Z z = PInf \/ double_of_Z z = NInf
  \/ exists m, double_of_Z z = num_of_Z m.
Proof.
  unfold double_of_Z.
  destruct (Z.abs z <? 2 ^ 53)%Z; [right; right; eexists; reflexivity|].
  cbv zeta.
  match goal with
  | |- context [(2 ^ 1024 <=? ?m)%Z] => destruct (2 ^ 1024 <=? m)%Z
  end.
  - destruct (z <? 0)%Z; [right; left|left]; reflexivity.
  - right. right. eexists. reflexivity.
Qed.

Lemma parseInt_cases (v : JSValue) :
  parseInt v = NaN \/ parseInt v = PInf \/ parseInt v = NInf
  \/ exists z, parseInt v = num_of_Z z.
Proof.
  unfold parseInt.
  destruct (match Text.trimStart (to_text v) with
            | EmptyString => _
            | String c r => _
            end) as [negative s1].
  destruct (if Text.startsWith "0x" s1 || Text.startsWith "0X" s1
            then _ else _) as [[value count] rest].
  destruct count; [left; reflexivity|right].
  apply double_of_Z_cases.
Qed.

(** X22.  A cell under the header [age] is stored as a number, never
    as [NaN] and never as text: what [parseInt] returns for the cell,
    and 0 when that is [NaN].  The number is an integer or infinite (a
    numeral from [2^1024] on); the numeral of a positive integer below
    [2^53] is stored as that integer. *)
Theorem age_cell_is_a_number (header value : string) (persona : Obj) :
  SheetsService.blank value = false ->
  SheetsService.mapped header SheetsService.columnMapping = Some "age" ->
  exists n : Num,
    lookup "age" (SheetsService.parse_column header value persona) =
    Some (JNum n)
    /\ num_is_nan n = false
    /\ ((parseInt (JStr value) = NaN /\ n = num_of_Z 0)
        \/ parseInt (JStr value) = n)
    /\ (n = PInf \/ n = NInf \/ exists z, n = num_of_Z z)
    /\ (forall z, (0 < z < 2 ^ 53)%Z ->
                  value = Text.decimal_of_Z z -> n = num_of_Z z).
Proof.
  intros B M. rewrite (parse_column_age header value persona B M).
  assert (K : exists n : Num,
             or_else (JNum (parseInt (JStr value))) (JInt 0) = JNum n
             /\ num_is_nan n = false
             /\ ((parseInt (JStr value) = NaN /\ n = num_of_Z 0)
                 \/ parseInt (JStr value) = n)
             /\ (n = PInf \/ n = NInf \/ exists z, n = num_of_Z z)).
  { destruct (parseInt_cases (JStr value)) as [N|[N|[N|[z N]]]]; rewrite N.
    - exists (num_of_Z 0). split; [reflexivity|]. split; [reflexivity|].
      split; [left; split; reflexivity|]. right. right. exists 0%Z.
      reflexivity.
    - exists PInf. split; [reflexivity|]. split; [reflexivity|].
      split; [right; reflexivity|]. left. reflexivity.
    - exists NInf. split; [reflexivity|]. split; [reflexivity|].
      split; [right; reflexivity|]. right. left. reflexivity.
    - exists (num_of_Z z). split.
      + destruct (Z.eq_dec z 0) as [->|Z]; [reflexivity|].
        unfold or_else. fold (JInt z). rewrite (truthy_nonzero z Z).
        reflexivity.
      + split; [reflexivity|]. split; [right; reflexivity|].
        right. right. exists z. reflexivity. }
  destruct K as (n & E & A & C & I). exists n. rewrite E.
  split; [reflexivity|]. split; [exact A|]. split; [exact C|].
  split; [exact I|]. intros z Hz ->.
  destruct (parseInt_decimal z Hz) as [P _]. rewrite P in C.
  destruct C as [[C _]|C]; [discriminate C|symmetry; exact C].
Qed.

(** X23.  What a research query makes of an answer that is valid JSON.
    An object is returned with its own properties and two more,
    [_raw_response] (the text of the answer) and [_request_type], which
    replace properties of these names.  A JSON value that cannot take a
    property ([null], a number, a text, a boolean) is handled as an
    answer that could not be parsed: the result is the tagged error
    object. *)
Theorem structured_answer_is_tagged
        (perplexity : string -> HttpReply) (requestType content : string)
        (parsed : JSValue) :
  perplexity requestType = HttpContent content ->
  content <> EmptyString ->
  JSON_parse content = Ok parsed ->
  match parsed with
  | JObj properties =>
      exists tagged,
        ResearchAgent.makePerplexityRequest perplexity requestType =
        Ok (JObj tagged)
        /\ field tagged "_raw_response" = JStr content
        /\ field tagged "_request_type" = JStr requestType
        /\ forall k, k <> "_raw_response" -> k <> "_request_type" ->
                     lookup k tagged = lookup k properties
  | JArr elements named =>
      exists tagged,
        ResearchAgent.makePerplexityRequest perplexity requestType =
        Ok (JArr elements tagged)
        /\ field tagged "_raw_response" = JStr content
        /\ field tagged "_request_type" = JStr requestType
  | _ =>
      exists parseError,
        ResearchAgent.makePerplexityRequest perplexity requestType =
        Ok (ResearchAgent.raw_text_result content requestType parseError)
  end.
Proof.
  intros R N P. unfold ResearchAgent.makePerplexityRequest. rewrite R.
  destruct content as [|c content]; [contradiction|].
  cbn [Text.is_empty]. rewrite P.
  destruct parsed; cbn [bind assign_prop try_catch];
    try (eexists; reflexivity).
  - eexists. split; [reflexivity|].
    split; [rewrite field_set_other by discriminate|]; apply field_set_same.
  - eexists. split; [reflexivity|].
    split; [rewrite field_set_other by discriminate; apply field_set_same|].
    split; [apply field_set_same|].
    intros k K1 K2. rewrite !lookup_set_other by assumption. reflexivity.
Qed.

(** The source context has no list of media insights. *)
Lemma context_has_no_media (uploadedData researchData : JSValue) :
  lookup "media_insights"
         (PersonaAgent.buildSourceContext uploadedData researchData) = None.
Proof.
  unfold PersonaAgent.buildSourceContext.
  rewrite lookup_set_other by discriminate.
  destruct (truthy researchData); destruct (truthy uploadedData);
    rewrite ?collect_other by discriminate; reflexivity.
Qed.


Lemma mapM_throws {A B} (f : A -> Result B) (l : list A) (x : A)
      (message : string) :
  In x l -> f x = Throw message -> exists m, mapM f l = Throw m.
Proof.
  intros I T. induction l as [|a r IH]; [destruct I|].
  cbn [mapM]. destruct I as [->|I].
  - rewrite T. eexists. reflexivity.
  - destruct (f a); cbn [bind]; [|eexists; reflexivity].
    destruct (IH I) as [m E]. rewrite E. eexists. reflexivity.
Qed.

Lemma cite_needs_an_object (sourceContext : Obj) (persona : JSValue) :
  Spec.is_object persona = false ->
  exists message, PersonaAgent.cite sourceContext persona = Throw message.
Proof.
  unfold PersonaAgent.cite.
  destruct persona; try discriminate; intros _; cbn [get_prop bind];
    eexists; reflexivity.
Qed.

(** X25.  The Generator has no tolerance for an element of the model's
    array that is not an object: with sufficient data, when the reply
    holds a JSON array with an element such as [null], a number or a
    text, [generatePersonas] throws (the citation step cannot read or
    set a property), and returns none of the other personas. *)
Theorem generation_needs_objects
        (env : Env) (now : string) (campaignData : Obj)
        (uploadedData researchData : JSValue) (personaCount : Num)
        (text json : string) (elements : list JSValue) (named : Obj)
        (element : JSValue) :
  configured (ANTHROPIC_API_KEY env) = true ->
  truthy (field (PersonaAgent.validateDataSufficiency
                   (PersonaAgent.buildSourceContext uploadedData researchData))
                "sufficient") = true ->
  Text.match_array (Text.trim text) = Some json ->
  JSON_parse json = Ok (JArr elements named) ->
  In element elements ->
  Spec.is_object element = false ->
  exists message,
    PersonaAgent.generatePersonas env (ApiText text) now campaignData
      uploadedData researchData personaCount = Throw message.
Proof.
  intros K S M P I O. unfold PersonaAgent.generatePersonas.
  rewrite K. cbn [negb]. cbv zeta. rewrite S. cbn [negb call bind].
  unfold PersonaAgent.parsePersonaResponse. rewrite M, P.
  cbn [bind try_catch]. unfold PersonaAgent.addSourceCitations.
  destruct (cite_needs_an_object
              (PersonaAgent.buildSourceContext uploadedData researchData)
              element O) as [m C].
  destruct (mapM_throws _ elements element m I C) as [m' E].
  rewrite E. eexists. reflexivity.
Qed.

End MoreEdges.

(** A cell with the numeral of [2^53 + 1] is stored as [2^53], the
    nearest double. *)
Lemma age_cell_is_a_number_witness :
  lookup "age"
    (SheetsService.parse_column (rt := ReferenceRuntime.runtime)
       "age" "9007199254740993" []) = Some (JInt 9007199254740992).
Proof.
  destruct (age_cell_is_a_number (rt := ReferenceRuntime.runtime)
              "age" "9007199254740993" [] eq_refl eq_refl) as (n & E & _).
  rewrite E. vm_compute in E. injection E as <-. reflexivity.
Defined.

(** The answer [null] is valid JSON and still an error object. *)
Lemma structured_answer_is_tagged_witness :
  exists parseError,
    ResearchAgent.makePerplexityRequest (rt := ReferenceRuntime.runtime)
      (fun _ => HttpContent "null") "demographics" =
    Ok (ResearchAgent.raw_text_result "null" "demographics" parseError).
Proof.
  exact (structured_answer_is_tagged (rt := ReferenceRuntime.runtime)
           (fun _ => HttpContent "null") "demographics" "null" JNull
           eq_refl ltac:(discriminate) eq_refl).
Defined.

(** An array with a [null] beside a persona. *)
Lemma generation_needs_objects_witness :
  exists message,
    PersonaAgent.generatePersonas (rt := ReferenceRuntime.runtime)
      Samples.sample_env (ApiText "[null]") Samples.timestamp Samples.campaign
      (JArray []) Samples.research_found (Fin 3) = Throw message.
Proof.
  exact (generation_needs_objects (rt := ReferenceRuntime.runtime)
           Samples.sample_env Samples.timestamp Samples.campaign (JArray [])
           Samples.research_found (Fin 3) "[null]" "[null]" [JNull] [] JNull
           eq_refl eq_refl eq_refl eq_refl (or_introl eq_refl) eq_refl).
Defined.
